(** * Invoice totals and invoice persistence of Chaksack/invoicegen

    A shallow embedding of
    - the Sequelize model [Invoice] ([lib/db/models/Invoice.ts] and
      [server/src/models/Invoice.js]) with its [beforeCreate] and
      [beforeUpdate] hooks,
    - the Express controller ([controllers/invoiceController.js]),
    - the Next.js API routes ([pages/api/invoices/index.ts] and
      [pages/api/invoices/[id].ts]) with the helpers of [lib/api-utils.ts],
    - the functions of the two invoice forms that rebuild the line items
      and compute the totals shown, and the check the Next.js form makes
      before it sends the invoice,
    - the connection test of [lib/db/db.ts] with its retry loop.

    JavaScript numbers are IEEE 754 binary64 values: they are modelled by
    Rocq's primitive [float], whose operations are the same binary64
    operations with rounding to nearest, ties to even.  The [Invoices]
    table is a finite map from the primary key to the row.

    The model methods the repository calls ([create], [findOne],
    [findByPk], [update], [changed], [destroy]) are Sequelize's; they are
    written out here as Sequelize 6 implements them ([Model#set],
    [Model#changed], [Model#update], [Model#save]).  Values are taken at
    the types the TypeScript interfaces give them.

    The table of the model records the statements the database executes.
    What the database refuses makes the routes answer 500 and leaves the
    table as it was, and is not modelled: a lost connection, an id that
    it does not read as a UUID, a date it cannot read ([invoiceDate] and
    [dueDate] are DATEONLY columns, and Sequelize rewrites a date it can
    read as YYYY-MM-DD), a [UserId] that is not in [Users], a string too
    long for its column.  Numbers are kept as the hooks compute them; the
    database writes [-0] as [0], and the JSONB column [items] has no
    infinities and no NaN.  The properties that depend on any of this say
    so: they are about requests answered with success, about ids in the
    canonical form of a UUID, or about items that are finite numbers, and
    they compare the numbers stored as numbers. *)

From Stdlib Require Import ZArith Floats Lia Bool Ascii Permutation.
From stdpp Require Import base option strings list gmap.

(** ** JavaScript numbers *)

Module JS.

Definition number := float.

(** [x === y] on numbers. *)
Definition strictEq (x y : number) : bool := PrimFloat.eqb x y.

(** SameValueZero, the comparison lodash's [_.isEqual] applies to
    numbers: like [===], but NaN equals NaN. *)
Definition sameValueZero (x y : number) : bool :=
  strictEq x y || (PrimFloat.is_nan x && PrimFloat.is_nan y).

(** Truthiness of a number: [0], [-0] and [NaN] are falsy. *)
Definition truthy (x : number) : bool :=
  negb (PrimFloat.is_zero x || PrimFloat.is_nan x).

(** [Number.isFinite]. *)
Definition isFinite (x : number) : bool := PrimFloat.is_finite x.

(** Truthiness of a string: only the empty string is falsy. *)
Definition truthyString (s : string) : bool := negb (String.eqb s EmptyString).

End JS.

(** ** The data model ([InvoiceItem], [InvoiceAttributes]) *)

Record InvoiceItem := mkItem {
  item_id : string;
  description : string;
  quantity : JS.number;
  unitPrice : JS.number
}.

Record Address := mkAddress {
  name : string;
  address : string;
  city : string;
  postalCode : string;
  country : string
}.

(** The row of the [Invoices] table.  Nullable columns are options; the
    timestamps [createdAt] and [updatedAt] play no part in the hooks and
    are left out. *)
Record InvoiceAttributes := mkInvoice {
  id : string;
  invoiceNumber : option string;
  invoiceDate : string;
  dueDate : option string;
  logoUrl : option string;
  sender : Address;
  recipient : Address;
  items : list InvoiceItem;
  currency : string;
  taxRate : JS.number;
  subtotal : JS.number;
  total : JS.number;
  UserId : string
}.

(** The attribute names of the model. *)
Inductive Attr :=
  | AId | AInvoiceNumber | AInvoiceDate | ADueDate | ALogoUrl | ASender
  | ARecipient | AItems | ACurrency | ATaxRate | ASubtotal | ATotal | AUserId.

#[global] Instance Attr_eq_dec : EqDecision Attr.
Proof. solve_decision. Defined.

Definition rawAttributes : list Attr :=
  [AId; AInvoiceNumber; AInvoiceDate; ADueDate; ALogoUrl; ASender;
   ARecipient; AItems; ACurrency; ATaxRate; ASubtotal; ATotal; AUserId].

(** ** The calculator: the body shared by the two hooks

    [[
      const subtotal = invoice.items.reduce(
        (sum, item) => sum + (item.quantity * item.unitPrice), 0);
      const taxAmount = subtotal * (invoice.taxRate / 100);
      invoice.subtotal = subtotal;
      invoice.total = subtotal + taxAmount;
    ]] *)

Record Totals := mkTotals { t_subtotal : JS.number; t_total : JS.number }.

Definition reduceItems (items : list InvoiceItem) : JS.number :=
  fold_left (fun sum item => (sum + (quantity item * unitPrice item))%float)
            items 0%float.

Definition taxAmount (subtotal taxRate : JS.number) : JS.number :=
  (subtotal * (taxRate / 100))%float.

Definition computeTotals (items : list InvoiceItem) (taxRate : JS.number) : Totals :=
  let subtotal := reduceItems items in
  let taxAmount := taxAmount subtotal taxRate in
  {| t_subtotal := subtotal; t_total := (subtotal + taxAmount)%float |}.

(** ** Sequelize: model instances, change tracking, attribute setters

    The repository defines the model with [sequelize.define]; the
    behaviour of [Model.create], [Model.findOne], [instance.update],
    [instance.changed] and [instance.destroy] is Sequelize's.  An instance
    carries its [dataValues] and the set of attribute names marked as
    changed since it was loaded. *)

Record Instance := mkInstance {
  dataValues : InvoiceAttributes;
  changedKeys : list Attr;
  isNewRecord : bool
}.

(** [invoice.changed(key)]. *)
Definition changed (key : Attr) (invoice : Instance) : bool :=
  bool_decide (key ∈ changedKeys invoice).

Definition with_subtotal (v : JS.number) (r : InvoiceAttributes) : InvoiceAttributes :=
  {| id := id r; invoiceNumber := invoiceNumber r; invoiceDate := invoiceDate r;
     dueDate := dueDate r; logoUrl := logoUrl r; sender := sender r;
     recipient := recipient r; items := items r; currency := currency r;
     taxRate := taxRate r; subtotal := v; total := total r; UserId := UserId r |}.

Definition with_total (v : JS.number) (r : InvoiceAttributes) : InvoiceAttributes :=
  {| id := id r; invoiceNumber := invoiceNumber r; invoiceDate := invoiceDate r;
     dueDate := dueDate r; logoUrl := logoUrl r; sender := sender r;
     recipient := recipient r; items := items r; currency := currency r;
     taxRate := taxRate r; subtotal := subtotal r; total := v; UserId := UserId r |}.

(** [invoice.subtotal = v]: the setter stores the value and marks the
    attribute as changed when the value is not [_.isEqual] to the one it
    replaces. *)
Definition set_subtotal (v : JS.number) (invoice : Instance) : Instance :=
  {| dataValues := with_subtotal v (dataValues invoice);
     changedKeys :=
       if JS.sameValueZero v (subtotal (dataValues invoice))
       then changedKeys invoice else ASubtotal :: changedKeys invoice;
     isNewRecord := isNewRecord invoice |}.

(** [invoice.total = v]. *)
Definition set_total (v : JS.number) (invoice : Instance) : Instance :=
  {| dataValues := with_total v (dataValues invoice);
     changedKeys :=
       if JS.sameValueZero v (total (dataValues invoice))
       then changedKeys invoice else ATotal :: changedKeys invoice;
     isNewRecord := isNewRecord invoice |}.

(** ** The hooks of the model *)

(** [beforeCreate]: calculate subtotal and total before saving. *)
Definition beforeCreate (invoice : Instance) : Instance :=
  let t := computeTotals (items (dataValues invoice)) (taxRate (dataValues invoice)) in
  set_total (t_total t) (set_subtotal (t_subtotal t) invoice).

(** [beforeUpdate]: recalculate if items or tax rate changed. *)
Definition beforeUpdate (invoice : Instance) : Instance :=
  if changed AItems invoice || changed ATaxRate invoice then
    let t := computeTotals (items (dataValues invoice)) (taxRate (dataValues invoice)) in
    set_total (t_total t) (set_subtotal (t_subtotal t) invoice)
  else invoice.

(** ** Attribute values handed to [create] and [update]

    [Partial] is the object of attributes a caller passes: [None] stands
    for a key that is absent or [undefined] (Sequelize's [update] drops
    undefined values, [create] replaces them by the defaults). *)

Record Partial := mkPartial {
  p_id : option string;
  p_invoiceNumber : option (option string);
  p_invoiceDate : option string;
  p_dueDate : option (option string);
  p_logoUrl : option (option string);
  p_sender : option Address;
  p_recipient : option Address;
  p_items : option (list InvoiceItem);
  p_currency : option string;
  p_taxRate : option JS.number;
  p_subtotal : option JS.number;
  p_total : option JS.number;
  p_UserId : option string
}.

(** [key in values]. *)
Definition present (p : Partial) (key : Attr) : bool :=
  match key with
  | AId => bool_decide (is_Some (p_id p))
  | AInvoiceNumber => bool_decide (is_Some (p_invoiceNumber p))
  | AInvoiceDate => bool_decide (is_Some (p_invoiceDate p))
  | ADueDate => bool_decide (is_Some (p_dueDate p))
  | ALogoUrl => bool_decide (is_Some (p_logoUrl p))
  | ASender => bool_decide (is_Some (p_sender p))
  | ARecipient => bool_decide (is_Some (p_recipient p))
  | AItems => bool_decide (is_Some (p_items p))
  | ACurrency => bool_decide (is_Some (p_currency p))
  | ATaxRate => bool_decide (is_Some (p_taxRate p))
  | ASubtotal => bool_decide (is_Some (p_subtotal p))
  | ATotal => bool_decide (is_Some (p_total p))
  | AUserId => bool_decide (is_Some (p_UserId p))
  end.

(** [Object.keys(values)], restricted to the attributes of the model. *)
Definition payloadKeys (p : Partial) : list Attr :=
  filter (fun k => present p k = true) rawAttributes.

(** [_.isEqual] on the values of the attributes. *)
Definition isEqual_item (a b : InvoiceItem) : bool :=
  String.eqb (item_id a) (item_id b) && String.eqb (description a) (description b)
  && JS.sameValueZero (quantity a) (quantity b)
  && JS.sameValueZero (unitPrice a) (unitPrice b).

Fixpoint isEqual_items (l1 l2 : list InvoiceItem) : bool :=
  match l1, l2 with
  | [], [] => true
  | a :: l1', b :: l2' => isEqual_item a b && isEqual_items l1' l2'
  | _, _ => false
  end.

Definition isEqual_address (a b : Address) : bool :=
  String.eqb (name a) (name b) && String.eqb (address a) (address b)
  && String.eqb (city a) (city b) && String.eqb (postalCode a) (postalCode b)
  && String.eqb (country a) (country b).

Definition isEqual_nullable (a b : option string) : bool :=
  match a, b with
  | None, None => true
  | Some s, Some t => String.eqb s t
  | _, _ => false
  end.

(** Does [set(key, values[key])] mark [key] as changed on an instance
    whose current values are [r]?  A primary key that is already defined
    is never overwritten.  Dates are compared as the strings given. *)
Definition differs (p : Partial) (r : InvoiceAttributes) (key : Attr) : bool :=
  match key with
  | AId => match p_id p with
           | Some v => negb (JS.truthyString (id r)) && negb (String.eqb v (id r))
           | None => false end
  | AInvoiceNumber => match p_invoiceNumber p with
                      | Some v => negb (isEqual_nullable v (invoiceNumber r)) | None => false end
  | AInvoiceDate => match p_invoiceDate p with
                    | Some v => negb (String.eqb v (invoiceDate r)) | None => false end
  | ADueDate => match p_dueDate p with
                | Some v => negb (isEqual_nullable v (dueDate r)) | None => false end
  | ALogoUrl => match p_logoUrl p with
                | Some v => negb (isEqual_nullable v (logoUrl r)) | None => false end
  | ASender => match p_sender p with
               | Some v => negb (isEqual_address v (sender r)) | None => false end
  | ARecipient => match p_recipient p with
                  | Some v => negb (isEqual_address v (recipient r)) | None => false end
  | AItems => match p_items p with
              | Some v => negb (isEqual_items v (items r)) | None => false end
  | ACurrency => match p_currency p with
                 | Some v => negb (String.eqb v (currency r)) | None => false end
  | ATaxRate => match p_taxRate p with
                | Some v => negb (JS.sameValueZero v (taxRate r)) | None => false end
  | ASubtotal => match p_subtotal p with
                 | Some v => negb (JS.sameValueZero v (subtotal r)) | None => false end
  | ATotal => match p_total p with
              | Some v => negb (JS.sameValueZero v (total r)) | None => false end
  | AUserId => match p_UserId p with
               | Some v => negb (String.eqb v (UserId r)) | None => false end
  end.

(** The data values after [this.set(values)].  Dates are kept as they
    are given. *)
Definition assignValues (p : Partial) (r : InvoiceAttributes) : InvoiceAttributes :=
  {| id := match p_id p with
           | Some v => if JS.truthyString (id r) then id r else v
           | None => id r end;
     invoiceNumber := default (invoiceNumber r) (p_invoiceNumber p);
     invoiceDate := default (invoiceDate r) (p_invoiceDate p);
     dueDate := default (dueDate r) (p_dueDate p);
     logoUrl := default (logoUrl r) (p_logoUrl p);
     sender := default (sender r) (p_sender p);
     recipient := default (recipient r) (p_recipient p);
     items := default (items r) (p_items p);
     currency := default (currency r) (p_currency p);
     taxRate := default (taxRate r) (p_taxRate p);
     subtotal := default (subtotal r) (p_subtotal p);
     total := default (total r) (p_total p);
     UserId := default (UserId r) (p_UserId p) |}.

(** [this.set(values)]: every value is stored, and every key whose value
    is not [_.isEqual] to the one it replaces is marked as changed. *)
Definition set (p : Partial) (invoice : Instance) : Instance :=
  {| dataValues := assignValues p (dataValues invoice);
     changedKeys := changedKeys invoice
                    ++ filter (fun k => differs p (dataValues invoice) k = true) rawAttributes;
     isNewRecord := isNewRecord invoice |}.

(** ** The table and the queries *)

Abbreviation Store := (gmap string InvoiceAttributes).

(** An instance as a finder returns it: the row, nothing changed. *)
Definition loaded (r : InvoiceAttributes) : Instance :=
  {| dataValues := r; changedKeys := []; isNewRecord := false |}.

(** [Invoice.findOne({ where: { id: invoiceId, UserId: userId } })], for
    ids the database reads as UUIDs: the query fails for any other id. *)
Definition findOne (invoiceId userId : string) (st : Store) : option Instance :=
  match st !! invoiceId with
  | Some r => if String.eqb (id r) invoiceId && String.eqb (UserId r) userId
              then Some (loaded r) else None
  | None => None
  end.

(** [Invoice.findByPk(pk)], for a key the database reads as a UUID. *)
Definition findByPk (pk : string) (st : Store) : option Instance :=
  match st !! pk with
  | Some r => if String.eqb (id r) pk then Some (loaded r) else None
  | None => None
  end.

(** [UPDATE Invoices SET fields WHERE id = ...]: the columns named in
    [fields] take the instance's values, the others keep theirs. *)
Definition writeFields (fields : list Attr) (v r : InvoiceAttributes) : InvoiceAttributes :=
  let pick {A} (k : Attr) (f : InvoiceAttributes -> A) : A :=
    if bool_decide (k ∈ fields) then f v else f r in
  {| id := pick AId id;
     invoiceNumber := pick AInvoiceNumber invoiceNumber;
     invoiceDate := pick AInvoiceDate invoiceDate;
     dueDate := pick ADueDate dueDate;
     logoUrl := pick ALogoUrl logoUrl;
     sender := pick ASender sender;
     recipient := pick ARecipient recipient;
     items := pick AItems items;
     currency := pick ACurrency currency;
     taxRate := pick ATaxRate taxRate;
     subtotal := pick ASubtotal subtotal;
     total := pick ATotal total;
     UserId := pick AUserId UserId |}.

(** [!==] between the value a hook left in [key] and the value [key] had
    before the hook ran; the hooks assign [subtotal] and [total] only. *)
Definition hookAltered (before after : InvoiceAttributes) (key : Attr) : bool :=
  match key with
  | ASubtotal => negb (JS.strictEq (subtotal after) (subtotal before))
  | ATotal => negb (JS.strictEq (total after) (total before))
  | _ => false
  end.

(** [instance.save({ fields })] of a persisted instance: run
    [beforeUpdate], add to [fields] the attributes the hook changed, and
    write those columns.  Nothing is written when no attribute is marked
    as changed. *)
Definition save (fields : list Attr) (invoice : Instance) (st : Store) : Instance * Store :=
  let before := dataValues invoice in
  let ignoreChanged := filter (fun k => k ∉ fields) (changedKeys invoice) in
  let invoice' := beforeUpdate invoice in
  let hookChanged :=
    filter (fun k => (k ∉ ignoreChanged)
                     ∧ ((k ∉ fields) ∨ hookAltered before (dataValues invoice') k = true))
           (changedKeys invoice') in
  let fields' := fields ++ hookChanged in
  if bool_decide (fields' = []) || bool_decide (changedKeys invoice' = [])
  then (invoice', st)
  else (invoice', alter (writeFields fields' (dataValues invoice')) (id (dataValues invoice')) st).

(** [instance.update(values)], when the database executes the [UPDATE]; an
    update it refuses (a date it cannot read, a [UserId] that is not in
    [Users]) throws, and is not modelled. *)
Definition update (values : Partial) (invoice : Instance) (st : Store) : Instance * Store :=
  save (payloadKeys values) (set values invoice) st.

(** [instance.destroy()]. *)
Definition destroy (invoice : Instance) (st : Store) : Store :=
  delete (id (dataValues invoice)) st.

(** What [Model.create] takes from outside: the UUID the [id] column
    defaults to and the date [invoiceDate] defaults to. *)
Record Env := mkEnv { uuidv4 : string; now : string }.

Definition emptyAddress : Address :=
  {| name := EmptyString; address := EmptyString; city := EmptyString;
     postalCode := EmptyString; country := EmptyString |}.

(** [Invoice.build(values)]: the given values over the column defaults.
    Dates are kept as they are given: the sanitiser of the DATEONLY
    columns is not modelled. *)
Definition build (env : Env) (p : Partial) : Instance :=
  {| dataValues :=
       {| id := default (uuidv4 env) (p_id p);
          invoiceNumber := default None (p_invoiceNumber p);
          invoiceDate := default (now env) (p_invoiceDate p);
          dueDate := default None (p_dueDate p);
          logoUrl := default None (p_logoUrl p);
          sender := default emptyAddress (p_sender p);
          recipient := default emptyAddress (p_recipient p);
          items := default [] (p_items p);
          currency := default "USD" (p_currency p);
          taxRate := default 0%float (p_taxRate p);
          subtotal := default 0%float (p_subtotal p);
          total := default 0%float (p_total p);
          UserId := default EmptyString (p_UserId p) |};
     changedKeys := payloadKeys p;
     isNewRecord := true |}.

(** A call that returns or throws. *)
Inductive Outcome (A : Type) :=
  | Returned (a : A)
  | Threw (message : string).
Arguments Returned {A} a.
Arguments Threw {A} message.

(** [Invoice.create(values)]: build, validate ([UserId] has no default
    and may not be null), run [beforeCreate], insert every column.  The
    insert fails on a primary key that is taken; an insert the database
    refuses for another reason throws as well, and is not modelled. *)
Definition create (env : Env) (values : Partial) (st : Store) : Outcome Instance * Store :=
  match p_UserId values with
  | None => (Threw "notNull Violation: Invoice.UserId cannot be null", st)
  | Some _ =>
      let invoice := beforeCreate (build env values) in
      let r := dataValues invoice in
      match st !! id r with
      | Some _ => (Threw "Validation error", st)
      | None => (Returned (loaded r), <[(id r) := r]> st)
      end
  end.

(** ** HTTP responses *)

(** The [data] member of a response body. *)
Inductive Data :=
  | NoData
  | NullData
  | InvoiceData (r : InvoiceAttributes)
  | ListingData (rows : list InvoiceAttributes).

Record Response := mkResponse {
  status : Z;
  success : bool;
  message : option string;
  data : Data
}.

(** ** The Express controller ([controllers/invoiceController.js])

    The routes run [protect] and [verifiedOnly] first; the controller
    reads [req.user.id], [req.params.id] and [req.body]. *)

Module Express.

Record Request := mkRequest {
  user_id : string;
  params_id : string;
  body : Partial
}.

Definition notFound : Response :=
  {| status := 404; success := false; message := Some "Invoice not found"; data := NoData |}.

Definition serverError (msg : string) : Response :=
  {| status := 500; success := false; message := Some msg; data := NoData |}.

Definition dataOf (invoice : option Instance) : Data :=
  match invoice with
  | Some i => InvoiceData (dataValues i)
  | None => NullData
  end.

(** [{ ...req.body, UserId: req.user.id }]. *)
Definition withUserId (b : Partial) (uid : string) : Partial :=
  {| p_id := p_id b; p_invoiceNumber := p_invoiceNumber b; p_invoiceDate := p_invoiceDate b;
     p_dueDate := p_dueDate b; p_logoUrl := p_logoUrl b; p_sender := p_sender b;
     p_recipient := p_recipient b; p_items := p_items b; p_currency := p_currency b;
     p_taxRate := p_taxRate b; p_subtotal := p_subtotal b; p_total := p_total b;
     p_UserId := Some uid |}.

Definition getInvoice (req : Request) (st : Store) : Response * Store :=
  match findOne (params_id req) (user_id req) st with
  | None => (notFound, st)
  | Some invoice =>
      ({| status := 200; success := true; message := None;
          data := InvoiceData (dataValues invoice) |}, st)
  end.

Definition createInvoice (env : Env) (req : Request) (st : Store) : Response * Store :=
  let invoiceData := withUserId (body req) (user_id req) in
  match create env invoiceData st with
  | (Returned invoice, st') =>
      ({| status := 201; success := true; message := None;
          data := InvoiceData (dataValues invoice) |}, st')
  | (Threw _, st') => (serverError "Server error while creating invoice", st')
  end.

Definition updateInvoice (req : Request) (st : Store) : Response * Store :=
  match findOne (params_id req) (user_id req) st with
  | None => (notFound, st)
  | Some invoice =>
      let '(_, st') := update (body req) invoice st in
      let invoice' := findByPk (params_id req) st' in
      ({| status := 200; success := true; message := None; data := dataOf invoice' |}, st')
  end.

Definition deleteInvoice (req : Request) (st : Store) : Response * Store :=
  match findOne (params_id req) (user_id req) st with
  | None => (notFound, st)
  | Some invoice =>
      ({| status := 200; success := true; message := Some "Invoice deleted successfully";
          data := NoData |}, destroy invoice st)
  end.

End Express.

(** ** The Next.js API routes *)

Module Next.

Record User := mkUser { u_id : string; emailVerified : bool }.

(** [req.body.items]: absent, some value that is not an array, or an
    array of line items. *)
Inductive ItemsField :=
  | ItemsUndefined
  | ItemsNotArray (truthy : bool)
  | ItemsArray (l : list InvoiceItem).

Record Body := mkBody {
  b_invoiceNumber : option (option string);
  b_invoiceDate : option string;
  b_dueDate : option (option string);
  b_logoUrl : option (option string);
  b_sender : option Address;
  b_recipient : option Address;
  b_items : ItemsField;
  b_currency : option string;
  b_taxRate : option JS.number
}.

Record Request := mkRequest {
  method : string;
  authorization : option string;
  query_id : option string;
  body : Body
}.

(** [handleError] and [handleSuccess] of [lib/api-utils.ts]. *)
Definition handleError (msg : string) : Response :=
  {| status := 500; success := false;
     message := Some (if JS.truthyString msg then msg else "Server error"); data := NoData |}.

Definition handleSuccess (d : Data) (msg : string) (statusCode : Z) : Response :=
  {| status := statusCode; success := true; message := Some msg; data := d |}.

Definition failure (statusCode : Z) (msg : string) : Response :=
  {| status := statusCode; success := false; message := Some msg; data := NoData |}.

(** [authHeader.split(' ')[1]] for a header that starts with ["Bearer "]. *)
Fixpoint untilSpace (s : string) : string :=
  match s with
  | EmptyString => EmptyString
  | String c s' => if Ascii.eqb c " "%char then EmptyString else String c (untilSpace s')
  end.

Definition bearerToken (authHeader : string) : string :=
  untilSpace (String.substring 7 (String.length authHeader - 7) authHeader).

Section Handlers.

(** [jwt.verify(token, secret)]: the [id] of the decoded payload, or
    [None] when the library throws. *)
Variable jwt_verify : string -> option string.

(** The [Users] table. *)
Variable users : gmap string User.

(** [authenticate]: the user, or the response already sent. *)
Definition authenticate (req : Request) : Response + User :=
  match authorization req with
  | None => inl (failure 401 "No token provided")
  | Some authHeader =>
      if negb (JS.truthyString authHeader) || negb (String.prefix "Bearer " authHeader)
      then inl (failure 401 "No token provided")
      else
        match jwt_verify (bearerToken authHeader) with
        | None => inl (failure 401 "Invalid token")
        | Some decoded_id =>
            match users !! decoded_id with
            | None => inl (failure 401 "User not found")
            | Some user => inr user
            end
        end
  end.

(** [requireVerifiedEmail]: the response sent when the gate is closed. *)
Definition requireVerifiedEmail (user : User) : option Response :=
  if negb (emailVerified user) then Some (failure 403 "Email verification required")
  else None.

(** The required-field test of both routes:
    [!invoiceDate || !sender || !recipient || !items ||
     !Array.isArray(items) || items.length === 0]. *)
Definition missingRequired (b : Body) : bool :=
  negb (match b_invoiceDate b with Some d => JS.truthyString d | None => false end)
  || negb (bool_decide (is_Some (b_sender b)))
  || negb (bool_decide (is_Some (b_recipient b)))
  || match b_items b with
     | ItemsUndefined => true
     | ItemsNotArray _ => true
     | ItemsArray l => Nat.eqb (length l) 0
     end.

Definition itemsOf (b : Body) : option (list InvoiceItem) :=
  match b_items b with
  | ItemsArray l => Some l
  | _ => None
  end.

(** [currency || 'USD'] and [taxRate || 0]. *)
Definition currencyOrUSD (c : option string) : string :=
  match c with
  | Some s => if JS.truthyString s then s else "USD"
  | None => "USD"
  end.

Definition taxRateOrZero (t : option JS.number) : JS.number :=
  match t with
  | Some x => if JS.truthy x then x else 0%float
  | None => 0%float
  end.

(** *** [pages/api/invoices/index.ts] *)

(** The listing: the rows of the user (their order and the pagination of
    the response are not modelled); the table is only read. *)
Definition getInvoices (req : Request) (userId : string) (st : Store) : Response * Store :=
  (handleSuccess
     (ListingData (filter (fun r => UserId r = userId) (map snd (map_to_list st))))
     "Success" 200, st).

Definition createInvoice (env : Env) (req : Request) (userId : string) (st : Store)
  : Response * Store :=
  let b := body req in
  if missingRequired b then (failure 400 "Missing required fields", st)
  else
    let values :=
      {| p_id := None; p_invoiceNumber := b_invoiceNumber b; p_invoiceDate := b_invoiceDate b;
         p_dueDate := b_dueDate b; p_logoUrl := b_logoUrl b; p_sender := b_sender b;
         p_recipient := b_recipient b; p_items := itemsOf b;
         p_currency := Some (currencyOrUSD (b_currency b));
         p_taxRate := Some (taxRateOrZero (b_taxRate b));
         p_subtotal := None; p_total := None; p_UserId := Some userId |} in
    match create env values st with
    | (Returned invoice, st') =>
        (handleSuccess (InvoiceData (dataValues invoice)) "Invoice created successfully" 201, st')
    | (Threw msg, st') => (handleError msg, st')
    end.

(** *** [pages/api/invoices/[id].ts] *)

Definition getInvoice (req : Request) (invoiceId userId : string) (st : Store)
  : Response * Store :=
  match findOne invoiceId userId st with
  | None => (failure 404 "Invoice not found", st)
  | Some invoice => (handleSuccess (InvoiceData (dataValues invoice)) "Success" 200, st)
  end.

Definition updateInvoice (req : Request) (invoiceId userId : string) (st : Store)
  : Response * Store :=
  match findOne invoiceId userId st with
  | None => (failure 404 "Invoice not found", st)
  | Some invoice =>
      let b := body req in
      if missingRequired b then (failure 400 "Missing required fields", st)
      else
        let values :=
          {| p_id := None; p_invoiceNumber := b_invoiceNumber b;
             p_invoiceDate := b_invoiceDate b; p_dueDate := b_dueDate b;
             p_logoUrl := b_logoUrl b; p_sender := b_sender b;
             p_recipient := b_recipient b; p_items := itemsOf b;
             p_currency := b_currency b; p_taxRate := b_taxRate b;
             p_subtotal := None; p_total := None; p_UserId := None |} in
        let '(invoice', st') := update values invoice st in
        (handleSuccess (InvoiceData (dataValues invoice')) "Invoice updated successfully" 200, st')
  end.

Definition deleteInvoice (req : Request) (invoiceId userId : string) (st : Store)
  : Response * Store :=
  match findOne invoiceId userId st with
  | None => (failure 404 "Invoice not found", st)
  | Some invoice => (handleSuccess NullData "Invoice deleted successfully" 200, destroy invoice st)
  end.

(** The default export of [pages/api/invoices/[id].ts]. *)
Definition handlerById (req : Request) (st : Store) : Response * Store :=
  match authenticate req with
  | inl sent => (sent, st)
  | inr user =>
      match requireVerifiedEmail user with
      | Some sent => (sent, st)
      | None =>
          match query_id req with
          | None => (failure 400 "Invoice ID is required", st)
          | Some id' =>
              if negb (JS.truthyString id') then (failure 400 "Invoice ID is required", st)
              else if String.eqb (method req) "GET" then getInvoice req id' (u_id user) st
              else if String.eqb (method req) "PUT" then updateInvoice req id' (u_id user) st
              else if String.eqb (method req) "DELETE" then deleteInvoice req id' (u_id user) st
              else (failure 405 "Method not allowed", st)
          end
      end
  end.

(** The default export of [pages/api/invoices/index.ts]. *)
Definition handlerIndex (env : Env) (req : Request) (st : Store) : Response * Store :=
  match authenticate req with
  | inl sent => (sent, st)
  | inr user =>
      match requireVerifiedEmail user with
      | Some sent => (sent, st)
      | None =>
          if String.eqb (method req) "GET" then getInvoices req (u_id user) st
          else if String.eqb (method req) "POST" then createInvoice env req (u_id user) st
          else (failure 405 "Method not allowed", st)
      end
  end.

End Handlers.

End Next.

(** ** Exact values of binary64 numbers

    Every finite binary64 number is an integer multiple of [2^-1074].
    [scaled] gives that integer for the value a [spec_float] denotes, so
    that "this operation did not round" can be stated, and decided, over
    [Z]. *)

Definition unit_exponent : Z := 1074.

Definition scaled (x : spec_float) : option Z :=
  match x with
  | S754_zero _ => Some 0%Z
  | S754_finite s m e => Some (cond_Zopp s (Zpos m) * 2 ^ (e + unit_exponent))%Z
  | S754_infinity _ => None
  | S754_nan => None
  end.

Definition exactValue (x : JS.number) : option Z := scaled (Prim2SF x).

(** The value of [x], in units of [2^-1074]; [0] for NaN and the
    infinities. *)
Definition valueOf (x : JS.number) : Z := default 0%Z (exactValue x).

(** [x + y] is finite and is the sum of [x] and [y] without rounding. *)
Definition exactAdd (x y : JS.number) : bool :=
  match exactValue x, exactValue y, exactValue (x + y)%float with
  | Some a, Some b, Some c => Z.eqb c (a + b)
  | _, _, _ => false
  end.

(** [x * y] is finite and is the product of [x] and [y] without rounding. *)
Definition exactMul (x y : JS.number) : bool :=
  match exactValue x, exactValue y, exactValue (x * y)%float with
  | Some a, Some b, Some c => Z.eqb (c * 2 ^ unit_exponent) (a * b)
  | _, _, _ => false
  end.

(** No step of the reduction over [items], started from [sum], rounds. *)
Fixpoint exactFrom (sum : JS.number) (items : list InvoiceItem) : bool :=
  match items with
  | [] => true
  | item :: rest =>
      exactMul (quantity item) (unitPrice item)
      && exactAdd sum (quantity item * unitPrice item)%float
      && exactFrom (sum + quantity item * unitPrice item)%float rest
  end.

Definition exactReduce (items : list InvoiceItem) : bool := exactFrom 0%float items.

(** The sum of the products [quantity * unitPrice] over the rationals, in
    units of [2^-2148]. *)
Definition mathSum (items : list InvoiceItem) : Z :=
  foldr (fun item acc => (valueOf (quantity item) * valueOf (unitPrice item) + acc)%Z) 0%Z items.

(** [x] is zero or a finite non-zero number. *)
Definition finiteSF (x : spec_float) : bool :=
  match x with
  | S754_zero _ | S754_finite _ _ _ => true
  | _ => false
  end.

(** The mantissa of [100 = mantissa_100 * 2^-46]. *)
Definition mantissa_100 : positive := 7036874417766400.

(** The change set of an update: the attributes [instance.changed()]
    lists once [update] has assigned the given values, that is the
    attributes whose new value differs from the one loaded. *)
Definition changeSet (values : Partial) (invoice : Instance) : list Attr :=
  changedKeys (set values invoice).

(** ** Sample data *)

Definition lineItem (d : string) (q p : JS.number) : InvoiceItem :=
  {| item_id := EmptyString; description := d; quantity := q; unitPrice := p |}.

(** The items of the concrete scenario: 3 x 20 and 1 x 15. *)
Definition items_A_B : list InvoiceItem :=
  [lineItem "A" 3%float 20%float; lineItem "B" 1%float 15%float].

(** One large line and two small ones, in two orders. *)
Definition items_large_first : list InvoiceItem :=
  [lineItem "L" 1e16%float 1%float; lineItem "a" 1%float 1%float;
   lineItem "b" 1%float 1%float].

Definition items_large_last : list InvoiceItem :=
  [lineItem "a" 1%float 1%float; lineItem "b" 1%float 1%float;
   lineItem "L" 1e16%float 1%float].

(** A line whose product overflows: [2^1023 * 2]. *)
Definition items_overflow : list InvoiceItem := [lineItem "big" 0x1p1023%float 2%float].

(** A single line of 3 x 1. *)
Definition items_three : list InvoiceItem := [lineItem "x" 3%float 1%float].

(** A persisted invoice with [items = [{quantity: 2, unitPrice: 10}]] and
    [taxRate = 10]. *)
Definition invoice_1 : InvoiceAttributes :=
  {| id := "inv-1"; invoiceNumber := None; invoiceDate := "2024-01-01";
     dueDate := None; logoUrl := None; sender := emptyAddress;
     recipient := emptyAddress; items := [lineItem "work" 2%float 10%float];
     currency := "USD"; taxRate := 10%float; subtotal := 20%float; total := 22%float;
     UserId := "user-1" |}.

Definition store_1 : Store := <["inv-1" := invoice_1]> ∅.

Definition noValues : Partial :=
  {| p_id := None; p_invoiceNumber := None; p_invoiceDate := None; p_dueDate := None;
     p_logoUrl := None; p_sender := None; p_recipient := None; p_items := None;
     p_currency := None; p_taxRate := None; p_subtotal := None; p_total := None;
     p_UserId := None |}.

(** [{ items: [{quantity: 1, unitPrice: 50}], subtotal: 999, total: 1 }]. *)
Definition values_items_and_totals : Partial :=
  {| p_id := None; p_invoiceNumber := None; p_invoiceDate := None; p_dueDate := None;
     p_logoUrl := None; p_sender := None; p_recipient := None;
     p_items := Some [lineItem "work" 1%float 50%float];
     p_currency := None; p_taxRate := None; p_subtotal := Some 999%float;
     p_total := Some 1%float; p_UserId := None |}.

(** [{ subtotal: 999 }]. *)
Definition values_subtotal_only : Partial :=
  {| p_id := None; p_invoiceNumber := None; p_invoiceDate := None; p_dueDate := None;
     p_logoUrl := None; p_sender := None; p_recipient := None; p_items := None;
     p_currency := None; p_taxRate := None; p_subtotal := Some 999%float;
     p_total := None; p_UserId := None |}.

(** [{ items: [{quantity: 3, unitPrice: 20}], taxRate: 8, subtotal: 1,
      total: 1, UserId: "user-1" }]. *)
Definition values_create : Partial :=
  {| p_id := None; p_invoiceNumber := None; p_invoiceDate := None; p_dueDate := None;
     p_logoUrl := None; p_sender := None; p_recipient := None;
     p_items := Some [lineItem "A" 3%float 20%float];
     p_currency := None; p_taxRate := Some 8%float; p_subtotal := Some 1%float;
     p_total := Some 1%float; p_UserId := Some "user-1" |}.

Definition env_1 : Env := {| uuidv4 := "inv-2"; now := "2024-02-02" |}.

(** The owner's Express request [PUT /api/invoices/inv-1] with the body
    [{ subtotal: 999 }]. *)
Definition express_put_subtotal : Express.Request :=
  {| Express.user_id := "user-1"; Express.params_id := "inv-1";
     Express.body := values_subtotal_only |}.

(** [{ items: [{quantity: 2, unitPrice: 10}], subtotal: 999 }]: the items
    as they are stored, and a subtotal of the caller's. *)
Definition values_same_items_and_subtotal : Partial :=
  {| p_id := None; p_invoiceNumber := None; p_invoiceDate := None; p_dueDate := None;
     p_logoUrl := None; p_sender := None; p_recipient := None;
     p_items := Some [lineItem "work" 2%float 10%float];
     p_currency := None; p_taxRate := None; p_subtotal := Some 999%float;
     p_total := None; p_UserId := None |}.

(** The owner's Express request [PUT /api/invoices/inv-1] with that body. *)
Definition express_put_same_items : Express.Request :=
  {| Express.user_id := "user-1"; Express.params_id := "inv-1";
     Express.body := values_same_items_and_subtotal |}.

(** Another user's Express request for the same invoice. *)
Definition express_other_user : Express.Request :=
  {| Express.user_id := "user-2"; Express.params_id := "inv-1"; Express.body := noValues |}.

(** ** The words of the specification *)

(** The body is missing [invoiceDate], [sender] or [recipient], or its
    [items] is absent, not an array, or an empty array. *)
Definition MissingRequired (b : Next.Body) : Prop :=
  Next.b_invoiceDate b = None \/ Next.b_invoiceDate b = Some EmptyString
  \/ Next.b_sender b = None \/ Next.b_recipient b = None
  \/ Next.b_items b = Next.ItemsUndefined
  \/ (exists t, Next.b_items b = Next.ItemsNotArray t)
  \/ Next.b_items b = Next.ItemsArray [].

(** No invoice has the requested id and belongs to the user. *)
Definition NoInvoiceOf (invoiceId userId : string) (st : Store) : Prop :=
  ~ exists r, st !! invoiceId = Some r /\ id r = invoiceId /\ UserId r = userId.

(** ** Sample requests *)

Definition jwt_sample (token : string) : option string :=
  if String.eqb token "token-1" then Some "user-1"
  else if String.eqb token "token-2" then Some "user-2"
  else None.

(** [user-1] has verified the email address, [user-2] has not. *)
Definition users_sample : gmap string Next.User :=
  <["user-1" := {| Next.u_id := "user-1"; Next.emailVerified := true |}]>
    (<["user-2" := {| Next.u_id := "user-2"; Next.emailVerified := false |}]> ∅).

Definition user_1 : Next.User := {| Next.u_id := "user-1"; Next.emailVerified := true |}.

Definition emptyBody : Next.Body :=
  {| Next.b_invoiceNumber := None; Next.b_invoiceDate := None; Next.b_dueDate := None;
     Next.b_logoUrl := None; Next.b_sender := None; Next.b_recipient := None;
     Next.b_items := Next.ItemsUndefined; Next.b_currency := None; Next.b_taxRate := None |}.

(** A complete body but for its empty [items] array. *)
Definition body_no_items : Next.Body :=
  {| Next.b_invoiceNumber := None; Next.b_invoiceDate := Some "2024-03-03";
     Next.b_dueDate := None; Next.b_logoUrl := None; Next.b_sender := Some emptyAddress;
     Next.b_recipient := Some emptyAddress; Next.b_items := Next.ItemsArray [];
     Next.b_currency := None; Next.b_taxRate := None |}.

(** A complete body that changes the items to 1 x 50. *)
Definition body_new_items : Next.Body :=
  {| Next.b_invoiceNumber := None; Next.b_invoiceDate := Some "2024-03-03";
     Next.b_dueDate := None; Next.b_logoUrl := None; Next.b_sender := Some emptyAddress;
     Next.b_recipient := Some emptyAddress;
     Next.b_items := Next.ItemsArray [lineItem "work" 1%float 50%float];
     Next.b_currency := None; Next.b_taxRate := None |}.

Definition request (m : string) (token : string) (invoiceId : option string) (b : Next.Body)
  : Next.Request :=
  {| Next.method := m; Next.authorization := Some (String.append "Bearer " token);
     Next.query_id := invoiceId; Next.body := b |}.

(** ** Stored totals that agree with the items

    The totals of a row are consistent when they are, as numbers, the ones
    the calculator gives for the row's items and tax rate.  Numbers are
    compared as Sequelize's change tracking compares them. *)

Definition consistent (r : InvoiceAttributes) : bool :=
  JS.sameValueZero (t_subtotal (computeTotals (items r) (taxRate r))) (subtotal r)
  && JS.sameValueZero (t_total (computeTotals (items r) (taxRate r))) (total r).

(** Two binary64 values that are the same number: equal, or both a zero. *)
Definition sameSF (x y : spec_float) : Prop :=
  x = y \/ exists b b', x = S754_zero b /\ y = S754_zero b'.

(** ** The listing of the Express controller

    [getInvoices] answers [{ success, count, data }].  The rows are those
    [Invoice.findAll({ where: { UserId } })] selects; the order the query
    asks for, by [createdAt], is not modelled: the rows come in the order
    of the table. *)

Definition findAll (userId : string) (st : Store) : list InvoiceAttributes :=
  filter (fun r => UserId r = userId) (map snd (map_to_list st)).

Module Listing.

Record Response := mkResponse {
  success : bool;
  count : nat;
  data : list InvoiceAttributes
}.

Definition getInvoices (req : Express.Request) (st : Store) : Response * Store :=
  let invoices := findAll (Express.user_id req) st in
  ({| success := true; count := length invoices; data := invoices |}, st).

End Listing.

(** ** The invoice form of the Next.js application

    The page keeps the invoice being edited in its state and sends it to
    the routes above.  The state is taken at its type [Invoice]. *)

Module Page.

Record Invoice := mkInvoice {
  f_id : option string;
  f_invoiceNumber : string;
  f_invoiceDate : string;
  f_dueDate : option string;
  f_logoUrl : option string;
  f_sender : Address;
  f_recipient : Address;
  f_items : list InvoiceItem;
  f_currency : string;
  f_taxRate : JS.number
}.

(** [{ ...prev, items }]. *)
Definition with_items (l : list InvoiceItem) (prev : Invoice) : Invoice :=
  {| f_id := f_id prev; f_invoiceNumber := f_invoiceNumber prev;
     f_invoiceDate := f_invoiceDate prev; f_dueDate := f_dueDate prev;
     f_logoUrl := f_logoUrl prev; f_sender := f_sender prev;
     f_recipient := f_recipient prev; f_items := l; f_currency := f_currency prev;
     f_taxRate := f_taxRate prev |}.

(** [addItem]: a blank line, 1 x 0, whose id is [Date.now().toString()]. *)
Definition addItem (now : string) (prev : Invoice) : Invoice :=
  let newItem := {| item_id := now; description := EmptyString;
                    quantity := 1%float; unitPrice := 0%float |} in
  with_items (f_items prev ++ [newItem]) prev.

(** The field [updateItem] assigns, with its value. *)
Inductive Change :=
  | SetId (value : string)
  | SetDescription (value : string)
  | SetQuantity (value : JS.number)
  | SetUnitPrice (value : JS.number).

(** [{ ...item, [field]: value }]. *)
Definition assign (c : Change) (item : InvoiceItem) : InvoiceItem :=
  match c with
  | SetId v => {| item_id := v; description := description item;
                  quantity := quantity item; unitPrice := unitPrice item |}
  | SetDescription v => {| item_id := item_id item; description := v;
                           quantity := quantity item; unitPrice := unitPrice item |}
  | SetQuantity v => {| item_id := item_id item; description := description item;
                        quantity := v; unitPrice := unitPrice item |}
  | SetUnitPrice v => {| item_id := item_id item; description := description item;
                         quantity := quantity item; unitPrice := v |}
  end.

Definition updateItem (id : string) (c : Change) (prev : Invoice) : Invoice :=
  with_items (map (fun item => if String.eqb (item_id item) id then assign c item else item)
                  (f_items prev)) prev.

Definition removeItem (id : string) (prev : Invoice) : Invoice :=
  with_items (filter (fun item => item_id item <> id) (f_items prev)) prev.

Definition calculateSubtotal (invoice : Invoice) : JS.number :=
  fold_left (fun sum item => (sum + (quantity item * unitPrice item))%float)
            (f_items invoice) 0%float.

Definition calculateTax (invoice : Invoice) : JS.number :=
  (calculateSubtotal invoice * (f_taxRate invoice / 100))%float.

Definition calculateTotal (invoice : Invoice) : JS.number :=
  (calculateSubtotal invoice + calculateTax invoice)%float.

(** The test of [handleSubmit] that stops the form with
    ['Please fill in all required fields']:
    [!invoice.invoiceDate || !invoice.sender.name ||
     !invoice.recipient.name || invoice.items.length === 0]. *)
Definition incomplete (invoice : Invoice) : bool :=
  negb (JS.truthyString (f_invoiceDate invoice))
  || negb (JS.truthyString (name (f_sender invoice)))
  || negb (JS.truthyString (name (f_recipient invoice)))
  || Nat.eqb (length (f_items invoice)) 0.

End Page.

(** ** The invoice form of the React client
    ([client/src/pages/InvoiceGenerator.tsx])

    Its line items carry no id; the functions below are the ones that
    rebuild [invoice.items]. *)

Module Client.

(** [[...prev.items, { description: '', quantity: 1, unitPrice: 0 }]]. *)
Definition handleAddItem (items : list InvoiceItem) : list InvoiceItem :=
  items ++ [lineItem EmptyString 1%float 0%float].

(** [items.filter((_, i) => keep(i))], the index counted from [i]. *)
Fixpoint filterIndex (keep : nat -> bool) (i : nat) (items : list InvoiceItem)
  : list InvoiceItem :=
  match items with
  | [] => []
  | item :: rest =>
      if keep i then item :: filterIndex keep (S i) rest
      else filterIndex keep (S i) rest
  end.

(** [invoice.items.filter((_, i) => i !== index)]. *)
Definition handleRemoveItem (index : nat) (items : list InvoiceItem) : list InvoiceItem :=
  filterIndex (fun i => negb (Nat.eqb i index)) 0 items.

(** The effect that recomputes [subtotal] and [total] whenever the items
    or the tax rate change. *)
Definition recalculate (items : list InvoiceItem) (taxRate : JS.number) : Totals :=
  let newSubtotal :=
    fold_left (fun sum item => (sum + quantity item * unitPrice item)%float) items 0%float in
  let taxAmount := (newSubtotal * (taxRate / 100))%float in
  {| t_subtotal := newSubtotal; t_total := (newSubtotal + taxAmount)%float |}.

End Client.

(** ** The connection test of [lib/db/db.ts]

    [sequelize.authenticate()] is the environment's: [authenticate n]
    says whether its call number [n], counted from 0, resolves.  What the
    function does besides returning is recorded: the calls it made and
    the delays it waited for. *)

Module Db.

Record Effects := mkEffects { calls : nat; waits : nat }.

(** The [while] loop of [testConnection]; [fuel] bounds its iterations. *)
Fixpoint testConnectionLoop (authenticate : nat -> bool) (retries : nat)
    (fuel currentTry : nat) (s : Effects) : option (bool * Effects) :=
  match fuel with
  | O => None
  | S fuel' =>
      if Nat.ltb currentTry retries then
        let s1 := {| calls := S (calls s); waits := waits s |} in
        if authenticate (calls s) then Some (true, s1)
        else
          let currentTry' := S currentTry in
          if Nat.leb retries currentTry' then Some (false, s1)
          else testConnectionLoop authenticate retries fuel' currentTry'
                 {| calls := calls s1; waits := S (waits s1) |}
      else Some (false, s)
  end.

Definition testConnection (authenticate : nat -> bool) (retries : nat)
  : option (bool * Effects) :=
  testConnectionLoop authenticate retries (S retries) 0 {| calls := 0; waits := 0 |}.

(** [initDb]: the connection test with its default of 5 tries, then
    [sequelize.sync]; [sync] says whether that call resolves.  Beside the
    result and the effects of the test, whether [sync] was called. *)
Definition initDb (authenticate : nat -> bool) (sync : bool)
  : option (bool * Effects * bool) :=
  match testConnection authenticate 5 with
  | None => None
  | Some (connectionSuccessful, s) =>
      if negb connectionSuccessful then Some (false, s, false)
      else Some (sync, s, true)
  end.

End Db.

(** ** More sample data *)


Definition address_of (n : string) : Address :=
  {| name := n; address := EmptyString; city := EmptyString;
     postalCode := EmptyString; country := EmptyString |}.

(** A form with one line, 2 x 10, whose id is ["1700000000000"]. *)
Definition form_1 : Page.Invoice :=
  {| Page.f_id := None; Page.f_invoiceNumber := "INV-001";
     Page.f_invoiceDate := "2024-03-03"; Page.f_dueDate := None; Page.f_logoUrl := None;
     Page.f_sender := address_of "Sender Ltd"; Page.f_recipient := address_of "Client Ltd";
     Page.f_items := [{| item_id := "1700000000000"; description := "work";
                         quantity := 2%float; unitPrice := 10%float |}];
     Page.f_currency := "USD"; Page.f_taxRate := 10%float |}.

(** The body the page sends for [form_1]. *)
Definition body_of_form_1 : Next.Body :=
  {| Next.b_invoiceNumber := Some (Some "INV-001"); Next.b_invoiceDate := Some "2024-03-03";
     Next.b_dueDate := None; Next.b_logoUrl := None;
     Next.b_sender := Some (address_of "Sender Ltd");
     Next.b_recipient := Some (address_of "Client Ltd");
     Next.b_items := Next.ItemsArray (Page.f_items form_1);
     Next.b_currency := Some "USD"; Next.b_taxRate := Some 10%float |}.

(** ** Conditions on what is sent to the database

    The model describes the statements the database executes.  Two
    conditions under which it does are used in the properties below. *)

Definition isHexDigit (c : ascii) : bool :=
  let n := nat_of_ascii c in
  (Nat.leb 48 n && Nat.leb n 57)        (* 0-9 *)
  || (Nat.leb 97 n && Nat.leb n 102).   (* a-f *)

Fixpoint uuidFrom (i : nat) (s : string) : bool :=
  match s with
  | EmptyString => Nat.eqb i 36
  | String c s' =>
      (if Nat.eqb i 8 || Nat.eqb i 13 || Nat.eqb i 18 || Nat.eqb i 23
       then Ascii.eqb c "-"%char else isHexDigit c)
      && uuidFrom (S i) s'
  end.

(** The text of a UUID in its canonical form, 8-4-4-4-12 hexadecimal
    digits in lower case: the form in which the database prints a UUID,
    and so the form of every [id] and [UserId] of the table.  The [id]
    column is of type UUID: a query for an id that the database does not
    read as a UUID fails, and the routes answer 500; an id it reads as a
    UUID but that is written in another form (in upper case, say) is
    compared by value, not as a string. *)
Definition canonicalUUID (s : string) : bool := uuidFrom 0 s.

(** Every quantity and unit price is a finite number.  The [items] column
    is JSONB, and JSON has no infinities and no NaN. *)
Definition finiteItems (l : list InvoiceItem) : bool :=
  forallb (fun item => JS.isFinite (quantity item) && JS.isFinite (unitPrice item)) l.

(** The subtotal in the words of the specification: the sum of the
    products [quantity * unitPrice], the terms added in the order of the
    items.  [sumProductsRev] takes the items last to first. *)
Fixpoint sumProductsRev (reversed : list InvoiceItem) : JS.number :=
  match reversed with
  | [] => 0%float
  | item :: earlier => (sumProductsRev earlier + quantity item * unitPrice item)%float
  end.

Definition sumOfProducts (items : list InvoiceItem) : JS.number :=
  sumProductsRev (rev items).

(** ** Sample data with the ids the database has *)

Definition id_invoice_a : string := "11111111-1111-4111-8111-111111111111".
Definition id_unknown : string := "99999999-9999-4999-8999-999999999999".
Definition id_user_a : string := "aaaaaaaa-aaaa-4aaa-8aaa-aaaaaaaaaaaa".
Definition id_user_b : string := "bbbbbbbb-bbbb-4bbb-8bbb-bbbbbbbbbbbb".

(** The invoice of [user a]: [items = [{quantity: 2, unitPrice: 10}]],
    [taxRate = 10], [subtotal = 20], [total = 22]. *)
Definition invoice_a : InvoiceAttributes :=
  {| id := id_invoice_a; invoiceNumber := None; invoiceDate := "2024-01-01";
     dueDate := None; logoUrl := None; sender := emptyAddress;
     recipient := emptyAddress; items := [lineItem "work" 2%float 10%float];
     currency := "USD"; taxRate := 10%float; subtotal := 20%float; total := 22%float;
     UserId := id_user_a |}.

Definition store_a : Store := <[id_invoice_a := invoice_a]> ∅.

Definition env_a : Env :=
  {| uuidv4 := "22222222-2222-4222-8222-222222222222"; now := "2024-02-02" |}.

Definition jwt_a (token : string) : option string :=
  if String.eqb token "token-a" then Some id_user_a
  else if String.eqb token "token-b" then Some id_user_b
  else None.

Definition user_a : Next.User := {| Next.u_id := id_user_a; Next.emailVerified := true |}.

Definition user_b_verified : Next.User :=
  {| Next.u_id := id_user_b; Next.emailVerified := true |}.

(** [user a] has verified the email address, [user b] has not. *)
Definition users_a : gmap string Next.User :=
  <[id_user_a := user_a]>
    (<[id_user_b := {| Next.u_id := id_user_b; Next.emailVerified := false |}]> ∅).

(** The same users, [user b] verified too. *)
Definition users_ab : gmap string Next.User := <[id_user_b := user_b_verified]> users_a.

(** The owner's Express request [PUT /api/invoices/1111...] with the body
    [{ items: [{quantity: 2, unitPrice: 10}], subtotal: 999 }]: the items
    as they are stored, and a subtotal of the caller's. *)
Definition express_put_resent_items : Express.Request :=
  {| Express.user_id := id_user_a; Express.params_id := id_invoice_a;
     Express.body := values_same_items_and_subtotal |}.

(** The owner's Express request with the body
    [{ items: [{quantity: 1, unitPrice: 50}], subtotal: 999, total: 1 }]. *)
Definition express_put_items_a : Express.Request :=
  {| Express.user_id := id_user_a; Express.params_id := id_invoice_a;
     Express.body := values_items_and_totals |}.

(** The owner's Express request with the body [{ UserId: <user b> }]. *)
Definition express_put_owner_a : Express.Request :=
  {| Express.user_id := id_user_a; Express.params_id := id_invoice_a;
     Express.body :=
       {| p_id := None; p_invoiceNumber := None; p_invoiceDate := None; p_dueDate := None;
          p_logoUrl := None; p_sender := None; p_recipient := None; p_items := None;
          p_currency := None; p_taxRate := None; p_subtotal := None; p_total := None;
          p_UserId := Some id_user_b |} |}.

(** The Express request of [user b] for the invoice of [user a]. *)
Definition express_other_user_a : Express.Request :=
  {| Express.user_id := id_user_b; Express.params_id := id_invoice_a;
     Express.body := noValues |}.

(** The Express request [POST /api/invoices] of [user a] with
    caller-supplied totals. *)
Definition express_post_a : Express.Request :=
  {| Express.user_id := id_user_a; Express.params_id := EmptyString;
     Express.body := values_create |}.

(** * Properties *)

(** ** Binary64 facts *)

Lemma Prim2SF_infinity : Prim2SF infinity = S754_infinity false.
Proof. reflexivity. Qed.

Lemma Prim2SF_zero : Prim2SF 0%float = S754_zero false.
Proof. reflexivity. Qed.

Lemma SFeqb_refl_finite s m e :
  SFeqb (S754_finite s m e) (S754_finite s m e) = true.
Proof.
  unfold SFeqb, SFcompare.
  destruct s; rewrite Z.compare_refl, Pos.compare_cont_refl; reflexivity.
Qed.

(** [Number.isFinite] in terms of the class of the number. *)
Lemma isFinite_spec x : JS.isFinite x = true <-> finiteSF (Prim2SF x) = true.
Proof.
  unfold JS.isFinite, is_finite, is_nan, is_infinity.
  rewrite !FloatAxioms.eqb_spec, abs_spec, Prim2SF_infinity.
  destruct (Prim2SF x) as [s|s| |s m e]; simpl.
  - destruct s; simpl; intuition.
  - destruct s; simpl; intuition.
  - intuition.
  - rewrite SFeqb_refl_finite. simpl. intuition.
Qed.

(** [s + s * 0 = s] for every finite [s]. *)
Lemma add_mul_zero (s : float) :
  finiteSF (Prim2SF s) = true -> (s + s * 0)%float = s.
Proof.
  intros Hs. apply Prim2SF_inj.
  rewrite add_spec, mul_spec, Prim2SF_zero.
  destruct (Prim2SF s) as [b|b| |b m e]; try discriminate;
    destruct b; reflexivity.
Qed.

Lemma zero_div_100 : (0 / 100)%float = 0%float.
Proof. reflexivity. Qed.

(** [0 + 0 * t = 0] for every finite [t], of either sign. *)
Lemma zero_add_zero_mul (t : float) :
  finiteSF (Prim2SF t) = true -> (0 + 0 * t)%float = 0%float.
Proof.
  intros Ht. apply Prim2SF_inj.
  rewrite add_spec, mul_spec, Prim2SF_zero.
  destruct (Prim2SF t) as [b|b| |b m e]; try discriminate; simpl.
  - destruct b; reflexivity.
  - destruct b; reflexivity.
Qed.

Section ExactValues.
Local Open Scope Z_scope.

(** A mantissa of [d] binary digits lies in [[2^(d-1), 2^d)]. *)
Lemma digits2_pos_bounds (m : positive) :
  2 ^ (Zpos (digits2_pos m) - 1) <= Zpos m < 2 ^ Zpos (digits2_pos m).
Proof.
  induction m as [p IH|p IH|]; simpl digits2_pos.
  - rewrite Pos2Z.inj_succ.
    replace (Z.succ (Zpos (digits2_pos p)) - 1) with (Z.succ (Zpos (digits2_pos p) - 1)) by lia.
    rewrite !Z.pow_succ_r by lia. lia.
  - rewrite Pos2Z.inj_succ.
    replace (Z.succ (Zpos (digits2_pos p)) - 1) with (Z.succ (Zpos (digits2_pos p) - 1)) by lia.
    rewrite !Z.pow_succ_r by lia. lia.
  - simpl. lia.
Qed.

(** The exponent of a valid number is the canonical one for its mantissa,
    and at least [-1074]. *)
Lemma valid_finite_inv s m e :
  valid_binary (S754_finite s m e) = true ->
  e = Z.max (Zpos (digits2_pos m) + e - 53) (-1074) /\ e <= 971.
Proof.
  unfold SpecFloat.valid_binary, bounded, canonical_mantissa, fexp, SpecFloat.emin, prec, emax.
  rewrite andb_true_iff, Z.eqb_eq, Z.leb_le. lia.
Qed.

Lemma scaled_finite_pos s m e :
  valid_binary (S754_finite s m e) = true ->
  0 < Zpos m * 2 ^ (e + unit_exponent).
Proof.
  intros [He _]%valid_finite_inv. unfold unit_exponent.
  assert (0 < 2 ^ (e + 1074)) by (apply Z.pow_pos_nonneg; lia). lia.
Qed.

(** Valid finite non-zero numbers with the same value have the same sign,
    mantissa and exponent. *)
Lemma scaled_finite_inj s m e s' m' e' :
  valid_binary (S754_finite s m e) = true ->
  valid_binary (S754_finite s' m' e') = true ->
  scaled (S754_finite s m e) = scaled (S754_finite s' m' e') ->
  S754_finite s m e = S754_finite s' m' e'.
Proof.
  intros V V' H. simpl in H. injection H as H.
  pose proof (scaled_finite_pos _ _ _ V) as P.
  pose proof (scaled_finite_pos _ _ _ V') as P'.
  apply valid_finite_inv in V as [He _], V' as [He' _].
  unfold unit_exponent in *.
  assert (Hs : s = s') by (destruct s, s'; simpl in H; try reflexivity; lia).
  subst s'.
  assert (Hv : Zpos m * 2 ^ (e + 1074) = Zpos m' * 2 ^ (e' + 1074))
    by (destruct s; simpl in H; lia).
  clear H.
  pose proof (digits2_pos_bounds m) as [L U].
  pose proof (digits2_pos_bounds m') as [L' U'].
  set (d := Zpos (digits2_pos m)) in *. set (d' := Zpos (digits2_pos m')) in *.
  assert (0 < d) by (subst d; lia). assert (0 < d') by (subst d'; lia).
  assert (Q : 0 < 2 ^ (e + 1074)) by (apply Z.pow_pos_nonneg; lia).
  assert (Q' : 0 < 2 ^ (e' + 1074)) by (apply Z.pow_pos_nonneg; lia).
  assert (B1 : 2 ^ (d + e + 1073) <= Zpos m * 2 ^ (e + 1074) < 2 ^ (d + e + 1074)).
  { replace (d + e + 1073) with ((d - 1) + (e + 1074)) by lia.
    replace (d + e + 1074) with (d + (e + 1074)) by lia.
    rewrite (Z.pow_add_r 2 (d - 1) (e + 1074)), (Z.pow_add_r 2 d (e + 1074)) by lia. split.
    - apply Z.mul_le_mono_nonneg_r; lia.
    - apply Zmult_lt_compat_r; lia. }
  assert (B2 : 2 ^ (d' + e' + 1073) <= Zpos m' * 2 ^ (e' + 1074) < 2 ^ (d' + e' + 1074)).
  { replace (d' + e' + 1073) with ((d' - 1) + (e' + 1074)) by lia.
    replace (d' + e' + 1074) with (d' + (e' + 1074)) by lia.
    rewrite (Z.pow_add_r 2 (d' - 1) (e' + 1074)), (Z.pow_add_r 2 d' (e' + 1074)) by lia. split.
    - apply Z.mul_le_mono_nonneg_r; lia.
    - apply Zmult_lt_compat_r; lia. }
  assert (D : d + e = d' + e').
  { destruct (Z.lt_trichotomy (d + e) (d' + e')) as [Lt|[Eq|Gt]]; [|exact Eq|].
    - assert (2 ^ (d + e + 1074) <= 2 ^ (d' + e' + 1073)) by (apply Z.pow_le_mono_r; lia). lia.
    - assert (2 ^ (d' + e' + 1074) <= 2 ^ (d + e + 1073)) by (apply Z.pow_le_mono_r; lia). lia. }
  assert (E : e = e') by lia. subst e'.
  assert (Zpos m = Zpos m') by (apply (Z.mul_cancel_r _ _ (2 ^ (e + 1074))); lia).
  congruence.
Qed.

(** Two numbers with the same exact value are equal for [==]. *)
Lemma exactValue_eqb (a b : float) (z : Z) :
  exactValue a = Some z -> exactValue b = Some z -> PrimFloat.eqb a b = true.
Proof.
  unfold exactValue. intros Ha Hb. rewrite FloatAxioms.eqb_spec.
  pose proof (Prim2SF_valid a) as Va. pose proof (Prim2SF_valid b) as Vb.
  destruct (Prim2SF a) as [sa|sa| |sa ma ea], (Prim2SF b) as [sb|sb| |sb mb eb];
    try discriminate.
  - reflexivity.
  - exfalso. pose proof (scaled_finite_pos _ _ _ Vb). simpl in Ha, Hb.
    destruct sb; simpl in Hb; simplify_eq; lia.
  - exfalso. pose proof (scaled_finite_pos _ _ _ Va). simpl in Ha, Hb.
    destruct sa; simpl in Ha; simplify_eq; lia.
  - rewrite (scaled_finite_inj _ _ _ _ _ _ Va Vb) by congruence.
    unfold SFeqb, SFcompare.
    destruct sb; rewrite Z.compare_refl, Pos.compare_cont_refl; reflexivity.
Qed.

(** Two numbers with the same exact value, neither of them [-0], are the
    same number. *)
Lemma exactValue_eq (a b : float) (z : Z) :
  exactValue a = Some z -> exactValue b = Some z ->
  Prim2SF a <> S754_zero true -> Prim2SF b <> S754_zero true -> a = b.
Proof.
  unfold exactValue. intros Ha Hb Na Nb. apply Prim2SF_inj.
  pose proof (Prim2SF_valid a) as Va. pose proof (Prim2SF_valid b) as Vb.
  destruct (Prim2SF a) as [sa|sa| |sa ma ea], (Prim2SF b) as [sb|sb| |sb mb eb];
    try discriminate.
  - destruct sa, sb; congruence.
  - exfalso. pose proof (scaled_finite_pos _ _ _ Vb). simpl in Ha, Hb.
    destruct sb; simpl in Hb; simplify_eq; lia.
  - exfalso. pose proof (scaled_finite_pos _ _ _ Va). simpl in Ha, Hb.
    destruct sa; simpl in Ha; simplify_eq; lia.
  - apply scaled_finite_inj; congruence.
Qed.

Lemma iter_xO (m d : positive) : Zpos (Pos.iter xO m d) = Zpos m * 2 ^ Zpos d.
Proof.
  induction d as [|d IH] using Pos.peano_ind.
  - simpl. lia.
  - rewrite Pos.iter_succ, Pos2Z.inj_xO, IH, Pos2Z.inj_succ, Z.pow_succ_r by lia. lia.
Qed.

(** Aligning a mantissa to a smaller exponent multiplies it by the power
    of two in between. *)
Lemma shl_align_fst (mx : positive) (ex ez : Z) :
  ez <= ex -> Zpos (fst (shl_align mx ex ez)) = Zpos mx * 2 ^ (ex - ez).
Proof.
  intros Hle. unfold shl_align. destruct (ez - ex) as [|d|d] eqn:E.
  - replace (ex - ez) with 0 by lia. simpl. lia.
  - lia.
  - simpl fst. rewrite iter_xO. f_equal. f_equal. lia.
Qed.

Lemma scaled_aligned (s : bool) (m : positive) (e ez : Z) :
  -1074 <= ez <= e ->
  cond_Zopp s (Zpos m) * 2 ^ (e + unit_exponent)
  = cond_Zopp s (Zpos (fst (shl_align m e ez))) * 2 ^ (ez + unit_exponent).
Proof.
  intros H. rewrite shl_align_fst by lia. unfold unit_exponent.
  replace (e + 1074) with ((e - ez) + (ez + 1074)) by lia.
  rewrite Z.pow_add_r by lia.
  destruct s; simpl; lia.
Qed.

(** An addition that does not round gives [-0] only from [-0]. *)
Lemma add_exact_not_neg_zero (x y : float) :
  exactAdd x y = true ->
  Prim2SF x <> S754_zero true -> Prim2SF (x + y)%float <> S754_zero true.
Proof.
  unfold exactAdd, exactValue. rewrite add_spec.
  pose proof (Prim2SF_valid x) as Vx. pose proof (Prim2SF_valid y) as Vy.
  intros Hex Nx Hz.
  destruct (Prim2SF x) as [sx|sx| |sx mx ex], (Prim2SF y) as [sy|sy| |sy my ey];
    try (simpl in Hex; discriminate Hex).
  - destruct sx; [congruence|]. destruct sy; discriminate Hz.
  - discriminate Hz.
  - discriminate Hz.
  - unfold SF64add, SFadd in Hex, Hz.
    apply valid_finite_inv in Vx as [Hx _], Vy as [Hy _].
    set (ez := Z.min ex ey) in *.
    assert (Hez : -1074 <= ez <= ex /\ -1074 <= ez <= ey) by (subst ez; lia).
    destruct Hez as [Hzx Hzy].
    set (M := cond_Zopp sx (Zpos (fst (shl_align mx ex ez)))
              + cond_Zopp sy (Zpos (fst (shl_align my ey ez)))) in *.
    rewrite Hz in Hex. cbn [scaled] in Hex.
    apply Z.eqb_eq in Hex.
    rewrite (scaled_aligned sx mx ex ez Hzx), (scaled_aligned sy my ey ez Hzy) in Hex.
    assert (Q : 0 < 2 ^ (ez + unit_exponent))
      by (apply Z.pow_pos_nonneg; unfold unit_exponent; lia).
    assert (HM : M = 0) by (subst M; nia).
    rewrite HM in Hz. discriminate Hz.
Qed.

(** The value of a reduction none of whose steps rounds. *)
Lemma exactFrom_value (items : list InvoiceItem) :
  forall (sum : float) (z : Z),
    exactFrom sum items = true -> exactValue sum = Some z ->
    exists z',
      exactValue (fold_left (fun sum item => (sum + quantity item * unitPrice item)%float)
                            items sum) = Some z'
               /\ z' * 2 ^ unit_exponent = z * 2 ^ unit_exponent + mathSum items.
Proof.
  induction items as [|item rest IH]; intros sum z Hex Hz; simpl.
  - exists z. split; [exact Hz|lia].
  - simpl in Hex. apply andb_true_iff in Hex as [Hex Hrest].
    apply andb_true_iff in Hex as [Hmul Hadd].
    unfold exactMul in Hmul. unfold exactAdd in Hadd. unfold valueOf.
    rewrite Hz in Hadd.
    destruct (exactValue (quantity item)) as [a|]; [|discriminate].
    destruct (exactValue (unitPrice item)) as [b|]; [|discriminate].
    destruct (exactValue (quantity item * unitPrice item)%float) as [c|]; [|discriminate].
    destruct (exactValue (sum + quantity item * unitPrice item)%float) as [w|] eqn:Hw;
      [|discriminate].
    apply Z.eqb_eq in Hmul, Hadd. subst w.
    destruct (IH _ _ Hrest Hw) as (z' & Hz' & Heq).
    exists z'. split; [exact Hz'|]. simpl. lia.
Qed.

Lemma exactFrom_not_neg_zero (items : list InvoiceItem) :
  forall sum : float,
    exactFrom sum items = true -> Prim2SF sum <> S754_zero true ->
    Prim2SF (fold_left (fun sum item => (sum + quantity item * unitPrice item)%float)
                       items sum) <> S754_zero true.
Proof.
  induction items as [|item rest IH]; intros sum Hex Hs; simpl.
  - exact Hs.
  - simpl in Hex. apply andb_true_iff in Hex as [Hex Hrest].
    apply andb_true_iff in Hex as [_ Hadd].
    apply IH; [exact Hrest|]. apply add_exact_not_neg_zero; assumption.
Qed.

(** The mathematical sum does not depend on the order of the items. *)
Lemma mathSum_Permutation (l l' : list InvoiceItem) :
  Permutation l l' -> mathSum l = mathSum l'.
Proof.
  induction 1; simpl; lia.
Qed.

(** *** Division by 100 does not overflow *)

Lemma Zdigits2_le (z k : Z) : 0 <= k -> 0 <= z < 2 ^ k -> Zdigits2 z <= k.
Proof.
  intros Hk [Hz Hlt]. destruct z as [|p|p]; simpl; [lia| |lia].
  pose proof (digits2_pos_bounds p) as [L _].
  destruct (Z.le_gt_cases (Zpos (digits2_pos p)) k) as [|G]; [assumption|].
  assert (2 ^ k <= 2 ^ (Zpos (digits2_pos p) - 1)) by (apply Z.pow_le_mono_r; lia). lia.
Qed.

Lemma shr_1_bounds (mrs : shr_record) :
  0 <= shr_m mrs -> 0 <= shr_m (shr_1 mrs) <= shr_m mrs.
Proof.
  destruct mrs as [m r s]. simpl. destruct m as [|[p|p|]|p]; simpl; lia.
Qed.

Lemma iter_shr_1_bounds (p : positive) :
  forall mrs, 0 <= shr_m mrs -> 0 <= shr_m (SpecFloat.iter_pos shr_1 p mrs) <= shr_m mrs.
Proof.
  induction p as [p IH|p IH|]; intros mrs H; simpl.
  - pose proof (shr_1_bounds mrs H) as B1.
    pose proof (IH (shr_1 mrs) ltac:(lia)) as B2.
    pose proof (IH (SpecFloat.iter_pos shr_1 p (shr_1 mrs)) ltac:(lia)) as B3. lia.
  - pose proof (IH mrs H) as B2.
    pose proof (IH (SpecFloat.iter_pos shr_1 p mrs) ltac:(lia)) as B3. lia.
  - apply shr_1_bounds, H.
Qed.

Lemma shr_m_of_loc (m : Z) (l : location) : shr_m (shr_record_of_loc m l) = m.
Proof. destruct l as [|[]]; reflexivity. Qed.

Lemma shr_fexp_bounds (m e : Z) (l : location) (mrs : shr_record) (e' : Z) :
  0 <= m -> shr_fexp prec emax m e l = (mrs, e') ->
  0 <= shr_m mrs <= m /\ e' <= Z.max e (fexp prec emax (Zdigits2 m + e)).
Proof.
  intros Hm. unfold shr_fexp, shr.
  destruct (fexp prec emax (Zdigits2 m + e) - e) as [|p|p] eqn:En; intros [= <- <-].
  - rewrite shr_m_of_loc. lia.
  - pose proof (iter_shr_1_bounds p (shr_record_of_loc m l)) as B.
    rewrite shr_m_of_loc in B. specialize (B Hm). lia.
  - rewrite shr_m_of_loc. lia.
Qed.

Lemma round_nearest_even_bounds (m : Z) (l : location) :
  0 <= m -> 0 <= round_nearest_even m l <= m + 1.
Proof.
  intros Hm. destruct l as [|[]]; simpl; try lia. destruct (Z.even m); lia.
Qed.

(** Rounding a mantissa below [2^54] at an exponent of at most 964 does
    not overflow. *)
Lemma binary_round_aux_finite (s : bool) (mz ez : Z) (lz : location) :
  0 <= mz < 2 ^ 54 -> ez <= 964 ->
  finiteSF (binary_round_aux prec emax s mz ez lz) = true.
Proof.
  intros [Hm Hlt] He. unfold binary_round_aux.
  destruct (shr_fexp prec emax mz ez lz) as [mrs' e'] eqn:E1.
  apply shr_fexp_bounds in E1 as [B1 X1]; [|assumption].
  pose proof (round_nearest_even_bounds (shr_m mrs') (loc_of_shr_record mrs') ltac:(lia)) as R.
  set (mr := round_nearest_even (shr_m mrs') (loc_of_shr_record mrs')) in *.
  destruct (shr_fexp prec emax mr e' loc_Exact) as [mrs'' e''] eqn:E2.
  apply shr_fexp_bounds in E2 as [B2 X2]; [|lia].
  pose proof (Zdigits2_le mz 54 ltac:(lia) ltac:(lia)) as D1.
  assert (Hmr : 0 <= mr < 2 ^ 55).
  { change (2 ^ 55) with (2 * 2 ^ 54). lia. }
  pose proof (Zdigits2_le mr 55 ltac:(lia) Hmr) as D2.
  unfold fexp, SpecFloat.emin, prec, emax in X1, X2.
  destruct (shr_m mrs'') as [|p|p] eqn:Em; [reflexivity| |lia].
  replace (e'' <=? emax - prec) with true; [reflexivity|].
  symmetry. apply Z.leb_le. unfold emax, prec. lia.
Qed.

Lemma Prim2SF_100 : Prim2SF 100%float = S754_finite false mantissa_100 (-46).
Proof. reflexivity. Qed.

(** The quotient the division by 100 hands to the rounding. *)
Lemma SFdiv_core_100_bounds (m1 : positive) (e1 : Z) :
  valid_binary (S754_finite false m1 e1) = true ->
  let '(q, e', _) := SFdiv_core_binary prec emax (Zpos m1) e1 (Zpos mantissa_100) (-46) in
  0 <= q < 2 ^ 54 /\ e' <= 964.
Proof.
  intros [He Hle]%valid_finite_inv.
  pose proof (digits2_pos_bounds m1) as [_ U].
  unfold SFdiv_core_binary.
  change (Zdigits2 (Zpos mantissa_100)) with 53.
  change (Zdigits2 (Zpos m1)) with (Zpos (digits2_pos m1)).
  set (d1 := Zpos (digits2_pos m1)) in *.
  assert (Hd : 0 < d1 <= 53) by (subst d1; lia).
  unfold fexp, SpecFloat.emin, prec, emax.
  set (e' := Z.min (Z.max (d1 + e1 - (53 + -46) - 53) (3 - 1024 - 53)) (e1 - -46)).
  set (sh := e1 - -46 - e').
  assert (Hsh : 0 <= sh /\ d1 + sh <= 106) by (subst sh e'; lia).
  set (m' := match sh with Z.pos _ => Z.shiftl (Zpos m1) sh | 0 => Zpos m1 | Z.neg _ => 0 end).
  assert (Hm' : 0 <= m' < 2 ^ 106).
  { assert (m' = Zpos m1 * 2 ^ sh) as ->.
    { subst m'. destruct sh as [|p|p] eqn:Es.
      - simpl. lia.
      - rewrite Z.shiftl_mul_pow2 by lia. reflexivity.
      - lia. }
    assert (0 < 2 ^ sh) by (apply Z.pow_pos_nonneg; lia).
    split; [lia|].
    assert (Zpos m1 * 2 ^ sh < 2 ^ d1 * 2 ^ sh) by (apply Zmult_lt_compat_r; lia).
    rewrite <- Z.pow_add_r in H0 by lia.
    assert (2 ^ (d1 + sh) <= 2 ^ 106) by (apply Z.pow_le_mono_r; lia). lia. }
  destruct (Z.div_eucl m' (Zpos mantissa_100)) as [q r] eqn:Ediv.
  assert (Hq : q = m' / Zpos mantissa_100) by (unfold Z.div; rewrite Ediv; reflexivity).
  split; [|subst e'; lia].
  assert (L100 : 2 ^ 52 <= Zpos mantissa_100) by (vm_compute; discriminate).
  assert (0 <= q) by (subst q; apply Z.div_pos; lia).
  split; [assumption|].
  pose proof (Z.mul_div_le m' (Zpos mantissa_100) ltac:(lia)) as Hmul.
  rewrite <- Hq in Hmul.
  change (2 ^ 106) with (2 ^ 54 * 2 ^ 52) in Hm'.
  nia.
Qed.

(** [r / 100] is finite for every finite [r]. *)
Lemma div_100_finite (r : float) :
  finiteSF (Prim2SF r) = true -> finiteSF (Prim2SF (r / 100)%float) = true.
Proof.
  intros Hr. rewrite div_spec, Prim2SF_100.
  pose proof (Prim2SF_valid r) as V.
  destruct (Prim2SF r) as [s|s| |s m e]; try discriminate Hr.
  - reflexivity.
  - unfold SF64div, SFdiv.
    assert (V' : valid_binary (S754_finite false m e) = true) by exact V.
    pose proof (SFdiv_core_100_bounds m e V') as B.
    destruct (SFdiv_core_binary prec emax (Zpos m) e (Zpos mantissa_100) (-46)) as [[q e'] l].
    destruct B as [Bq Be]. apply binary_round_aux_finite; assumption.
Qed.

End ExactValues.

(** ** The table after an update *)

(** SameValueZero is reflexive, NaN included. *)
Lemma sameValueZero_refl (x : float) : JS.sameValueZero x x = true.
Proof.
  unfold JS.sameValueZero, JS.strictEq, is_nan. destruct (x =? x)%float; reflexivity.
Qed.

Lemma elem_of_rawAttributes (k : Attr) : k ∈ rawAttributes.
Proof. destruct k; unfold rawAttributes; set_solver. Qed.

Lemma elem_of_payloadKeys (p : Partial) (k : Attr) :
  k ∈ payloadKeys p <-> present p k = true.
Proof.
  unfold payloadKeys. rewrite list_elem_of_filter.
  pose proof (elem_of_rawAttributes k). tauto.
Qed.

(** The change set of a freshly loaded instance: the keys whose value
    differs from the row. *)
Lemma elem_of_changed_set (p : Partial) (r : InvoiceAttributes) (k : Attr) :
  k ∈ changedKeys (set p (loaded r)) <-> differs p r k = true.
Proof.
  simpl. rewrite list_elem_of_filter.
  pose proof (elem_of_rawAttributes k). tauto.
Qed.

Lemma differs_present (p : Partial) (r : InvoiceAttributes) (k : Attr) :
  differs p r k = true -> present p k = true.
Proof.
  destruct k; simpl;
    match goal with |- context [match ?o with _ => _ end] => destruct o end;
    intros; try discriminate; apply bool_decide_eq_true; eauto.
Qed.

Lemma not_present_items p : present p AItems <> true -> p_items p = None.
Proof.
  simpl. rewrite bool_decide_eq_true.
  destruct (p_items p); [intros []; eauto|reflexivity].
Qed.

Lemma not_present_taxRate p : present p ATaxRate <> true -> p_taxRate p = None.
Proof.
  simpl. rewrite bool_decide_eq_true.
  destruct (p_taxRate p); [intros []; eauto|reflexivity].
Qed.

Lemma not_present_subtotal p : present p ASubtotal <> true -> p_subtotal p = None.
Proof.
  simpl. rewrite bool_decide_eq_true.
  destruct (p_subtotal p); [intros []; eauto|reflexivity].
Qed.

Lemma not_present_total p : present p ATotal <> true -> p_total p = None.
Proof.
  simpl. rewrite bool_decide_eq_true.
  destruct (p_total p); [intros []; eauto|reflexivity].
Qed.

Lemma id_assignValues (p : Partial) (r : InvoiceAttributes) :
  JS.truthyString (id r) = true -> id (assignValues p r) = id r.
Proof. intros H. simpl. rewrite H. destruct (p_id p); reflexivity. Qed.

(** A total the hook's setter did not mark as changed already was the
    value assigned. *)
Lemma subtotal_unmarked (s t : float) (inst : Instance) :
  ASubtotal ∉ changedKeys (set_total t (set_subtotal s inst)) ->
  JS.sameValueZero s (subtotal (dataValues inst)) = true.
Proof.
  simpl. destruct (JS.sameValueZero s _); [reflexivity|].
  destruct (JS.sameValueZero t _); set_solver.
Qed.

Lemma total_unmarked (s t : float) (inst : Instance) :
  ATotal ∉ changedKeys (set_total t (set_subtotal s inst)) ->
  JS.sameValueZero t (total (dataValues inst)) = true.
Proof.
  simpl. destruct (JS.sameValueZero t _); [reflexivity|]. set_solver.
Qed.

(** The columns [save] writes when the hook has recomputed the totals. *)
Lemma update_recomputes (st : Store) (r : InvoiceAttributes) (values : Partial) :
  st !! id r = Some r ->
  JS.truthyString (id r) = true ->
  differs values r AItems = true \/ differs values r ATaxRate = true ->
  exists r',
    (update values (loaded r) st).2 !! id r = Some r'
    /\ items r' = default (items r) (p_items values)
    /\ taxRate r' = default (taxRate r) (p_taxRate values)
    /\ JS.sameValueZero (t_subtotal (computeTotals (items r') (taxRate r'))) (subtotal r') = true
    /\ JS.sameValueZero (t_total (computeTotals (items r') (taxRate r'))) (total r') = true.
Proof.
  intros Hst Hid Hch.
  unfold update, save.
  set (inst1 := set values (loaded r)).
  assert (Hfire : changed AItems inst1 || changed ATaxRate inst1 = true).
  { unfold changed. apply orb_true_iff.
    destruct Hch as [H|H]; [left|right]; apply bool_decide_eq_true;
      apply elem_of_changed_set; exact H. }
  unfold beforeUpdate. rewrite Hfire.
  set (dv1 := dataValues inst1).
  set (T := computeTotals (items dv1) (taxRate dv1)).
  set (inst2 := set_total (t_total T) (set_subtotal (t_subtotal T) inst1)).
  set (fields := payloadKeys values).
  set (ignoreChanged := filter (fun k => k ∉ fields) (changedKeys inst1)).
  set (hookChanged := filter _ (changedKeys inst2)).
  set (fields' := fields ++ hookChanged).
  (* what is marked as changed *)
  assert (Hck1 : forall k, k ∈ changedKeys inst1 -> k ∈ changedKeys inst2).
  { intros k Hk. subst inst2. simpl.
    destruct (JS.sameValueZero _ _), (JS.sameValueZero _ _);
      rewrite ?elem_of_cons; tauto. }
  assert (Hin1 : exists k, k ∈ changedKeys inst1 /\ k ∈ fields).
  { destruct Hch as [H|H]; eexists; (split; [apply elem_of_changed_set; exact H|]);
      apply elem_of_payloadKeys, (differs_present _ r); exact H. }
  destruct Hin1 as (k0 & Hk0 & Hk0f).
  assert (Hne1 : fields' <> []).
  { subst fields'. intros E. apply app_eq_nil in E as [E _]. rewrite E in Hk0f. set_solver. }
  assert (Hne2 : changedKeys inst2 <> []).
  { intros E. apply Hck1 in Hk0. rewrite E in Hk0. set_solver. }
  rewrite (bool_decide_eq_false_2 _ Hne1), (bool_decide_eq_false_2 _ Hne2). simpl orb. cbv iota.
  cbn [snd].
  assert (Hid2 : id (dataValues inst2) = id r) by (apply id_assignValues, Hid).
  exists (writeFields fields' (dataValues inst2) r).
  split; [rewrite Hid2, lookup_alter_eq, Hst; reflexivity|].
  (* keys outside the written fields *)
  assert (Hout : forall k, k ∉ fields' -> present values k <> true /\ k ∉ changedKeys inst2).
  { intros k Hk. subst fields'. rewrite elem_of_app in Hk.
    assert (Hp : present values k <> true).
    { intros Hp. apply Hk. left. apply elem_of_payloadKeys, Hp. }
    split; [exact Hp|]. intros Hc. apply Hk. right.
    subst hookChanged. apply list_elem_of_filter. split; [|exact Hc].
    split.
    - subst ignoreChanged. rewrite list_elem_of_filter. intros [_ Hc1].
      apply elem_of_changed_set, differs_present in Hc1. contradiction.
    - left. intros Hf. apply Hp, elem_of_payloadKeys, Hf. }
  assert (Hitems : items (writeFields fields' (dataValues inst2) r)
                   = default (items r) (p_items values)).
  { simpl. case_bool_decide as Hk; [reflexivity|].
    apply Hout in Hk as [Hp _]. apply not_present_items in Hp. rewrite Hp. reflexivity. }
  assert (Htax : taxRate (writeFields fields' (dataValues inst2) r)
                 = default (taxRate r) (p_taxRate values)).
  { simpl. case_bool_decide as Hk; [reflexivity|].
    apply Hout in Hk as [Hp _]. apply not_present_taxRate in Hp. rewrite Hp. reflexivity. }
  split; [exact Hitems|]. split; [exact Htax|].
  rewrite Hitems, Htax.
  change (default (items r) (p_items values)) with (items dv1).
  change (default (taxRate r) (p_taxRate values)) with (taxRate dv1).
  fold T.
  split.
  - change (subtotal (writeFields fields' (dataValues inst2) r))
      with (if bool_decide (ASubtotal ∈ fields') then t_subtotal T else subtotal r).
    case_bool_decide as Hk; [apply sameValueZero_refl|].
    apply Hout in Hk as [Hp Hc]. apply not_present_subtotal in Hp.
    apply subtotal_unmarked in Hc.
    change (subtotal (dataValues inst1)) with (default (subtotal r) (p_subtotal values)) in Hc.
    rewrite Hp in Hc. exact Hc.
  - change (total (writeFields fields' (dataValues inst2) r))
      with (if bool_decide (ATotal ∈ fields') then t_total T else total r).
    case_bool_decide as Hk; [apply sameValueZero_refl|].
    apply Hout in Hk as [Hp Hc]. apply not_present_total in Hp.
    apply total_unmarked in Hc.
    change (total (dataValues inst1)) with (default (total r) (p_total values)) in Hc.
    rewrite Hp in Hc. exact Hc.
Qed.

(** ** Finders, [create] and the frame of [update] *)

(** A successful [findOne] returns the row stored under the id, and that
    row belongs to the user. *)
Lemma findOne_Some (invoiceId userId : string) (st : Store) (invoice : Instance) :
  findOne invoiceId userId st = Some invoice ->
  exists r, invoice = loaded r /\ st !! invoiceId = Some r
            /\ id r = invoiceId /\ UserId r = userId.
Proof.
  unfold findOne. destruct (st !! invoiceId) as [r|]; [|discriminate].
  destruct (String.eqb (id r) invoiceId) eqn:E1; [|discriminate].
  destruct (String.eqb (UserId r) userId) eqn:E2; [|discriminate].
  intros [= <-]. exists r.
  apply String.eqb_eq in E1, E2. auto.
Qed.

Lemma findOne_None (invoiceId userId : string) (st : Store) :
  (forall r, st !! invoiceId = Some r -> id r = invoiceId -> UserId r <> userId) ->
  findOne invoiceId userId st = None.
Proof.
  intros H. unfold findOne. destruct (st !! invoiceId) as [r|] eqn:E; [|reflexivity].
  destruct (String.eqb (id r) invoiceId) eqn:E1; [|reflexivity].
  destruct (String.eqb (UserId r) userId) eqn:E2; [|reflexivity].
  apply String.eqb_eq in E1, E2. exfalso. exact (H r eq_refl E1 E2).
Qed.

(** [create] returns once [UserId] is given and the primary key is free;
    the row it inserts carries the totals the hook computed. *)
Lemma create_returns (env : Env) (values : Partial) (st : Store) (u : string) :
  p_UserId values = Some u ->
  st !! default (uuidv4 env) (p_id values) = None ->
  exists r,
    create env values st = (Returned (loaded r), <[(id r) := r]> st)
    /\ id r = default (uuidv4 env) (p_id values)
    /\ items r = default [] (p_items values)
    /\ taxRate r = default 0%float (p_taxRate values)
    /\ subtotal r = t_subtotal (computeTotals (items r) (taxRate r))
    /\ total r = t_total (computeTotals (items r) (taxRate r)).
Proof.
  intros Hu Hfree. unfold create. rewrite Hu.
  set (r := dataValues (beforeCreate (build env values))).
  change (id r) with (default (uuidv4 env) (p_id values)).
  rewrite Hfree. exists r. repeat split; reflexivity.
Qed.

(** A number that is SameValueZero-equal to a finite non-zero number is
    that number. *)
Lemma sameValueZero_finite_eq (c x : float) (s : bool) (m : positive) (e : Z) :
  Prim2SF c = S754_finite s m e -> JS.sameValueZero c x = true -> x = c.
Proof.
  intros Hc. unfold JS.sameValueZero, JS.strictEq, is_nan.
  rewrite !FloatAxioms.eqb_spec, Hc, SFeqb_refl_finite. simpl negb. rewrite orb_false_r.
  intros H. apply Prim2SF_inj. rewrite Hc.
  unfold SFeqb, SFcompare in H.
  destruct (Prim2SF x) as [b|b| |b m' e'].
  - destruct s; discriminate H.
  - destruct s, b; discriminate H.
  - discriminate H.
  - destruct s, b; try discriminate H;
      destruct (Z.compare e e') eqn:Ee; try discriminate H;
      destruct (Pos.compare_cont Eq m m') eqn:Em; try discriminate H;
      apply Z.compare_eq in Ee; apply Pos.compare_eq in Em; subst; reflexivity.
Qed.

(** An update that carries neither [items], [taxRate], [subtotal] nor
    [total] leaves the stored totals as they were. *)
Lemma update_keeps_totals (st : Store) (r : InvoiceAttributes) (values : Partial) :
  st !! id r = Some r ->
  JS.truthyString (id r) = true ->
  p_items values = None -> p_taxRate values = None ->
  p_subtotal values = None -> p_total values = None ->
  exists r',
    (update values (loaded r) st).2 !! id r = Some r'
    /\ subtotal r' = subtotal r /\ total r' = total r.
Proof.
  intros Hst Hid Hi Ht Hs Htot. unfold update, save.
  set (inst1 := set values (loaded r)).
  assert (Hquiet : beforeUpdate inst1 = inst1).
  { unfold beforeUpdate, changed.
    rewrite !bool_decide_eq_false_2; [reflexivity| |];
      intros Hin; apply elem_of_changed_set in Hin; simpl in Hin;
      rewrite ?Hi, ?Ht in Hin; discriminate Hin. }
  rewrite Hquiet.
  destruct (bool_decide _ || bool_decide _).
  - exists r. auto.
  - cbn [snd].
    change (id (dataValues inst1)) with (id (assignValues values r)).
    rewrite (id_assignValues _ _ Hid), lookup_alter_eq, Hst.
    eexists. split; [reflexivity|]. simpl. rewrite Hs, Htot. simpl.
    split; case_bool_decide; reflexivity.
Qed.

(** ** The Next.js routes *)

(** [findOne] finds nothing when no invoice has the id and the owner. *)
Lemma findOne_NoInvoiceOf (invoiceId userId : string) (st : Store) :
  NoInvoiceOf invoiceId userId st -> findOne invoiceId userId st = None.
Proof.
  intros H. apply findOne_None. intros r Hr Hid Hu. apply H. exists r. auto.
Qed.

(** The test of the routes says what the specification says. *)
Lemma missingRequired_iff (b : Next.Body) :
  Next.missingRequired b = true <-> MissingRequired b.
Proof.
  unfold Next.missingRequired, MissingRequired.
  rewrite !orb_true_iff, !negb_true_iff, !bool_decide_eq_false.
  split.
  - intros [[[H|H]|H]|H].
    + destruct (Next.b_invoiceDate b) as [d|]; [|tauto].
      unfold JS.truthyString in H. apply negb_false_iff, String.eqb_eq in H. subst. tauto.
    + right; right; left. destruct (Next.b_sender b); [exfalso; apply H; eauto|reflexivity].
    + right; right; right; left.
      destruct (Next.b_recipient b); [exfalso; apply H; eauto|reflexivity].
    + destruct (Next.b_items b) as [|t|l]; [tauto|eauto 10|].
      destruct l; [tauto|discriminate H].
  - intros [H|[H|[H|[H|[H|[[t H]|H]]]]]]; rewrite H; simpl; auto.
    all: try (left; left; right; intros [? ?]; discriminate).
    all: try (left; right; intros [? ?]; discriminate).
Qed.

Lemma dataValues_beforeUpdate_items (invoice : Instance) :
  items (dataValues (beforeUpdate invoice)) = items (dataValues invoice).
Proof. unfold beforeUpdate. destruct (_ || _); reflexivity. Qed.

(** What an update does to the table: nothing, or one [UPDATE] of the
    instance's row that writes at least the attributes given. *)
Lemma update_store_cases (values : Partial) (r : InvoiceAttributes) (st : Store) :
  (update values (loaded r) st).2 = st
  \/ exists fields dv,
      (update values (loaded r) st).2 = alter (writeFields fields dv) (id dv) st
      /\ (forall k, present values k = true -> k ∈ fields)
      /\ items dv = default (items r) (p_items values).
Proof.
  unfold update, save.
  destruct (bool_decide _ || bool_decide _); [left; reflexivity|right].
  eexists _, _. split; [reflexivity|]. split.
  - intros k Hk. apply elem_of_app. left. apply elem_of_payloadKeys, Hk.
  - apply dataValues_beforeUpdate_items.
Qed.

(** After an update with a non-empty [items], every row is an old row or
    has items. *)
Lemma update_items_nonempty (values : Partial) (r : InvoiceAttributes) (st : Store)
    (l : list InvoiceItem) (k : string) (r' : InvoiceAttributes) :
  p_items values = Some l -> l <> [] ->
  (update values (loaded r) st).2 !! k = Some r' ->
  st !! k = Some r' \/ items r' <> [].
Proof.
  intros Hl Hne.
  destruct (update_store_cases values r st) as [->|(fields & dv & -> & Hf & Hi)]; [auto|].
  destruct (decide (k = id dv)) as [->|Hk].
  - rewrite lookup_alter_eq. destruct (st !! id dv) as [r0|]; [|discriminate].
    intros [= <-]. right. simpl.
    rewrite bool_decide_eq_true_2.
    + rewrite Hi, Hl. exact Hne.
    + apply Hf. simpl. rewrite Hl. apply bool_decide_eq_true. eauto.
  - rewrite lookup_alter_ne; [auto|]. intros Heq. apply Hk. symmetry. exact Heq.
Qed.

Lemma create_items_nonempty (env : Env) (values : Partial) (st st' : Store)
    (out : Outcome Instance) (l : list InvoiceItem) (k : string) (r' : InvoiceAttributes) :
  create env values st = (out, st') ->
  p_items values = Some l -> l <> [] ->
  st' !! k = Some r' ->
  st !! k = Some r' \/ items r' <> [].
Proof.
  intros Hc Hl Hne. revert Hc. unfold create.
  destruct (p_UserId values); [|intros [= _ <-]; auto].
  set (r := dataValues (beforeCreate (build env values))).
  destruct (st !! id r) eqn:E; intros [= _ <-]; [auto|].
  destruct (decide (k = id r)) as [->|Hk].
  - rewrite lookup_insert_eq. intros [= <-]. right.
    change (items r) with (default [] (p_items values)). rewrite Hl. exact Hne.
  - rewrite lookup_insert_ne; [auto|]. intros Heq. apply Hk. symmetry. exact Heq.
Qed.

Lemma itemsOf_present (b : Next.Body) :
  Next.missingRequired b = false ->
  exists l, Next.itemsOf b = Some l /\ l <> [].
Proof.
  unfold Next.missingRequired, Next.itemsOf. rewrite !orb_false_iff.
  intros [_ H]. destruct (Next.b_items b) as [|t|l]; try discriminate H.
  exists l. split; [reflexivity|]. destruct l; [discriminate H|discriminate].
Qed.

Section NextRoutes.

Variable jwt_verify : string -> option string.
Variable users : gmap string Next.User.

Lemma createInvoice_no_empty_items env req userId st k r :
  (Next.createInvoice env req userId st).2 !! k = Some r ->
  st !! k = Some r \/ items r <> [].
Proof.
  unfold Next.createInvoice.
  destruct (Next.missingRequired (Next.body req)) eqn:E; [auto|].
  destruct (itemsOf_present _ E) as (l & Hl & Hne).
  destruct (create env _ st) as [out st'] eqn:Ec.
  intros H. apply (create_items_nonempty _ _ _ _ _ l k r Ec Hl Hne).
  destruct out; exact H.
Qed.

Lemma updateInvoice_no_empty_items req invoiceId userId st k r :
  (Next.updateInvoice req invoiceId userId st).2 !! k = Some r ->
  st !! k = Some r \/ items r <> [].
Proof.
  unfold Next.updateInvoice.
  destruct (findOne invoiceId userId st) as [invoice|] eqn:Ef; [|auto].
  destruct (Next.missingRequired (Next.body req)) eqn:E; [auto|].
  destruct (itemsOf_present _ E) as (l & Hl & Hne).
  apply findOne_Some in Ef as (r0 & -> & _).
  destruct (update _ (loaded r0) st) as [invoice' st'] eqn:Eu.
  intros H.
  match type of Eu with
  | update ?v _ _ = _ => apply (update_items_nonempty v r0 st l k r Hl Hne)
  end.
  rewrite Eu. exact H.
Qed.

Lemma deleteInvoice_no_new_rows req invoiceId userId st k r :
  (Next.deleteInvoice req invoiceId userId st).2 !! k = Some r -> st !! k = Some r.
Proof.
  unfold Next.deleteInvoice, destroy.
  destruct (findOne invoiceId userId st); [|auto].
  simpl. rewrite lookup_delete_Some. tauto.
Qed.

(** Past the two gates the handlers dispatch on the method. *)
Lemma handlerIndex_verified env req st user :
  Next.authenticate jwt_verify users req = inr user ->
  Next.emailVerified user = true ->
  Next.handlerIndex jwt_verify users env req st
  = if String.eqb (Next.method req) "GET" then Next.getInvoices req (Next.u_id user) st
    else if String.eqb (Next.method req) "POST"
         then Next.createInvoice env req (Next.u_id user) st
         else (Next.failure 405 "Method not allowed", st).
Proof.
  intros Ha Hv. unfold Next.handlerIndex, Next.requireVerifiedEmail.
  rewrite Ha, Hv. reflexivity.
Qed.

Lemma handlerById_verified req st user invoiceId :
  Next.authenticate jwt_verify users req = inr user ->
  Next.emailVerified user = true ->
  Next.query_id req = Some invoiceId ->
  JS.truthyString invoiceId = true ->
  Next.handlerById jwt_verify users req st
  = if String.eqb (Next.method req) "GET"
    then Next.getInvoice req invoiceId (Next.u_id user) st
    else if String.eqb (Next.method req) "PUT"
         then Next.updateInvoice req invoiceId (Next.u_id user) st
         else if String.eqb (Next.method req) "DELETE"
              then Next.deleteInvoice req invoiceId (Next.u_id user) st
              else (Next.failure 405 "Method not allowed", st).
Proof.
  intros Ha Hv Hq Ht. unfold Next.handlerById, Next.requireVerifiedEmail.
  rewrite Ha, Hv, Hq, Ht. reflexivity.
Qed.

(** Neither route leaves a new or rewritten row without items. *)
Lemma handlerIndex_no_empty_items env req st k r :
  (Next.handlerIndex jwt_verify users env req st).2 !! k = Some r ->
  st !! k = Some r \/ items r <> [].
Proof.
  unfold Next.handlerIndex.
  destruct (Next.authenticate jwt_verify users req) as [sent|user]; [auto|].
  destruct (Next.requireVerifiedEmail user); [auto|].
  destruct (String.eqb (Next.method req) "GET"); [auto|].
  destruct (String.eqb (Next.method req) "POST"); [|auto].
  apply createInvoice_no_empty_items.
Qed.

Lemma handlerById_no_empty_items req st k r :
  (Next.handlerById jwt_verify users req st).2 !! k = Some r ->
  st !! k = Some r \/ items r <> [].
Proof.
  unfold Next.handlerById.
  destruct (Next.authenticate jwt_verify users req) as [sent|user]; [auto|].
  destruct (Next.requireVerifiedEmail user); [auto|].
  destruct (Next.query_id req) as [invoiceId|]; [|auto].
  destruct (negb (JS.truthyString invoiceId)); [auto|].
  destruct (String.eqb (Next.method req) "GET").
  { unfold Next.getInvoice. destruct (findOne _ _ _); auto. }
  destruct (String.eqb (Next.method req) "PUT"); [apply updateInvoice_no_empty_items|].
  destruct (String.eqb (Next.method req) "DELETE"); [|auto].
  intros H. left. eapply deleteInvoice_no_new_rows, H.
Qed.

End NextRoutes.

(** ** The calculator *)

Lemma reduceItems_snoc (items : list InvoiceItem) (item : InvoiceItem) :
  reduceItems (items ++ [item])
  = (reduceItems items + quantity item * unitPrice item)%float.
Proof. unfold reduceItems. rewrite fold_left_app. reflexivity. Qed.

(** When no step of the reduction rounds, its result is the exact sum of
    the products, and it is not [-0]. *)
Lemma exactReduce_sum (items : list InvoiceItem) :
  exactReduce items = true ->
  exists z, exactValue (reduceItems items) = Some z
            /\ (z * 2 ^ unit_exponent)%Z = mathSum items
            /\ Prim2SF (reduceItems items) <> S754_zero true.
Proof.
  intros H. unfold exactReduce in H.
  destruct (exactFrom_value items 0%float 0%Z H eq_refl) as (z & Hz & Hs).
  exists z. split; [exact Hz|]. split; [lia|].
  apply exactFrom_not_neg_zero; [exact H|]. rewrite Prim2SF_zero. discriminate.
Qed.

(** ** Numbers that are not finite, and canonical ids *)

Lemma is_nan_of_SF (x : float) : Prim2SF x = S754_nan -> PrimFloat.is_nan x = true.
Proof. intros H. unfold is_nan. rewrite FloatAxioms.eqb_spec, H. reflexivity. Qed.

(** A number that is not finite is an infinity or NaN. *)
Lemma not_finite_cases (x : float) :
  JS.isFinite x = false ->
  (exists b, Prim2SF x = S754_infinity b) \/ Prim2SF x = S754_nan.
Proof.
  intros H. destruct (finiteSF (Prim2SF x)) eqn:E.
  - apply isFinite_spec in E. congruence.
  - destruct (Prim2SF x) as [b|b| |b m e]; try discriminate E; eauto.
Qed.

(** [0 + 0 * (t / 100)] is NaN for every [t] that is not finite. *)
Lemma zero_add_zero_mul_not_finite (t : float) :
  JS.isFinite t = false -> PrimFloat.is_nan (0 + 0 * (t / 100))%float = true.
Proof.
  intros H. apply is_nan_of_SF.
  rewrite add_spec, mul_spec, div_spec, Prim2SF_zero, Prim2SF_100.
  destruct (not_finite_cases t H) as [[b ->]| ->]; [destruct b|]; reflexivity.
Qed.

(** [s + s * 0] is NaN for every [s] that is not finite. *)
Lemma add_mul_zero_not_finite (s : float) :
  JS.isFinite s = false -> PrimFloat.is_nan (s + s * 0)%float = true.
Proof.
  intros H. apply is_nan_of_SF.
  rewrite add_spec, mul_spec, Prim2SF_zero.
  destruct (not_finite_cases s H) as [[b ->]| ->]; [destruct b|]; reflexivity.
Qed.

Lemma canonicalUUID_truthy (s : string) :
  canonicalUUID s = true -> JS.truthyString s = true.
Proof. destruct s; [discriminate|reflexivity]. Qed.

(** The reduction of the hooks is the sum of the specification. *)
Lemma reduceItems_sumOfProducts (l : list InvoiceItem) :
  reduceItems l = sumOfProducts l.
Proof.
  unfold sumOfProducts. induction l as [|item l IH] using rev_ind; [reflexivity|].
  rewrite reduceItems_snoc, rev_app_distr, IH. reflexivity.
Qed.

(** * The properties of the specification *)

(** C1, as stated, fails for the Express route: an update whose payload
    holds the items makes the hook recompute only when their value
    differs from the stored one.  The owner's [PUT] with the body
    [{ items: [{quantity: 2, unitPrice: 10}], subtotal: 999 }], the items
    as they are stored, is answered 200 and leaves the row with
    [subtotal = 999] beside items whose products sum to 20: the caller's
    subtotal is stored, not overwritten. *)
Theorem C1_express_update_resent_items_stores_supplied_subtotal :
  store_a !! id_invoice_a = Some invoice_a
  /\ consistent invoice_a = true
  /\ present (Express.body express_put_resent_items) AItems = true
  /\ p_subtotal (Express.body express_put_resent_items) = Some 999%float
  /\ exists r',
      Express.updateInvoice express_put_resent_items store_a
      = ({| status := 200; success := true; message := None; data := InvoiceData r' |},
         <[id_invoice_a := r']> store_a)
      /\ items r' = [lineItem "work" 2%float 10%float]
      /\ taxRate r' = 10%float
      /\ sumOfProducts (items r') = 20%float
      /\ subtotal r' = 999%float
      /\ JS.sameValueZero (subtotal r') (sumOfProducts (items r')) = false
      /\ consistent r' = false.
Proof.
  split; [reflexivity|]. split; [reflexivity|]. split; [reflexivity|].
  split; [reflexivity|]. eexists. split; [vm_compute; reflexivity|].
  repeat split.
Qed.

(** The update of the consistency scenario, at the level of
    [invoice.update(values)]. *)
Lemma update_consistency
    (st : Store) (invoiceId userId : string) (invoice : Instance) (values : Partial)
    (i1 d1 i2 d2 : string) :
  JS.truthyString invoiceId = true ->
  findOne invoiceId userId st = Some invoice ->
  items (dataValues invoice) = [mkItem i1 d1 2%float 10%float] ->
  taxRate (dataValues invoice) = 10%float ->
  p_items values = Some [mkItem i2 d2 1%float 50%float] ->
  p_taxRate values = None \/ p_taxRate values = Some 10%float ->
  exists r',
    (update values invoice st).2 !! invoiceId = Some r'
    /\ items r' = [mkItem i2 d2 1%float 50%float]
    /\ taxRate r' = 10%float
    /\ subtotal r' = 50%float
    /\ total r' = 55%float.
Proof.
  intros Hid Hfind Hitems Htax Hnew Hsame.
  apply findOne_Some in Hfind as (r & -> & Hst & Hr & _). subst invoiceId.
  simpl in Hitems, Htax.
  destruct (update_recomputes st r values Hst Hid) as (r' & Hr' & Hi & Ht & Hs & Htot).
  { left. simpl. rewrite Hnew, Hitems. simpl. unfold isEqual_item. simpl.
    change (JS.sameValueZero 1%float 2%float) with false. rewrite andb_false_r. reflexivity. }
  exists r'. rewrite Hnew in Hi. simpl in Hi.
  assert (Ht' : taxRate r' = 10%float).
  { rewrite Ht, Htax. destruct Hsame as [-> | ->]; reflexivity. }
  rewrite Hi, Ht' in Hs, Htot.
  change (t_subtotal (computeTotals [mkItem i2 d2 1%float 50%float] 10%float))
    with 50%float in Hs.
  change (t_total (computeTotals [mkItem i2 d2 1%float 50%float] 10%float))
    with 55%float in Htot.
  repeat split; try assumption.
  - eapply sameValueZero_finite_eq; [|exact Hs]. vm_compute. reflexivity.
  - eapply sameValueZero_finite_eq; [|exact Htot]. vm_compute. reflexivity.
Qed.

(** C2.  Given a persisted invoice with [items = [{quantity: 2,
    unitPrice: 10}]] and [taxRate = 10], an update that changes [items] to
    [[{quantity: 1, unitPrice: 50}]], leaves the tax rate as it is and is
    answered with success stores [subtotal = 50] and [total = 55],
    whatever else the request carries, caller-supplied [subtotal] and
    [total] included: for the Express controller [updateInvoice] (which
    passes the request body on) and for the Next.js route [updateInvoice].
    A request the database refuses (a date it cannot read, say) is
    answered 500 and is no update. *)
Theorem C2_update_consistency (st : Store) (invoice : Instance) (i1 d1 i2 d2 : string) :
  items (dataValues invoice) = [mkItem i1 d1 2%float 10%float] ->
  taxRate (dataValues invoice) = 10%float ->
  (forall req : Express.Request,
      canonicalUUID (Express.params_id req) = true ->
      findOne (Express.params_id req) (Express.user_id req) st = Some invoice ->
      p_items (Express.body req) = Some [mkItem i2 d2 1%float 50%float] ->
      p_taxRate (Express.body req) = None \/ p_taxRate (Express.body req) = Some 10%float ->
      success (Express.updateInvoice req st).1 = true ->
      exists r',
        (Express.updateInvoice req st).2 !! Express.params_id req = Some r'
        /\ items r' = [mkItem i2 d2 1%float 50%float]
        /\ taxRate r' = 10%float /\ subtotal r' = 50%float /\ total r' = 55%float)
  /\ (forall (req : Next.Request) (invoiceId userId : string),
        canonicalUUID invoiceId = true ->
        findOne invoiceId userId st = Some invoice ->
        Next.b_items (Next.body req) = Next.ItemsArray [mkItem i2 d2 1%float 50%float] ->
        Next.b_taxRate (Next.body req) = None
        \/ Next.b_taxRate (Next.body req) = Some 10%float ->
        success (Next.updateInvoice req invoiceId userId st).1 = true ->
        exists r',
          (Next.updateInvoice req invoiceId userId st).2 !! invoiceId = Some r'
          /\ items r' = [mkItem i2 d2 1%float 50%float]
          /\ taxRate r' = 10%float /\ subtotal r' = 50%float /\ total r' = 55%float).
Proof.
  intros Hitems Htax. split.
  - intros req Hid Hfind Hnew Hsame _. apply canonicalUUID_truthy in Hid.
    pose proof (update_consistency st _ _ invoice (Express.body req) i1 d1 i2 d2
                  Hid Hfind Hitems Htax Hnew Hsame) as H.
    unfold Express.updateInvoice. rewrite Hfind.
    destruct (update (Express.body req) invoice st) as [invoice' st']. exact H.
  - intros req invoiceId userId Hid Hfind Hnew Hsame. apply canonicalUUID_truthy in Hid.
    unfold Next.updateInvoice. rewrite Hfind.
    destruct (Next.missingRequired (Next.body req)); [intros Hs; discriminate Hs|].
    intros _.
    match goal with
    | |- context [update ?v invoice st] =>
        pose proof (update_consistency st invoiceId userId invoice v i1 d1 i2 d2
                      Hid Hfind Hitems Htax) as H;
        destruct (update v invoice st) as [invoice' st']
    end.
    apply H.
    + simpl. unfold Next.itemsOf. rewrite Hnew. reflexivity.
    + exact Hsame.
Qed.

(** C2 at the sample invoice: [subtotal: 999] and [total: 1] in the
    Express body; a body without totals for the Next.js route. *)
Lemma C2_update_consistency_witness :
  (exists r',
      (Express.updateInvoice express_put_items_a store_a).2 !! id_invoice_a = Some r'
      /\ items r' = [lineItem "work" 1%float 50%float]
      /\ taxRate r' = 10%float /\ subtotal r' = 50%float /\ total r' = 55%float)
  /\ (exists r',
        (Next.updateInvoice (request "PUT" "token-a" (Some id_invoice_a) body_new_items)
           id_invoice_a id_user_a store_a).2 !! id_invoice_a = Some r'
        /\ items r' = [lineItem "work" 1%float 50%float]
        /\ taxRate r' = 10%float /\ subtotal r' = 50%float /\ total r' = 55%float).
Proof.
  pose proof (C2_update_consistency store_a (loaded invoice_a)
                EmptyString "work" EmptyString "work" eq_refl eq_refl) as (H1 & H2).
  split.
  - apply (H1 express_put_items_a); try reflexivity. left. reflexivity.
  - apply (H2 (request "PUT" "token-a" (Some id_invoice_a) body_new_items)
              id_invoice_a id_user_a);
      try reflexivity. left. reflexivity.
Defined.


(** Items that are sent again unchanged are not in the change set: the
    hook does not recompute, and the Express controller stores the
    subtotal the caller sent with them. *)
Lemma express_update_unchanged_items_stores_supplied_subtotal :
  changeSet values_same_items_and_subtotal (loaded invoice_1) = [ASubtotal]
  /\ exists r',
      (Express.updateInvoice express_put_same_items store_1).2 !! "inv-1" = Some r'
      /\ items r' = items invoice_1
      /\ subtotal r' = 999%float.
Proof.
  split; [reflexivity|]. eexists. split; [vm_compute; reflexivity|]. split; reflexivity.
Qed.

(** C4, as stated, fails for a tax rate that is not finite: with
    [taxRate = Infinity] (what the JSON number [1e999] parses to) and no
    items, [taxAmount] is [0 * Infinity = NaN] and so is [total]. *)
Lemma C4_counterexample_infinite_taxRate :
  computeTotals [] infinity = {| t_subtotal := 0; t_total := nan |}%float
  /\ JS.strictEq (t_total (computeTotals [] infinity)) 0%float = false.
Proof. split; reflexivity. Qed.

(** C4.  Over the empty item sequence the subtotal is [0] for every tax
    rate.  The total is [0] for every finite tax rate (every number but
    NaN and the two infinities), positive, zero or negative; it is NaN
    when the tax rate is [Infinity], [-Infinity] or NaN. *)
Theorem C4_empty_items_totals (taxRate : JS.number) :
  t_subtotal (computeTotals [] taxRate) = 0%float
  /\ (JS.isFinite taxRate = true ->
      computeTotals [] taxRate = {| t_subtotal := 0; t_total := 0 |}%float)
  /\ (JS.isFinite taxRate = false ->
      PrimFloat.is_nan (t_total (computeTotals [] taxRate)) = true).
Proof.
  split; [reflexivity|]. split.
  - intros H. apply isFinite_spec, div_100_finite in H.
    change (computeTotals [] taxRate)
      with {| t_subtotal := 0; t_total := 0 + 0 * (taxRate / 100) |}%float.
    rewrite (zero_add_zero_mul _ H). reflexivity.
  - intros H. apply (zero_add_zero_mul_not_finite _ H).
Qed.

(** C4 at [taxRate = 8] and at [taxRate = -Infinity]. *)
Lemma C4_empty_items_totals_witness :
  computeTotals [] 8%float = {| t_subtotal := 0; t_total := 0 |}%float
  /\ PrimFloat.is_nan (t_total (computeTotals [] neg_infinity)) = true.
Proof.
  split.
  - apply (proj1 (proj2 (C4_empty_items_totals 8%float))). reflexivity.
  - apply (proj2 (proj2 (C4_empty_items_totals neg_infinity))). reflexivity.
Defined.

(** C5, as stated, fails: binary64 addition rounds, so the order of the
    items matters.  The lines 1e16 x 1, 1 x 1, 1 x 1 sum to 1e16 in this
    order and to 10000000000000002 with the large line last. *)
Lemma C5_counterexample_reordering :
  Permutation items_large_first items_large_last
  /\ t_subtotal (computeTotals items_large_first 0%float) = 1e16%float
  /\ t_subtotal (computeTotals items_large_last 0%float) = 10000000000000002%float
  /\ JS.strictEq (t_subtotal (computeTotals items_large_first 0%float))
                 (t_subtotal (computeTotals items_large_last 0%float)) = false.
Proof.
  split; [|repeat split; reflexivity].
  unfold items_large_first, items_large_last.
  apply (Permutation_cons_append [_; _]).
Qed.

(** C5.  For every item sequence and tax rate the subtotal is the
    left-to-right binary64 sum of the binary64 products
    [quantity * unitPrice], started from [0].  When no product and no
    addition of that reduction rounds, the subtotal is exactly the
    mathematical sum of the products, and every reordering of the items
    whose reduction does not round either gives the very same subtotal. *)
Theorem C5_subtotal_sum_and_order (items : list InvoiceItem) (taxRate : JS.number) :
  (t_subtotal (computeTotals [] taxRate) = 0%float
   /\ forall item,
       t_subtotal (computeTotals (items ++ [item]) taxRate)
       = (t_subtotal (computeTotals items taxRate) + quantity item * unitPrice item)%float)
  /\ (exactReduce items = true ->
      (exists z, exactValue (t_subtotal (computeTotals items taxRate)) = Some z
                 /\ (z * 2 ^ unit_exponent)%Z = mathSum items)
      /\ forall items',
          Permutation items items' -> exactReduce items' = true ->
          t_subtotal (computeTotals items' taxRate) = t_subtotal (computeTotals items taxRate)).
Proof.
  split; [split; [reflexivity|intros item; apply reduceItems_snoc]|].
  intros H. cbn [computeTotals t_subtotal].
  destruct (exactReduce_sum items H) as (z & Hz & Hs & Hn).
  split; [exists z; auto|].
  intros items' Hp H'.
  destruct (exactReduce_sum items' H') as (z' & Hz' & Hs' & Hn').
  rewrite <- (mathSum_Permutation _ _ Hp), <- Hs in Hs'.
  assert (z' = z).
  { apply (Z.mul_cancel_r _ _ (2 ^ unit_exponent)%Z); [|exact Hs'].
    unfold unit_exponent. apply Z.pow_nonzero; lia. }
  subst z'. exact (exactValue_eq _ _ z Hz' Hz Hn' Hn).
Qed.

(** C5 at the items 3 x 20 and 1 x 15 and their reversal. *)
Lemma C5_subtotal_sum_and_order_witness :
  exactReduce items_A_B = true
  /\ (exists z, exactValue (t_subtotal (computeTotals items_A_B 8%float)) = Some z
                /\ (z * 2 ^ unit_exponent)%Z = mathSum items_A_B)
  /\ t_subtotal (computeTotals (rev items_A_B) 8%float)
     = t_subtotal (computeTotals items_A_B 8%float).
Proof.
  pose proof (proj2 (C5_subtotal_sum_and_order items_A_B 8%float)) as H.
  assert (E : exactReduce items_A_B = true) by (vm_compute; reflexivity).
  split; [exact E|]. destruct (H E) as [Hsum Hperm].
  split; [exact Hsum|]. apply Hperm.
  - apply Permutation_rev.
  - vm_compute. reflexivity.
Defined.

(** C6, as stated, fails: with the single line 3 x 1 and [taxRate = 10]
    the total [3 + 3 * (10 / 100)] and the product [3 * (1 + 10 / 100)]
    are neighbouring binary64 numbers (3.3 and 3.3000000000000003). *)
Lemma C6_counterexample_factored_form :
  JS.truthy 10%float = true
  /\ t_subtotal (computeTotals items_three 10%float) = 3%float
  /\ Prim2SF (t_total (computeTotals items_three 10%float))
     = S754_finite false 7430939385161318 (-51)
  /\ Prim2SF (t_subtotal (computeTotals items_three 10%float) * (1 + 10 / 100))%float
     = S754_finite false 7430939385161319 (-51)
  /\ JS.strictEq (t_total (computeTotals items_three 10%float))
                 (t_subtotal (computeTotals items_three 10%float) * (1 + 10 / 100))%float
     = false.
Proof. repeat split; reflexivity. Qed.

(** C6.  For every item sequence and tax rate [r] the total is
    [subtotal + subtotal * (r / 100)], each operation a binary64
    operation; it equals [subtotal * (1 + r / 100)] whenever none of the
    four operations [subtotal * (r / 100)], [subtotal + subtotal * (r / 100)],
    [1 + r / 100] and [subtotal * (1 + r / 100)] rounds. *)
Theorem C6_tax_scaling_without_rounding (items : list InvoiceItem) (taxRate : JS.number) :
  let subtotal := t_subtotal (computeTotals items taxRate) in
  let rate := (taxRate / 100)%float in
  t_total (computeTotals items taxRate) = (subtotal + subtotal * rate)%float
  /\ (exactMul subtotal rate = true ->
      exactAdd subtotal (subtotal * rate)%float = true ->
      exactAdd 1%float rate = true ->
      exactMul subtotal (1 + rate)%float = true ->
      JS.strictEq (t_total (computeTotals items taxRate)) (subtotal * (1 + rate))%float = true).
Proof.
  intros subtotal rate. split; [reflexivity|].
  change (t_total (computeTotals items taxRate)) with (subtotal + subtotal * rate)%float.
  unfold exactMul, exactAdd. intros M1 A1 A2 M2.
  change (exactValue 1%float) with (Some (2 ^ unit_exponent)%Z) in A2.
  destruct (exactValue subtotal) as [s|]; [|discriminate].
  destruct (exactValue rate) as [t|]; [|discriminate].
  destruct (exactValue (subtotal * rate)%float) as [c1|]; [|discriminate].
  destruct (exactValue (subtotal + subtotal * rate)%float) as [w|] eqn:Ew; [|discriminate].
  destruct (exactValue (1 + rate)%float) as [u|]; [|discriminate].
  destruct (exactValue (subtotal * (1 + rate))%float) as [c2|] eqn:Ec2; [|discriminate].
  apply Z.eqb_eq in M1, A1, A2, M2.
  assert (c2 = w).
  { apply (Z.mul_cancel_r _ _ (2 ^ unit_exponent)%Z).
    - unfold unit_exponent. apply Z.pow_nonzero; lia.
    - subst w u. lia. }
  subst c2. exact (exactValue_eqb _ _ w Ew Ec2).
Qed.

(** C6 at the subtotal 75 and [taxRate = 50]. *)
Lemma C6_tax_scaling_without_rounding_witness :
  exactMul 75%float (50 / 100)%float = true
  /\ JS.strictEq (t_total (computeTotals items_A_B 50%float))
                 (t_subtotal (computeTotals items_A_B 50%float) * (1 + 50 / 100))%float = true.
Proof.
  split; [vm_compute; reflexivity|].
  apply (proj2 (C6_tax_scaling_without_rounding items_A_B 50%float));
    vm_compute; reflexivity.
Defined.

(** C7.  The items [{description: "A", quantity: 3, unitPrice: 20}] and
    [{description: "B", quantity: 1, unitPrice: 15}] with [taxRate = 8]
    give exactly [subtotal = 75] and [total = 81]. *)
Theorem C7_concrete_scenario (idA idB : string) :
  computeTotals [ {| item_id := idA; description := "A"; quantity := 3; unitPrice := 20 |};
                  {| item_id := idB; description := "B"; quantity := 1; unitPrice := 15 |} ]%float
                8%float
  = {| t_subtotal := 75; t_total := 81 |}%float.
Proof. reflexivity. Qed.

(** C8, as stated, fails when the subtotal overflows: the single line
    2^1023 x 2 has the subtotal [Infinity], and with [taxRate = 0] the
    total is [Infinity + Infinity * 0 = NaN]. *)
Lemma C8_counterexample_overflow :
  computeTotals items_overflow 0%float = {| t_subtotal := infinity; t_total := nan |}%float
  /\ JS.strictEq (t_total (computeTotals items_overflow 0%float))
                 (t_subtotal (computeTotals items_overflow 0%float)) = false.
Proof. split; reflexivity. Qed.

(** C8.  With [taxRate = 0]: for every item sequence whose computed
    subtotal is finite the total is that very subtotal; for every item
    sequence whose computed subtotal is [Infinity], [-Infinity] or NaN
    the total is NaN. *)
Theorem C8_zero_tax_total (items : list InvoiceItem) :
  (JS.isFinite (t_subtotal (computeTotals items 0%float)) = true ->
   t_total (computeTotals items 0%float) = t_subtotal (computeTotals items 0%float))
  /\ (JS.isFinite (t_subtotal (computeTotals items 0%float)) = false ->
      PrimFloat.is_nan (t_total (computeTotals items 0%float)) = true).
Proof.
  unfold computeTotals, taxAmount. cbn [t_subtotal t_total]. rewrite zero_div_100.
  split; intros H.
  - apply isFinite_spec in H. apply add_mul_zero, H.
  - apply add_mul_zero_not_finite, H.
Qed.

(** C8 at the items 3 x 20 and 1 x 15, and at the line 2^1023 x 2. *)
Lemma C8_zero_tax_total_witness :
  t_total (computeTotals items_A_B 0%float) = t_subtotal (computeTotals items_A_B 0%float)
  /\ PrimFloat.is_nan (t_total (computeTotals items_overflow 0%float)) = true.
Proof.
  split.
  - apply (proj1 (C8_zero_tax_total items_A_B)). reflexivity.
  - apply (proj2 (C8_zero_tax_total items_overflow)). reflexivity.
Defined.

(** C9, as stated, fails for [PUT]: the route looks the invoice up before
    it looks at the body, so a verified user's [PUT] with an empty body
    for an invoice that does not exist is answered 404, not 400. *)
Lemma C9_counterexample_put_unknown_invoice :
  MissingRequired (Next.body (request "PUT" "token-a" (Some id_unknown) emptyBody))
  /\ canonicalUUID id_unknown = true
  /\ Next.handlerById jwt_a users_a
       (request "PUT" "token-a" (Some id_unknown) emptyBody) store_a
     = (Next.failure 404 "Invoice not found", store_a)
  /\ status (Next.handlerById jwt_a users_a
               (request "PUT" "token-a" (Some id_unknown) emptyBody) store_a).1 <> 400%Z.
Proof.
  split; [left; reflexivity|]. split; [reflexivity|]. split; [reflexivity|].
  vm_compute. discriminate.
Qed.

(** C9.  For a request of an authenticated user whose email is verified
    and whose body is an object that is missing [invoiceDate], [sender] or
    [recipient], or has [items] absent, not an array or empty:
    [POST /api/invoices] is answered 400 "Missing required fields";
    [PUT /api/invoices/:id], for an id that is a UUID, is answered 400
    "Missing required fields" when the user owns an invoice with that id
    and 404 "Invoice not found" otherwise; the table is left as it was.
    And whatever the request, every row of the table after either route
    either was there before, unchanged, or has at least one item: no
    invoice with an empty item list is created or produced. *)
Theorem C9_missing_fields_rejected
    (jwt_verify : string -> option string) (users : gmap string Next.User) :
  (forall (env : Env) (req : Next.Request) (st : Store) (user : Next.User),
      Next.authenticate jwt_verify users req = inr user ->
      Next.emailVerified user = true ->
      MissingRequired (Next.body req) ->
      (Next.method req = "POST" ->
       Next.handlerIndex jwt_verify users env req st
       = (Next.failure 400 "Missing required fields", st))
      /\ (Next.method req = "PUT" ->
          forall invoiceId,
            Next.query_id req = Some invoiceId -> canonicalUUID invoiceId = true ->
            Next.handlerById jwt_verify users req st
            = (match findOne invoiceId (Next.u_id user) st with
               | Some _ => Next.failure 400 "Missing required fields"
               | None => Next.failure 404 "Invoice not found"
               end, st)))
  /\ (forall (env : Env) (req : Next.Request) (st : Store) (k : string) (r : InvoiceAttributes),
        (Next.handlerIndex jwt_verify users env req st).2 !! k = Some r
        \/ (Next.handlerById jwt_verify users req st).2 !! k = Some r ->
        st !! k = Some r \/ items r <> []).
Proof.
  split.
  - intros env req st user Ha Hv Hm. apply missingRequired_iff in Hm. split.
    + intros Hpost. rewrite (handlerIndex_verified _ _ _ _ _ _ Ha Hv), Hpost. simpl.
      unfold Next.createInvoice. rewrite Hm. reflexivity.
    + intros Hput invoiceId Hq Ht. apply canonicalUUID_truthy in Ht.
      rewrite (handlerById_verified _ _ _ _ _ _ Ha Hv Hq Ht), Hput. simpl.
      unfold Next.updateInvoice. destruct (findOne _ _ _); [|reflexivity].
      rewrite Hm. reflexivity.
  - intros env req st k r [H|H].
    + eapply handlerIndex_no_empty_items, H.
    + eapply handlerById_no_empty_items, H.
Qed.

(** C9 at a [POST] and at a [PUT] for the user's own invoice, both with
    an empty [items] array. *)
Lemma C9_missing_fields_rejected_witness :
  Next.handlerIndex jwt_a users_a env_a
    (request "POST" "token-a" None body_no_items) store_a
  = (Next.failure 400 "Missing required fields", store_a)
  /\ Next.handlerById jwt_a users_a
       (request "PUT" "token-a" (Some id_invoice_a) body_no_items) store_a
     = (Next.failure 400 "Missing required fields", store_a).
Proof.
  split.
  - apply (proj1 (C9_missing_fields_rejected jwt_a users_a) env_a
             (request "POST" "token-a" None body_no_items) store_a user_a).
    + reflexivity.
    + reflexivity.
    + do 6 right. reflexivity.
    + reflexivity.
  - apply (proj2 (proj1 (C9_missing_fields_rejected jwt_a users_a) env_a
             (request "PUT" "token-a" (Some id_invoice_a) body_no_items) store_a user_a
             eq_refl eq_refl
             (or_intror (or_intror (or_intror (or_intror (or_intror (or_intror eq_refl)))))))
           eq_refl id_invoice_a eq_refl eq_refl).
Defined.

(** C10, as stated, fails for an authenticated user whose email is not
    verified: the route answers 403 "Email verification required" before
    it looks for the invoice. *)
Lemma C10_counterexample_unverified_user :
  Next.authenticate jwt_a users_a (request "GET" "token-b" (Some id_unknown) emptyBody)
  = inr {| Next.u_id := id_user_b; Next.emailVerified := false |}
  /\ canonicalUUID id_unknown = true
  /\ NoInvoiceOf id_unknown id_user_b store_a
  /\ Next.handlerById jwt_a users_a
       (request "GET" "token-b" (Some id_unknown) emptyBody) store_a
     = (Next.failure 403 "Email verification required", store_a).
Proof.
  split; [reflexivity|]. split; [reflexivity|]. split; [|reflexivity].
  intros (r & Hr & _). vm_compute in Hr. discriminate Hr.
Qed.

(** C10.  For every [GET], [PUT] or [DELETE] request to
    [/api/invoices/:id] of an authenticated user whose email is verified,
    for an id that is a UUID: if no invoice has the requested id and the
    user's id as [UserId], the route answers 404 "Invoice not found" with
    no data and leaves the table as it was; so an invoice of another user
    is never returned, updated or destroyed.  The Express controllers
    [getInvoice], [updateInvoice] and [deleteInvoice] answer the same
    way.  A user whose email is not verified is answered 403 "Email
    verification required" whatever the request. *)
Theorem C10_not_found_for_other_owners :
  (forall (jwt_verify : string -> option string) (users : gmap string Next.User)
          (req : Next.Request) (st : Store) (user : Next.User) (invoiceId : string),
      Next.authenticate jwt_verify users req = inr user ->
      Next.emailVerified user = true ->
      Next.query_id req = Some invoiceId ->
      canonicalUUID invoiceId = true ->
      Next.method req = "GET" \/ Next.method req = "PUT" \/ Next.method req = "DELETE" ->
      NoInvoiceOf invoiceId (Next.u_id user) st ->
      Next.handlerById jwt_verify users req st = (Next.failure 404 "Invoice not found", st))
  /\ (forall (req : Express.Request) (st : Store),
        canonicalUUID (Express.params_id req) = true ->
        NoInvoiceOf (Express.params_id req) (Express.user_id req) st ->
        Express.getInvoice req st = (Express.notFound, st)
        /\ Express.updateInvoice req st = (Express.notFound, st)
        /\ Express.deleteInvoice req st = (Express.notFound, st))
  /\ (forall (jwt_verify : string -> option string) (users : gmap string Next.User)
             (req : Next.Request) (st : Store) (user : Next.User),
        Next.authenticate jwt_verify users req = inr user ->
        Next.emailVerified user = false ->
        Next.handlerById jwt_verify users req st
        = (Next.failure 403 "Email verification required", st)).
Proof.
  split; [|split].
  - intros jwt_verify users req st user invoiceId Ha Hv Hq Ht Hm Hno.
    apply findOne_NoInvoiceOf in Hno. apply canonicalUUID_truthy in Ht.
    rewrite (handlerById_verified _ _ _ _ _ _ Ha Hv Hq Ht).
    unfold Next.getInvoice, Next.updateInvoice, Next.deleteInvoice. rewrite Hno.
    destruct Hm as [Hm | [Hm | Hm]]; rewrite Hm; reflexivity.
  - intros req st _ Hno. apply findOne_NoInvoiceOf in Hno.
    unfold Express.getInvoice, Express.updateInvoice, Express.deleteInvoice.
    rewrite Hno. auto.
  - intros jwt_verify users req st user Ha Hv.
    unfold Next.handlerById, Next.requireVerifiedEmail. rewrite Ha, Hv. reflexivity.
Qed.

(** C10 at a verified user's [DELETE] of, and an Express [GET] for, an
    invoice that belongs to somebody else. *)
Lemma C10_not_found_for_other_owners_witness :
  NoInvoiceOf id_invoice_a id_user_b store_a
  /\ Next.handlerById jwt_a users_ab
       (request "DELETE" "token-b" (Some id_invoice_a) emptyBody) store_a
     = (Next.failure 404 "Invoice not found", store_a)
  /\ Express.getInvoice express_other_user_a store_a = (Express.notFound, store_a).
Proof.
  assert (Hno : NoInvoiceOf id_invoice_a id_user_b store_a).
  { intros (r & Hr & _ & Hu). vm_compute in Hr. injection Hr as <-. discriminate Hu. }
  split; [exact Hno|]. split.
  - apply (proj1 C10_not_found_for_other_owners jwt_a users_ab
             (request "DELETE" "token-b" (Some id_invoice_a) emptyBody) store_a
             user_b_verified id_invoice_a).
    + reflexivity.
    + reflexivity.
    + reflexivity.
    + reflexivity.
    + right; right; reflexivity.
    + exact Hno.
  - apply (proj1 (proj1 (proj2 C10_not_found_for_other_owners) express_other_user_a store_a
                   eq_refl Hno)).
Defined.

(** * Further properties of the code *)

(** ** Finders and the shape of an update *)

Lemma findOne_found (invoiceId userId : string) (st : Store) (r : InvoiceAttributes) :
  st !! invoiceId = Some r -> id r = invoiceId -> UserId r = userId ->
  findOne invoiceId userId st = Some (loaded r).
Proof.
  intros Hr Hi Hu. unfold findOne. rewrite Hr.
  apply String.eqb_eq in Hi, Hu. rewrite Hi, Hu. reflexivity.
Qed.

Lemma findOne_delete (invoiceId userId : string) (st : Store) :
  findOne invoiceId userId (delete invoiceId st) = None.
Proof. unfold findOne. rewrite lookup_delete_eq. reflexivity. Qed.

(** The hook assigns [subtotal] and [total] only. *)
Lemma beforeUpdate_frame (invoice : Instance) :
  let d := dataValues (beforeUpdate invoice) in
  let d0 := dataValues invoice in
  id d = id d0 /\ invoiceNumber d = invoiceNumber d0 /\ invoiceDate d = invoiceDate d0
  /\ dueDate d = dueDate d0 /\ logoUrl d = logoUrl d0 /\ sender d = sender d0
  /\ recipient d = recipient d0 /\ items d = items d0 /\ currency d = currency d0
  /\ taxRate d = taxRate d0 /\ UserId d = UserId d0.
Proof. unfold beforeUpdate. destruct (_ || _); simpl; repeat split. Qed.

(** What the hook marks as changed: what was marked, [subtotal], [total]. *)
Lemma changedKeys_beforeUpdate (invoice : Instance) (k : Attr) :
  k ∈ changedKeys (beforeUpdate invoice) ->
  k ∈ changedKeys invoice \/ k = ASubtotal \/ k = ATotal.
Proof.
  unfold beforeUpdate. destruct (_ || _); [|auto]. simpl.
  destruct (JS.sameValueZero _ _), (JS.sameValueZero _ _);
    rewrite ?elem_of_cons; tauto.
Qed.

Lemma changedKeys_beforeUpdate_mono (invoice : Instance) (k : Attr) :
  k ∈ changedKeys invoice -> k ∈ changedKeys (beforeUpdate invoice).
Proof.
  unfold beforeUpdate. destruct (_ || _); [|auto]. simpl.
  destruct (JS.sameValueZero _ _), (JS.sameValueZero _ _);
    rewrite ?elem_of_cons; tauto.
Qed.

Lemma not_differs_of_not_present (p : Partial) (r : InvoiceAttributes) (k : Attr) :
  present p k <> true -> differs p r k = false.
Proof.
  intros H. destruct (differs p r k) eqn:E; [|reflexivity].
  apply differs_present in E. contradiction.
Qed.

(** The two ways of an update: no statement at all, when no value given
    differs from the stored one; or one [UPDATE] of the row, whose columns
    are the attributes given and, at most, [subtotal] and [total]. *)
Lemma update_store_shape (values : Partial) (r : InvoiceAttributes) (st : Store) :
  let dv := dataValues (beforeUpdate (set values (loaded r))) in
  ((update values (loaded r) st).2 = st /\ forall k, differs values r k = false)
  \/ exists fields,
      (update values (loaded r) st).2 = alter (writeFields fields dv) (id dv) st
      /\ (forall k, present values k = true -> k ∈ fields)
      /\ (forall k, k ∈ fields -> present values k = true \/ k = ASubtotal \/ k = ATotal).
Proof.
  intros dv. subst dv. unfold update, save.
  set (inst1 := set values (loaded r)).
  set (hookChanged := filter _ (changedKeys (beforeUpdate inst1))).
  destruct (bool_decide (payloadKeys values ++ hookChanged = [])) eqn:E1.
  - left. split; [reflexivity|]. intros k.
    apply bool_decide_eq_true in E1. apply app_eq_nil in E1 as [E1 _].
    apply not_differs_of_not_present. intros Hp.
    apply elem_of_payloadKeys in Hp. rewrite E1 in Hp. set_solver.
  - destruct (bool_decide (changedKeys (beforeUpdate inst1) = [])) eqn:E2.
    + left. split; [reflexivity|]. intros k.
      apply bool_decide_eq_true in E2.
      destruct (differs values r k) eqn:Ed; [|reflexivity].
      apply elem_of_changed_set, changedKeys_beforeUpdate_mono in Ed.
      fold inst1 in Ed. rewrite E2 in Ed. set_solver.
    + right. eexists. split; [reflexivity|]. split.
      * intros k Hk. apply elem_of_app. left. apply elem_of_payloadKeys, Hk.
      * intros k Hk. apply elem_of_app in Hk as [Hk|Hk].
        { left. apply elem_of_payloadKeys, Hk. }
        subst hookChanged. apply list_elem_of_filter in Hk as [_ Hk].
        apply changedKeys_beforeUpdate in Hk as [Hk|Hk]; [|tauto].
        left. apply elem_of_changed_set, differs_present in Hk. exact Hk.
Qed.

Lemma isEqual_nullable_eq (a b : option string) : isEqual_nullable a b = true -> a = b.
Proof.
  destruct a, b; simpl; try discriminate; [|reflexivity].
  intros H. apply String.eqb_eq in H. congruence.
Qed.

Lemma isEqual_address_eq (a b : Address) : isEqual_address a b = true -> a = b.
Proof.
  unfold isEqual_address. rewrite !andb_true_iff, !String.eqb_eq.
  destruct a, b; simpl. intros [[[[-> ->] ->] ->] ->]. reflexivity.
Qed.

Lemma isEqual_items_refl (l : list InvoiceItem) : isEqual_items l l = true.
Proof.
  induction l as [|a l IH]; [reflexivity|]. simpl. unfold isEqual_item.
  rewrite !String.eqb_refl, !sameValueZero_refl, IH. reflexivity.
Qed.

Lemma taxRateOrZero_not_nan (t : option JS.number) :
  PrimFloat.is_nan (Next.taxRateOrZero t) = false.
Proof.
  destruct t as [x|]; [|reflexivity]. simpl. unfold JS.truthy.
  destruct (is_nan x) eqn:E; [rewrite orb_true_r; reflexivity|].
  destruct (negb _); [exact E|reflexivity].
Qed.

(** ** Numbers that differ in the sign of zero only

    [_.isEqual] takes [0] and [-0] for equal, so an update can replace one
    by the other without the hook running.  The calculator gives the same
    number for both. *)

Lemma is_nan_spec (x : float) : is_nan x = true -> Prim2SF x = S754_nan.
Proof.
  unfold is_nan. rewrite FloatAxioms.eqb_spec.
  destruct (Prim2SF x) as [b|b| |b m e]; try reflexivity.
  - destruct b; discriminate.
  - destruct b; discriminate.
  - rewrite SFeqb_refl_finite. discriminate.
Qed.

Lemma sameValueZero_sameSF (x y : float) :
  JS.sameValueZero x y = true <-> sameSF (Prim2SF x) (Prim2SF y).
Proof.
  split.
  - intros H.
    destruct (Prim2SF x) as [b|b| |b m e] eqn:Ex.
    + unfold JS.sameValueZero, JS.strictEq in H.
      apply orb_true_iff in H as [H|H].
      * rewrite FloatAxioms.eqb_spec, Ex in H.
        destruct (Prim2SF y) as [c|c| |c m' e'].
        -- right. eauto.
        -- destruct b, c; discriminate H.
        -- discriminate H.
        -- destruct b, c; discriminate H.
      * apply andb_true_iff in H as [H _]. apply is_nan_spec in H. congruence.
    + unfold JS.sameValueZero, JS.strictEq in H.
      apply orb_true_iff in H as [H|H].
      * rewrite FloatAxioms.eqb_spec, Ex in H.
        destruct (Prim2SF y) as [c|c| |c m' e'].
        -- destruct b, c; discriminate H.
        -- left. destruct b, c; try discriminate H; reflexivity.
        -- discriminate H.
        -- destruct b, c; discriminate H.
      * apply andb_true_iff in H as [H _]. apply is_nan_spec in H. congruence.
    + unfold JS.sameValueZero, JS.strictEq in H.
      apply orb_true_iff in H as [H|H].
      * rewrite FloatAxioms.eqb_spec, Ex in H. discriminate H.
      * apply andb_true_iff in H as [_ H]. apply is_nan_spec in H. left. congruence.
    + left. rewrite <- Ex. f_equal. symmetry.
      apply (sameValueZero_finite_eq x y b m e Ex H).
  - intros [H|(b & b' & Hx & Hy)].
    + apply Prim2SF_inj in H. subst. apply sameValueZero_refl.
    + unfold JS.sameValueZero, JS.strictEq. rewrite FloatAxioms.eqb_spec, Hx, Hy.
      reflexivity.
Qed.

Lemma sameSF_refl x : sameSF x x.
Proof. left. reflexivity. Qed.

Lemma sameSF_sym x y : sameSF x y -> sameSF y x.
Proof. intros [H|(b & b' & -> & ->)]; [left; auto|right; eauto]. Qed.

Lemma sameSF_trans x y z : sameSF x y -> sameSF y z -> sameSF x z.
Proof.
  intros [->|(b & b' & -> & ->)] [H|(c & c' & H1 & H2)]; subst.
  - left; reflexivity.
  - right; eauto.
  - right; eauto.
  - right; eauto.
Qed.

Lemma SFmul_sameSF x x' y y' :
  sameSF x x' -> sameSF y y' ->
  sameSF (SFmul prec emax x y) (SFmul prec emax x' y').
Proof.
  intros [->|(b & b' & -> & ->)] [->|(c & c' & -> & ->)].
  - apply sameSF_refl.
  - destruct x' as [s|s| |s m e]; simpl; try (left; reflexivity); right; eauto.
  - destruct y' as [s|s| |s m e]; simpl; try (left; reflexivity); right; eauto.
  - right. simpl. eauto.
Qed.

Lemma SFadd_sameSF x x' y y' :
  sameSF x x' -> sameSF y y' ->
  sameSF (SFadd prec emax x y) (SFadd prec emax x' y').
Proof.
  intros [->|(b & b' & -> & ->)] [->|(c & c' & -> & ->)].
  - apply sameSF_refl.
  - destruct x' as [s|s| |s m e]; unfold SFadd; try (left; reflexivity).
    right. destruct s, c, c'; simpl; eauto.
  - destruct y' as [s|s| |s m e]; unfold SFadd; try (left; reflexivity).
    right. destruct b, b', s; simpl; eauto.
  - right. unfold SFadd. destruct b, b', c, c'; simpl; eauto.
Qed.

Lemma SFdiv_100_sameSF x x' :
  sameSF x x' ->
  sameSF (SFdiv prec emax x (Prim2SF 100)) (SFdiv prec emax x' (Prim2SF 100)).
Proof.
  intros [->|(b & b' & -> & ->)]; [apply sameSF_refl|].
  right. rewrite Prim2SF_100. simpl. eauto.
Qed.

Lemma sameValueZero_sym x y : JS.sameValueZero x y = true -> JS.sameValueZero y x = true.
Proof. rewrite !sameValueZero_sameSF. apply sameSF_sym. Qed.

Lemma sameValueZero_trans x y z :
  JS.sameValueZero x y = true -> JS.sameValueZero y z = true ->
  JS.sameValueZero x z = true.
Proof. rewrite !sameValueZero_sameSF. apply sameSF_trans. Qed.

Lemma add_sameValueZero (x x' y y' : float) :
  JS.sameValueZero x x' = true -> JS.sameValueZero y y' = true ->
  JS.sameValueZero (x + y)%float (x' + y')%float = true.
Proof. rewrite !sameValueZero_sameSF, !add_spec. apply SFadd_sameSF. Qed.

Lemma mul_sameValueZero (x x' y y' : float) :
  JS.sameValueZero x x' = true -> JS.sameValueZero y y' = true ->
  JS.sameValueZero (x * y)%float (x' * y')%float = true.
Proof. rewrite !sameValueZero_sameSF, !mul_spec. apply SFmul_sameSF. Qed.

Lemma div_100_sameValueZero (x x' : float) :
  JS.sameValueZero x x' = true ->
  JS.sameValueZero (x / 100)%float (x' / 100)%float = true.
Proof. rewrite !sameValueZero_sameSF, !div_spec. apply SFdiv_100_sameSF. Qed.

(** The reduction over items that are [_.isEqual] gives the same number. *)
Lemma fold_items_sameValueZero (l l' : list InvoiceItem) (s s' : float) :
  isEqual_items l l' = true -> JS.sameValueZero s s' = true ->
  JS.sameValueZero
    (fold_left (fun sum item => (sum + (quantity item * unitPrice item))%float) l s)
    (fold_left (fun sum item => (sum + (quantity item * unitPrice item))%float) l' s')
  = true.
Proof.
  revert l' s s'. induction l as [|a l IH]; intros [|b l'] s s' Hl Hs;
    try discriminate Hl; [exact Hs|].
  simpl in Hl. unfold isEqual_item in Hl.
  rewrite !andb_true_iff in Hl. destruct Hl as [[[[_ _] Hq] Hp] Hl].
  simpl. apply IH; [exact Hl|].
  apply add_sameValueZero; [exact Hs|]. apply mul_sameValueZero; assumption.
Qed.

Lemma computeTotals_sameValueZero (l l' : list InvoiceItem) (t t' : float) :
  isEqual_items l l' = true -> JS.sameValueZero t t' = true ->
  JS.sameValueZero (t_subtotal (computeTotals l t)) (t_subtotal (computeTotals l' t')) = true
  /\ JS.sameValueZero (t_total (computeTotals l t)) (t_total (computeTotals l' t')) = true.
Proof.
  intros Hl Ht.
  assert (Hs : JS.sameValueZero (reduceItems l) (reduceItems l') = true).
  { apply fold_items_sameValueZero; [exact Hl|apply sameValueZero_refl]. }
  split; [exact Hs|].
  unfold computeTotals, taxAmount. cbn [t_total].
  apply add_sameValueZero; [exact Hs|].
  apply mul_sameValueZero; [exact Hs|]. apply div_100_sameValueZero, Ht.
Qed.

(** Consistency only depends on the items and the rate as numbers. *)
Lemma consistent_transfer (r r' : InvoiceAttributes) :
  consistent r = true ->
  isEqual_items (items r') (items r) = true ->
  JS.sameValueZero (taxRate r') (taxRate r) = true ->
  subtotal r' = subtotal r -> total r' = total r ->
  consistent r' = true.
Proof.
  unfold consistent. rewrite !andb_true_iff. intros [H1 H2] Hi Ht Hs Htot.
  destruct (computeTotals_sameValueZero _ _ _ _ Hi Ht) as [C1 C2].
  rewrite Hs, Htot. split; eapply sameValueZero_trans; eauto.
Qed.

(** An update that carries no totals keeps every row consistent. *)
Lemma update_keeps_consistency (values : Partial) (r : InvoiceAttributes) (st : Store) :
  st !! id r = Some r ->
  JS.truthyString (id r) = true ->
  p_subtotal values = None -> p_total values = None ->
  (forall k r0, st !! k = Some r0 -> consistent r0 = true) ->
  forall k r', (update values (loaded r) st).2 !! k = Some r' -> consistent r' = true.
Proof.
  intros Hst Hid Hs Ht Hall k r'.
  destruct (update_store_shape values r st) as [[-> _]|(fields & E & Hin & Hout)];
    [apply Hall|].
  destruct (beforeUpdate_frame (set values (loaded r)))
    as (F1 & _ & _ & _ & _ & _ & _ & F8 & _ & F10 & _).
  set (dv := dataValues (beforeUpdate (set values (loaded r)))) in *.
  assert (Hidv : id dv = id r) by (rewrite F1; apply id_assignValues, Hid).
  rewrite Hidv in E.
  destruct (decide (k = id r)) as [->|Hk].
  2:{ rewrite E, lookup_alter_ne by congruence. apply Hall. }
  destruct (differs values r AItems || differs values r ATaxRate) eqn:Hfire.
  - apply orb_true_iff in Hfire.
    destruct (update_recomputes st r values Hst Hid Hfire) as (r1 & Hr1 & _ & _ & C1 & C2).
    rewrite Hr1. intros [= <-]. unfold consistent. rewrite C1, C2. reflexivity.
  - apply orb_false_iff in Hfire as [Hd1 Hd2].
    assert (Hquiet : beforeUpdate (set values (loaded r)) = set values (loaded r)).
    { unfold beforeUpdate, changed.
      rewrite !bool_decide_eq_false_2; [reflexivity| |];
        intros Hc; apply elem_of_changed_set in Hc; congruence. }
    rewrite E, lookup_alter_eq, Hst. intros [= <-].
    apply (consistent_transfer r); [apply (Hall _ _ Hst)| | | |].
    + simpl. case_bool_decide; [|apply isEqual_items_refl].
      rewrite F8. simpl. simpl in Hd1.
      destruct (p_items values); [|apply isEqual_items_refl].
      apply negb_false_iff in Hd1. exact Hd1.
    + simpl. case_bool_decide; [|apply sameValueZero_refl].
      rewrite F10. simpl. simpl in Hd2.
      destruct (p_taxRate values); [|apply sameValueZero_refl].
      apply negb_false_iff in Hd2. exact Hd2.
    + simpl. subst dv. rewrite Hquiet. simpl. rewrite Hs.
      destruct (bool_decide _); reflexivity.
    + simpl. subst dv. rewrite Hquiet. simpl. rewrite Ht.
      destruct (bool_decide _); reflexivity.
Qed.

(** Adding zero gives the same number. *)
Lemma add_zero_sameValueZero (s : float) : JS.sameValueZero (s + 1 * 0)%float s = true.
Proof.
  apply sameValueZero_sameSF. rewrite add_spec.
  change (Prim2SF (1 * 0)%float) with (S754_zero false).
  destruct (Prim2SF s) as [b|b| |b m e]; unfold SFadd; try (left; reflexivity).
  right. destruct b; simpl; eauto.
Qed.

(** ** Lists of line items and the retry loop *)

Lemma filter_id_all (i : string) (l : list InvoiceItem) :
  (forall x, x ∈ l -> item_id x <> i) ->
  filter (fun item => item_id item <> i) l = l.
Proof.
  induction l as [|a l IH]; intros H; [reflexivity|].
  rewrite filter_cons_True by (apply H; left).
  f_equal. apply IH. intros x Hx. apply H. right. exact Hx.
Qed.

Lemma filterIndex_all (keep : nat -> bool) (i : nat) (l : list InvoiceItem) :
  (forall j, i <= j -> keep j = true) -> Client.filterIndex keep i l = l.
Proof.
  revert i. induction l as [|a l IH]; intros i H; [reflexivity|].
  simpl. rewrite (H i) by lia. f_equal. apply IH. intros j Hj. apply H. lia.
Qed.

Lemma filterIndex_remove (index i : nat) (l : list InvoiceItem) :
  i <= index ->
  Client.filterIndex (fun j => negb (Nat.eqb j index)) i l
  = take (index - i) l ++ drop (S (index - i)) l.
Proof.
  revert i. induction l as [|a l IH]; intros i Hi.
  - simpl. rewrite take_nil. reflexivity.
  - simpl. destruct (Nat.eqb i index) eqn:E; simpl.
    + apply Nat.eqb_eq in E. subst. rewrite Nat.sub_diag. simpl. rewrite drop_0.
      apply filterIndex_all. intros j Hj. apply negb_true_iff, Nat.eqb_neq. lia.
    + apply Nat.eqb_neq in E.
      replace (index - i) with (S (index - S i)) by lia. simpl.
      f_equal. apply IH. lia.
Qed.

(** The loop entered with [currentTry < retries] tries: every call so
    far failed, and as many delays were waited for. *)
Lemma testConnectionLoop_spec (authenticate : nat -> bool) (retries : nat) (m : nat) :
  forall (extra currentTry : nat) (s : Db.Effects),
    currentTry + S m = retries ->
    Db.calls s = currentTry -> Db.waits s = currentTry ->
    (forall j, j < currentTry -> authenticate j = false) ->
    exists ok s',
      Db.testConnectionLoop authenticate retries (S m + extra) currentTry s = Some (ok, s')
      /\ Db.calls s' <= retries
      /\ S (Db.waits s') = Db.calls s'
      /\ (forall j, j < Db.waits s' -> authenticate j = false)
      /\ authenticate (Db.waits s') = ok
      /\ (ok = false -> Db.calls s' = retries).
Proof.
  induction m as [|m IH]; intros extra c s Hc Hcalls Hwaits Hfail;
    destruct s as [cs ws]; simpl in Hcalls, Hwaits; subst cs ws;
    cbn [Db.testConnectionLoop Nat.add Db.calls Db.waits];
    rewrite (proj2 (Nat.ltb_lt c retries)) by lia;
    destruct (authenticate c) eqn:Ea.
  - eexists _, _. split; [reflexivity|]. simpl.
    repeat split; try lia; try assumption; try discriminate.
  - rewrite (proj2 (Nat.leb_le retries (S c))) by lia.
    eexists _, _. split; [reflexivity|]. simpl.
    repeat split; try lia; assumption.
  - eexists _, _. split; [reflexivity|]. simpl.
    repeat split; try lia; try assumption; try discriminate.
  - rewrite (proj2 (Nat.leb_gt retries (S c))) by lia.
    apply (IH extra (S c) {| Db.calls := S c; Db.waits := S c |}); simpl; try lia.
    intros j Hj. destruct (decide (j = c)) as [->|Hne]; [exact Ea|].
    apply Hfail. lia.
Qed.

(** ** The gates of the Next.js handlers *)

(** X1.  A request that does not identify a user is answered 401 and
    changes nothing.  When the [Authorization] header is absent, or does
    not start with ["Bearer "], or carries a token [jwt.verify] rejects,
    or a token whose user is not in the [Users] table, both handlers
    answer 401 with one of the messages "No token provided", "Invalid
    token", "User not found", whatever the method, the id and the body,
    and the table is as before. *)
Theorem X1_unauthenticated_request_401 (jwt_verify : string -> option string)
    (users : gmap string Next.User) (env : Env) (req : Next.Request) (st : Store) :
  (forall h uid, Next.authorization req = Some h -> String.prefix "Bearer " h = true ->
     jwt_verify (Next.bearerToken h) = Some uid -> users !! uid = None) ->
  exists msg,
    (msg = "No token provided" \/ msg = "Invalid token" \/ msg = "User not found")
    /\ Next.handlerById jwt_verify users req st = (Next.failure 401 msg, st)
    /\ Next.handlerIndex jwt_verify users env req st = (Next.failure 401 msg, st).
Proof.
  intros H. unfold Next.handlerById, Next.handlerIndex, Next.authenticate.
  destruct (Next.authorization req) as [h|] eqn:Eh; [|eauto 10].
  destruct (String.prefix "Bearer " h) eqn:Ep.
  2:{ rewrite orb_true_r. eauto 10. }
  destruct (negb (JS.truthyString h)); simpl; [eauto 10|].
  destruct (jwt_verify (Next.bearerToken h)) as [uid|] eqn:Ej; [|eauto 10].
  rewrite (H h uid eq_refl Ep Ej). eauto 10.
Qed.

Lemma X1_unauthenticated_request_401_witness :
  exists msg,
    (msg = "No token provided" \/ msg = "Invalid token" \/ msg = "User not found")
    /\ Next.handlerById jwt_sample users_sample
         (request "DELETE" "token-3" (Some "inv-1") emptyBody) store_1
       = (Next.failure 401 msg, store_1)
    /\ Next.handlerIndex jwt_sample users_sample env_1
         (request "DELETE" "token-3" (Some "inv-1") emptyBody) store_1
       = (Next.failure 401 msg, store_1).
Proof.
  apply (X1_unauthenticated_request_401 jwt_sample users_sample env_1
           (request "DELETE" "token-3" (Some "inv-1") emptyBody) store_1).
  intros h uid [= <-] _. vm_compute. discriminate.
Defined.

(** X2.  An authenticated user whose email is not verified is answered
    403 "Email verification required" by both handlers, whatever the
    method, the id and the body, and the table is as before. *)
Theorem X2_unverified_user_403 (jwt_verify : string -> option string)
    (users : gmap string Next.User) (env : Env) (req : Next.Request) (st : Store)
    (user : Next.User) :
  Next.authenticate jwt_verify users req = inr user ->
  Next.emailVerified user = false ->
  Next.handlerById jwt_verify users req st
    = (Next.failure 403 "Email verification required", st)
  /\ Next.handlerIndex jwt_verify users env req st
    = (Next.failure 403 "Email verification required", st).
Proof.
  intros Ha Hv. unfold Next.handlerById, Next.handlerIndex, Next.requireVerifiedEmail.
  rewrite Ha, Hv. split; reflexivity.
Qed.

Lemma X2_unverified_user_403_witness :
  Next.handlerById jwt_sample users_sample
      (request "GET" "token-2" (Some "inv-1") emptyBody) store_1
    = (Next.failure 403 "Email verification required", store_1)
  /\ Next.handlerIndex jwt_sample users_sample env_1
      (request "GET" "token-2" (Some "inv-1") emptyBody) store_1
    = (Next.failure 403 "Email verification required", store_1).
Proof.
  apply (X2_unverified_user_403 jwt_sample users_sample env_1
           (request "GET" "token-2" (Some "inv-1") emptyBody) store_1
           {| Next.u_id := "user-2"; Next.emailVerified := false |});
    reflexivity.
Defined.

(** X3.  For a verified user, a request to [/api/invoices/:id] whose
    [id] is absent or empty is answered 400 "Invoice ID is required",
    whatever its method, and the table is as before. *)
Theorem X3_missing_invoice_id_400 (jwt_verify : string -> option string)
    (users : gmap string Next.User) (req : Next.Request) (st : Store) (user : Next.User) :
  Next.authenticate jwt_verify users req = inr user ->
  Next.emailVerified user = true ->
  Next.query_id req = None \/ Next.query_id req = Some EmptyString ->
  Next.handlerById jwt_verify users req st
    = (Next.failure 400 "Invoice ID is required", st).
Proof.
  intros Ha Hv Hq. unfold Next.handlerById, Next.requireVerifiedEmail.
  rewrite Ha, Hv. simpl. destruct Hq as [Hq | Hq]; rewrite Hq; reflexivity.
Qed.

Lemma X3_missing_invoice_id_400_witness :
  Next.handlerById jwt_sample users_sample (request "DELETE" "token-1" None emptyBody) store_1
    = (Next.failure 400 "Invoice ID is required", store_1).
Proof.
  apply (X3_missing_invoice_id_400 jwt_sample users_sample
           (request "DELETE" "token-1" None emptyBody) store_1 user_1);
    [reflexivity|reflexivity|left; reflexivity].
Defined.

(** X4.  For a verified user, a method other than GET, POST, PUT and
    DELETE is answered 405 "Method not allowed" by both handlers, and the
    table is as before. *)
Theorem X4_unsupported_method_405 (jwt_verify : string -> option string)
    (users : gmap string Next.User) (env : Env) (req : Next.Request) (st : Store)
    (user : Next.User) (invoiceId : string) :
  Next.authenticate jwt_verify users req = inr user ->
  Next.emailVerified user = true ->
  Next.query_id req = Some invoiceId -> invoiceId <> EmptyString ->
  Next.method req <> "GET" -> Next.method req <> "POST" ->
  Next.method req <> "PUT" -> Next.method req <> "DELETE" ->
  Next.handlerById jwt_verify users req st = (Next.failure 405 "Method not allowed", st)
  /\ Next.handlerIndex jwt_verify users env req st
     = (Next.failure 405 "Method not allowed", st).
Proof.
  intros Ha Hv Hq Hne H1 H2 H3 H4.
  apply String.eqb_neq in Hne, H1, H2, H3, H4.
  unfold Next.handlerById, Next.handlerIndex, Next.requireVerifiedEmail.
  rewrite Ha, Hv, Hq. simpl. unfold JS.truthyString.
  rewrite Hne, H1, H2, H3, H4. split; reflexivity.
Qed.

Lemma X4_unsupported_method_405_witness :
  Next.handlerById jwt_sample users_sample
      (request "PATCH" "token-1" (Some "inv-1") body_new_items) store_1
    = (Next.failure 405 "Method not allowed", store_1)
  /\ Next.handlerIndex jwt_sample users_sample env_1
       (request "PATCH" "token-1" (Some "inv-1") body_new_items) store_1
     = (Next.failure 405 "Method not allowed", store_1).
Proof.
  apply (X4_unsupported_method_405 jwt_sample users_sample env_1
           (request "PATCH" "token-1" (Some "inv-1") body_new_items) store_1 user_1 "inv-1");
    try reflexivity; discriminate.
Defined.

(** ** What the Next.js routes leave alone *)

(** X5.  A request the Next.js handlers answer with [success: false]
    changes nothing: whatever the request and the reason (401, 403, 400,
    404, 405, 500), the table after it is the table before it. *)
Theorem X5_failed_request_changes_nothing (jwt_verify : string -> option string)
    (users : gmap string Next.User) (env : Env) (req : Next.Request) (st st' : Store)
    (resp : Response) :
  Next.handlerById jwt_verify users req st = (resp, st')
  \/ Next.handlerIndex jwt_verify users env req st = (resp, st') ->
  success resp = false ->
  st' = st.
Proof.
  unfold Next.handlerById, Next.handlerIndex.
  destruct (Next.authenticate jwt_verify users req) as [sent|user];
    [intros [[= _ <-]|[= _ <-]]; reflexivity|].
  destruct (Next.requireVerifiedEmail user) as [sent|];
    [intros [[= _ <-]|[= _ <-]]; reflexivity|].
  intros [H|H]; revert H.
  - destruct (Next.query_id req) as [i|]; [|intros [= _ <-]; reflexivity].
    destruct (negb (JS.truthyString i)); [intros [= _ <-]; reflexivity|].
    unfold Next.getInvoice, Next.updateInvoice, Next.deleteInvoice.
    destruct (findOne i (Next.u_id user) st) as [invoice|];
      [|repeat (destruct (String.eqb _ _)); intros [= _ <-]; reflexivity].
    destruct (String.eqb _ "GET"); [intros [= _ <-]; reflexivity|].
    destruct (String.eqb _ "PUT").
    { destruct (Next.missingRequired _); [intros [= _ <-]; reflexivity|].
      destruct (update _ _ _) as [i' s']. intros [= <- _] Hs. discriminate Hs. }
    destruct (String.eqb _ "DELETE"); [|intros [= _ <-]; reflexivity].
    intros [= <- _] Hs. discriminate Hs.
  - unfold Next.getInvoices, Next.createInvoice.
    destruct (String.eqb _ "GET"); [intros [= _ <-]; reflexivity|].
    destruct (String.eqb _ "POST"); [|intros [= _ <-]; reflexivity].
    destruct (Next.missingRequired _); [intros [= _ <-]; reflexivity|].
    unfold create. cbn [p_UserId].
    destruct (_ !! _); [intros [= _ <-]; reflexivity|].
    intros [= <- _] Hs. discriminate Hs.
Qed.

Lemma X5_failed_request_changes_nothing_witness :
  (Next.handlerById jwt_sample users_sample
     (request "PUT" "token-1" (Some "inv-9") body_new_items) store_1).2 = store_1.
Proof.
  apply (X5_failed_request_changes_nothing jwt_sample users_sample env_1
           (request "PUT" "token-1" (Some "inv-9") body_new_items) store_1 _
           (Next.handlerById jwt_sample users_sample
              (request "PUT" "token-1" (Some "inv-9") body_new_items) store_1).1).
  - left. apply surjective_pairing.
  - reflexivity.
Defined.

(** X6.  A GET request never writes: whoever sends it and whatever it
    carries, both handlers leave the table as it was. *)
Theorem X6_get_requests_never_write (jwt_verify : string -> option string)
    (users : gmap string Next.User) (env : Env) (req : Next.Request) (st : Store) :
  Next.method req = "GET" ->
  (Next.handlerById jwt_verify users req st).2 = st
  /\ (Next.handlerIndex jwt_verify users env req st).2 = st.
Proof.
  intros Hm. unfold Next.handlerById, Next.handlerIndex. rewrite Hm. simpl String.eqb.
  destruct (Next.authenticate jwt_verify users req) as [sent|user]; [auto|].
  destruct (Next.requireVerifiedEmail user) as [sent|]; [auto|].
  split; [|reflexivity].
  destruct (Next.query_id req) as [i|]; [|reflexivity].
  destruct (negb (JS.truthyString i)); [reflexivity|].
  unfold Next.getInvoice. destruct (findOne _ _ _); reflexivity.
Qed.

Lemma X6_get_requests_never_write_witness :
  (Next.handlerById jwt_sample users_sample
     (request "GET" "token-1" (Some "inv-1") body_new_items) store_1).2 = store_1
  /\ (Next.handlerIndex jwt_sample users_sample env_1
        (request "GET" "token-1" (Some "inv-1") body_new_items) store_1).2 = store_1.
Proof.
  apply (X6_get_requests_never_write jwt_sample users_sample env_1
           (request "GET" "token-1" (Some "inv-1") body_new_items) store_1).
  reflexivity.
Defined.

(** ** Reading, creating and deleting through the Next.js routes *)

(** X7.  [GET /api/invoices/:id] by the verified owner of the invoice
    stored under the id is answered 200 "Success" with exactly the stored
    row. *)
Theorem X7_get_returns_owned_invoice (jwt_verify : string -> option string)
    (users : gmap string Next.User) (req : Next.Request) (st : Store)
    (user : Next.User) (invoiceId : string) (r : InvoiceAttributes) :
  Next.authenticate jwt_verify users req = inr user ->
  Next.emailVerified user = true ->
  Next.method req = "GET" ->
  Next.query_id req = Some invoiceId ->
  invoiceId <> EmptyString ->
  st !! invoiceId = Some r -> id r = invoiceId -> UserId r = Next.u_id user ->
  Next.handlerById jwt_verify users req st
    = (Next.handleSuccess (InvoiceData r) "Success" 200, st).
Proof.
  intros Ha Hv Hm Hq Hne Hr Hi Hu.
  unfold Next.handlerById, Next.requireVerifiedEmail. rewrite Ha, Hv, Hq, Hm. simpl.
  unfold JS.truthyString. apply String.eqb_neq in Hne. rewrite Hne. simpl.
  unfold Next.getInvoice. rewrite (findOne_found _ _ _ r Hr Hi Hu). reflexivity.
Qed.

Lemma X7_get_returns_owned_invoice_witness :
  Next.handlerById jwt_sample users_sample
     (request "GET" "token-1" (Some "inv-1") emptyBody) store_1
    = (Next.handleSuccess (InvoiceData invoice_1) "Success" 200, store_1).
Proof.
  apply (X7_get_returns_owned_invoice jwt_sample users_sample
           (request "GET" "token-1" (Some "inv-1") emptyBody) store_1 user_1 "inv-1"
           invoice_1); try reflexivity.
  discriminate.
Defined.

(** X8.  A [POST /api/invoices] of a verified user that is answered with
    success is answered 201 and has inserted one row under the generated
    id, which was free, the other rows untouched.  The row belongs to the
    authenticated user, has at least one item, carries the currency of
    the body, or "USD" when that is absent or empty (so never an empty
    currency), and the tax rate of the body, or 0 when that is absent,
    zero or NaN (so never NaN). *)
Theorem X8_created_invoice_owner_and_defaults (jwt_verify : string -> option string)
    (users : gmap string Next.User) (env : Env) (req : Next.Request) (st st' : Store)
    (user : Next.User) (resp : Response) :
  Next.authenticate jwt_verify users req = inr user ->
  Next.emailVerified user = true ->
  Next.method req = "POST" ->
  Next.handlerIndex jwt_verify users env req st = (resp, st') ->
  success resp = true ->
  exists r,
    resp = Next.handleSuccess (InvoiceData r) "Invoice created successfully" 201
    /\ st !! uuidv4 env = None
    /\ st' = <[(uuidv4 env) := r]> st
    /\ id r = uuidv4 env
    /\ UserId r = Next.u_id user
    /\ items r <> []
    /\ currency r = Next.currencyOrUSD (Next.b_currency (Next.body req))
    /\ currency r <> EmptyString
    /\ taxRate r = Next.taxRateOrZero (Next.b_taxRate (Next.body req))
    /\ PrimFloat.is_nan (taxRate r) = false.
Proof.
  intros Ha Hv Hm.
  rewrite (handlerIndex_verified _ _ _ _ _ _ Ha Hv), Hm. simpl.
  unfold Next.createInvoice.
  destruct (Next.missingRequired (Next.body req)) eqn:Hb;
    [intros [= <- _] Hs; discriminate Hs|].
  unfold create. cbn [p_UserId].
  match goal with |- context [beforeCreate (build env ?v)] => set (values := v) end.
  set (r := dataValues (beforeCreate (build env values))).
  change (id r) with (uuidv4 env).
  destruct (st !! uuidv4 env) eqn:Hfree; [intros [= <- _] Hs; discriminate Hs|].
  intros [= <- <-] _. exists r.
  split; [reflexivity|]. split; [reflexivity|]. split; [reflexivity|].
  split; [reflexivity|]. split; [reflexivity|].
  destruct (itemsOf_present _ Hb) as (l & Hl & Hne).
  split.
  { change (items r) with (default [] (Next.itemsOf (Next.body req))).
    rewrite Hl. exact Hne. }
  split; [reflexivity|]. split.
  { change (currency r) with (Next.currencyOrUSD (Next.b_currency (Next.body req))).
    unfold Next.currencyOrUSD. destruct (Next.b_currency _) as [c|]; [|discriminate].
    unfold JS.truthyString. destruct (String.eqb c EmptyString) eqn:E; simpl; [discriminate|].
    apply String.eqb_neq, E. }
  split; [reflexivity|].
  apply taxRateOrZero_not_nan.
Qed.

Lemma X8_created_invoice_owner_and_defaults_witness :
  exists r,
    (Next.handlerIndex jwt_a users_a env_a
       (request "POST" "token-a" None body_new_items) store_a).1
      = Next.handleSuccess (InvoiceData r) "Invoice created successfully" 201
    /\ store_a !! uuidv4 env_a = None
    /\ (Next.handlerIndex jwt_a users_a env_a
          (request "POST" "token-a" None body_new_items) store_a).2
       = <[(uuidv4 env_a) := r]> store_a
    /\ id r = uuidv4 env_a
    /\ UserId r = Next.u_id user_a
    /\ items r <> []
    /\ currency r
       = Next.currencyOrUSD
           (Next.b_currency (Next.body (request "POST" "token-a" None body_new_items)))
    /\ currency r <> EmptyString
    /\ taxRate r
       = Next.taxRateOrZero
           (Next.b_taxRate (Next.body (request "POST" "token-a" None body_new_items)))
    /\ PrimFloat.is_nan (taxRate r) = false.
Proof.
  apply (X8_created_invoice_owner_and_defaults jwt_a users_a env_a
           (request "POST" "token-a" None body_new_items) store_a _ user_a);
    reflexivity.
Defined.

(** X9.  Create, then read: when a [POST /api/invoices] is answered with
    success, the invoice it returns is the one a following
    [GET /api/invoices/:id] of the same user, with the generated id,
    returns. *)
Theorem X9_created_invoice_can_be_read (jwt_verify : string -> option string)
    (users : gmap string Next.User) (env : Env) (req req' : Next.Request) (st st' : Store)
    (user : Next.User) (resp : Response) :
  Next.authenticate jwt_verify users req = inr user ->
  Next.emailVerified user = true ->
  Next.method req = "POST" ->
  Next.handlerIndex jwt_verify users env req st = (resp, st') ->
  success resp = true ->
  canonicalUUID (uuidv4 env) = true ->
  Next.authenticate jwt_verify users req' = inr user ->
  Next.method req' = "GET" ->
  Next.query_id req' = Some (uuidv4 env) ->
  exists r,
    resp = Next.handleSuccess (InvoiceData r) "Invoice created successfully" 201
    /\ Next.handlerById jwt_verify users req' st'
       = (Next.handleSuccess (InvoiceData r) "Success" 200, st').
Proof.
  intros Ha Hv Hm Hc Hs Hu Ha' Hm' Hq'. apply canonicalUUID_truthy in Hu.
  rewrite (handlerById_verified _ _ _ _ _ _ Ha' Hv Hq' Hu), Hm'. simpl.
  revert Hc Hs.
  rewrite (handlerIndex_verified _ _ _ _ _ _ Ha Hv), Hm. simpl.
  unfold Next.createInvoice.
  destruct (Next.missingRequired (Next.body req));
    [intros [= <- _] Hs; discriminate Hs|].
  unfold create. cbn [p_UserId].
  match goal with |- context [beforeCreate (build env ?v)] => set (values := v) end.
  set (r := dataValues (beforeCreate (build env values))).
  change (id r) with (uuidv4 env).
  destruct (st !! uuidv4 env); [intros [= <- _] Hs; discriminate Hs|].
  intros [= <- <-] _. exists r. split; [reflexivity|].
  unfold Next.getInvoice.
  rewrite (findOne_found _ _ _ r); [reflexivity| | |].
  - apply lookup_insert_eq.
  - reflexivity.
  - reflexivity.
Qed.

Lemma X9_created_invoice_can_be_read_witness :
  exists r,
    (Next.handlerIndex jwt_a users_a env_a
       (request "POST" "token-a" None body_new_items) store_a).1
      = Next.handleSuccess (InvoiceData r) "Invoice created successfully" 201
    /\ Next.handlerById jwt_a users_a
         (request "GET" "token-a" (Some (uuidv4 env_a)) emptyBody)
         (Next.handlerIndex jwt_a users_a env_a
            (request "POST" "token-a" None body_new_items) store_a).2
       = (Next.handleSuccess (InvoiceData r) "Success" 200,
          (Next.handlerIndex jwt_a users_a env_a
             (request "POST" "token-a" None body_new_items) store_a).2).
Proof.
  apply (X9_created_invoice_can_be_read jwt_a users_a env_a
           (request "POST" "token-a" None body_new_items)
           (request "GET" "token-a" (Some (uuidv4 env_a)) emptyBody) store_a _ user_a);
    reflexivity.
Defined.

(** X10.  [DELETE /api/invoices/:id] by the verified owner is answered 200
    "Invoice deleted successfully" and removes the row stored under the
    id, and nothing else; afterwards every GET, PUT or DELETE for that id,
    by any verified user, is answered 404 "Invoice not found". *)
Theorem X10_deleted_invoice_is_gone (jwt_verify : string -> option string)
    (users : gmap string Next.User) (req : Next.Request) (st : Store)
    (user : Next.User) (invoiceId : string) (r : InvoiceAttributes) :
  Next.authenticate jwt_verify users req = inr user ->
  Next.emailVerified user = true ->
  Next.method req = "DELETE" ->
  Next.query_id req = Some invoiceId ->
  invoiceId <> EmptyString ->
  st !! invoiceId = Some r -> id r = invoiceId -> UserId r = Next.u_id user ->
  Next.handlerById jwt_verify users req st
    = (Next.handleSuccess NullData "Invoice deleted successfully" 200, delete invoiceId st)
  /\ forall (req' : Next.Request) (user' : Next.User),
       Next.authenticate jwt_verify users req' = inr user' ->
       Next.emailVerified user' = true ->
       Next.query_id req' = Some invoiceId ->
       Next.method req' = "GET" \/ Next.method req' = "PUT" \/ Next.method req' = "DELETE" ->
       Next.handlerById jwt_verify users req' (delete invoiceId st)
         = (Next.failure 404 "Invoice not found", delete invoiceId st).
Proof.
  intros Ha Hv Hm Hq Hne Hr Hi Hu.
  apply String.eqb_neq in Hne.
  unfold Next.handlerById, Next.requireVerifiedEmail. split.
  - rewrite Ha, Hv, Hq, Hm. simpl.
    unfold JS.truthyString. rewrite Hne. simpl.
    unfold Next.deleteInvoice. rewrite (findOne_found _ _ _ r Hr Hi Hu).
    unfold destroy. simpl. rewrite Hi. reflexivity.
  - intros req' user' Ha' Hv' Hq' Hm'. rewrite Ha', Hv', Hq'. simpl.
    unfold JS.truthyString. rewrite Hne. simpl.
    unfold Next.getInvoice, Next.updateInvoice, Next.deleteInvoice.
    rewrite findOne_delete.
    destruct Hm' as [Hm' | [Hm' | Hm']]; rewrite Hm'; reflexivity.
Qed.

Lemma X10_deleted_invoice_is_gone_witness :
  Next.handlerById jwt_sample users_sample
      (request "DELETE" "token-1" (Some "inv-1") emptyBody) store_1
    = (Next.handleSuccess NullData "Invoice deleted successfully" 200, delete "inv-1" store_1)
  /\ forall (req' : Next.Request) (user' : Next.User),
       Next.authenticate jwt_sample users_sample req' = inr user' ->
       Next.emailVerified user' = true ->
       Next.query_id req' = Some "inv-1" ->
       Next.method req' = "GET" \/ Next.method req' = "PUT" \/ Next.method req' = "DELETE" ->
       Next.handlerById jwt_sample users_sample req' (delete "inv-1" store_1)
         = (Next.failure 404 "Invoice not found", delete "inv-1" store_1).
Proof.
  apply (X10_deleted_invoice_is_gone jwt_sample users_sample
           (request "DELETE" "token-1" (Some "inv-1") emptyBody) store_1 user_1 "inv-1"
           invoice_1); try reflexivity.
  discriminate.
Defined.

(** ** Updates *)



(** The model of the Next.js routes keeps consistent totals consistent:
    the routes hand no [subtotal] and no [total] to the model, the hooks
    recompute them when the items or the rate change, and items or a rate
    that only differ in the sign of a zero give the same totals. *)
Lemma next_routes_keep_consistency (jwt_verify : string -> option string)
    (users : gmap string Next.User) (env : Env) (req : Next.Request) (st : Store) :
  (forall k r, st !! k = Some r -> consistent r = true) ->
  (forall k r, (Next.handlerById jwt_verify users req st).2 !! k = Some r ->
               consistent r = true)
  /\ (forall k r, (Next.handlerIndex jwt_verify users env req st).2 !! k = Some r ->
                  consistent r = true).
Proof.
  intros Hall. unfold Next.handlerById, Next.handlerIndex.
  destruct (Next.authenticate jwt_verify users req) as [sent|user]; [auto|].
  destruct (Next.requireVerifiedEmail user) as [sent|]; [auto|].
  split.
  - destruct (Next.query_id req) as [i|]; [|exact Hall].
    destruct (negb (JS.truthyString i)) eqn:Hi; [exact Hall|].
    apply negb_false_iff in Hi.
    unfold Next.getInvoice, Next.updateInvoice, Next.deleteInvoice.
    destruct (findOne i (Next.u_id user) st) as [invoice|] eqn:Ef;
      [|repeat (destruct (String.eqb _ _)); exact Hall].
    apply findOne_Some in Ef as (r0 & -> & Hr0 & Hi0 & Hu0).
    destruct (String.eqb _ "GET"); [exact Hall|].
    destruct (String.eqb _ "PUT").
    { destruct (Next.missingRequired _); [exact Hall|].
      match goal with |- context [update ?v _ _] => set (values := v) end.
      destruct (update values (loaded r0) st) as [invoice' st'] eqn:Eu.
      cbn [snd].
      assert (Est : st' = (update values (loaded r0) st).2) by (rewrite Eu; reflexivity).
      rewrite Est. apply update_keeps_consistency; try reflexivity; try exact Hall.
      - rewrite Hi0. exact Hr0.
      - rewrite Hi0. exact Hi. }
    destruct (String.eqb _ "DELETE"); [|exact Hall].
    cbn [snd]. unfold destroy. intros k r Hk.
    apply lookup_delete_Some in Hk as [_ Hk]. exact (Hall _ _ Hk).
  - unfold Next.getInvoices, Next.createInvoice.
    destruct (String.eqb _ "GET"); [exact Hall|].
    destruct (String.eqb _ "POST"); [|exact Hall].
    destruct (Next.missingRequired _); [exact Hall|].
    unfold create. cbn [p_UserId].
    match goal with |- context [beforeCreate (build env ?v)] => set (values := v) end.
    set (r := dataValues (beforeCreate (build env values))).
    destruct (st !! id r); [exact Hall|].
    cbn [snd]. intros k r' Hk.
    apply lookup_insert_Some in Hk as [[_ <-]|[_ Hk]]; [|exact (Hall _ _ Hk)].
    unfold consistent.
    change (subtotal r) with (t_subtotal (computeTotals (items r) (taxRate r))).
    change (total r) with (t_total (computeTotals (items r) (taxRate r))).
    rewrite !sameValueZero_refl. reflexivity.
Qed.

(** X12.  The Next.js routes keep the totals consistent.  For a request
    whose items, when the body has any, are finite numbers: if the
    subtotal and the total of every stored row are, as numbers, the ones
    the calculator gives for the row's items and tax rate, then the same
    holds of every row after the request, whatever its method and whether
    it is accepted or refused. *)
Theorem X12_next_routes_keep_totals_consistent (jwt_verify : string -> option string)
    (users : gmap string Next.User) (env : Env) (req : Next.Request) (st : Store) :
  (forall l, Next.b_items (Next.body req) = Next.ItemsArray l -> finiteItems l = true) ->
  (forall k r, st !! k = Some r -> consistent r = true) ->
  (forall k r, (Next.handlerById jwt_verify users req st).2 !! k = Some r ->
               consistent r = true)
  /\ (forall k r, (Next.handlerIndex jwt_verify users env req st).2 !! k = Some r ->
                  consistent r = true).
Proof. intros _. apply next_routes_keep_consistency. Qed.

Lemma X12_next_routes_keep_totals_consistent_witness :
  (forall k r,
     (Next.handlerById jwt_a users_a
        (request "PUT" "token-a" (Some id_invoice_a) body_new_items) store_a).2 !! k = Some r ->
     consistent r = true)
  /\ (forall k r,
        (Next.handlerIndex jwt_a users_a env_a
           (request "PUT" "token-a" (Some id_invoice_a) body_new_items) store_a).2 !! k
        = Some r ->
        consistent r = true).
Proof.
  apply (X12_next_routes_keep_totals_consistent jwt_a users_a env_a
           (request "PUT" "token-a" (Some id_invoice_a) body_new_items) store_a).
  - intros l [= <-]. reflexivity.
  - intros k r. unfold store_a. rewrite lookup_insert_Some.
    intros [[_ <-]|[_ H]]; [reflexivity|]. rewrite lookup_empty in H. discriminate H.
Defined.

(** X13.  An update none of whose values differs ([_.isEqual]) from the
    stored one writes nothing: the table is as before. *)
Theorem X13_update_without_change_writes_nothing (values : Partial) (r : InvoiceAttributes)
    (st : Store) :
  (forall k, differs values r k = false) ->
  (update values (loaded r) st).2 = st.
Proof.
  intros Hd. unfold update, save.
  set (inst1 := set values (loaded r)).
  assert (Hnil : changedKeys inst1 = []).
  { apply elem_of_nil_inv. intros k Hk. apply elem_of_changed_set in Hk.
    rewrite Hd in Hk. discriminate Hk. }
  assert (Hquiet : beforeUpdate inst1 = inst1).
  { unfold beforeUpdate, changed. rewrite Hnil.
    rewrite !bool_decide_eq_false_2; [reflexivity| |]; set_solver. }
  rewrite Hquiet, Hnil. rewrite (bool_decide_eq_true_2 ([] = [])) by reflexivity.
  rewrite orb_true_r. reflexivity.
Qed.

Lemma X13_update_without_change_writes_nothing_witness :
  (update values_same_items_and_subtotal (loaded (with_subtotal 999%float invoice_1)) store_1).2
  = store_1.
Proof.
  apply (X13_update_without_change_writes_nothing values_same_items_and_subtotal
           (with_subtotal 999%float invoice_1) store_1).
  intros k. destruct k; reflexivity.
Defined.

(** What [update(values)] leaves in the table of the model, on the
    invoice stored under a non-empty id: the row under that id keeps its
    id and has, for each attribute but the totals, the value given, or
    the old value when none is given (items and tax rate up to
    [_.isEqual]); no other row changes. *)
Lemma update_stores_given_values (values : Partial) (r : InvoiceAttributes) (st : Store) :
  st !! id r = Some r ->
  JS.truthyString (id r) = true ->
  (exists r',
     (update values (loaded r) st).2 !! id r = Some r'
     /\ id r' = id r
     /\ invoiceNumber r' = default (invoiceNumber r) (p_invoiceNumber values)
     /\ invoiceDate r' = default (invoiceDate r) (p_invoiceDate values)
     /\ dueDate r' = default (dueDate r) (p_dueDate values)
     /\ logoUrl r' = default (logoUrl r) (p_logoUrl values)
     /\ sender r' = default (sender r) (p_sender values)
     /\ recipient r' = default (recipient r) (p_recipient values)
     /\ currency r' = default (currency r) (p_currency values)
     /\ UserId r' = default (UserId r) (p_UserId values)
     /\ isEqual_items (default (items r) (p_items values)) (items r') = true
     /\ JS.sameValueZero (default (taxRate r) (p_taxRate values)) (taxRate r') = true)
  /\ forall k, k <> id r -> (update values (loaded r) st).2 !! k = st !! k.
Proof.
  intros Hst Hid.
  destruct (update_store_shape values r st) as [[-> Hd]|(fields & -> & Hin & Hout)].
  - split; [|reflexivity]. exists r. split; [exact Hst|]. split; [reflexivity|].
    repeat split.
    + specialize (Hd AInvoiceNumber). simpl in Hd.
      destruct (p_invoiceNumber values); [|reflexivity].
      apply negb_false_iff, isEqual_nullable_eq in Hd. symmetry. exact Hd.
    + specialize (Hd AInvoiceDate). simpl in Hd.
      destruct (p_invoiceDate values); [|reflexivity].
      apply negb_false_iff, String.eqb_eq in Hd. symmetry. exact Hd.
    + specialize (Hd ADueDate). simpl in Hd.
      destruct (p_dueDate values); [|reflexivity].
      apply negb_false_iff, isEqual_nullable_eq in Hd. symmetry. exact Hd.
    + specialize (Hd ALogoUrl). simpl in Hd.
      destruct (p_logoUrl values); [|reflexivity].
      apply negb_false_iff, isEqual_nullable_eq in Hd. symmetry. exact Hd.
    + specialize (Hd ASender). simpl in Hd.
      destruct (p_sender values); [|reflexivity].
      apply negb_false_iff, isEqual_address_eq in Hd. symmetry. exact Hd.
    + specialize (Hd ARecipient). simpl in Hd.
      destruct (p_recipient values); [|reflexivity].
      apply negb_false_iff, isEqual_address_eq in Hd. symmetry. exact Hd.
    + specialize (Hd ACurrency). simpl in Hd.
      destruct (p_currency values); [|reflexivity].
      apply negb_false_iff, String.eqb_eq in Hd. symmetry. exact Hd.
    + specialize (Hd AUserId). simpl in Hd.
      destruct (p_UserId values); [|reflexivity].
      apply negb_false_iff, String.eqb_eq in Hd. symmetry. exact Hd.
    + specialize (Hd AItems). simpl in Hd.
      destruct (p_items values); [|apply isEqual_items_refl].
      apply negb_false_iff in Hd. exact Hd.
    + specialize (Hd ATaxRate). simpl in Hd.
      destruct (p_taxRate values); [|apply sameValueZero_refl].
      apply negb_false_iff in Hd. exact Hd.
  - set (dv := dataValues (beforeUpdate (set values (loaded r)))) in *.
    destruct (beforeUpdate_frame (set values (loaded r)))
      as (F1 & F2 & F3 & F4 & F5 & F6 & F7 & F8 & F9 & F10 & F11).
    fold dv in F1, F2, F3, F4, F5, F6, F7, F8, F9, F10, F11.
    assert (Hidv : id dv = id r).
    { rewrite F1. apply id_assignValues, Hid. }
    rewrite Hidv. split.
    2:{ intros k Hk. apply lookup_alter_ne. congruence. }
    exists (writeFields fields dv r).
    split; [rewrite lookup_alter_eq, Hst; reflexivity|].
    assert (Hnp : forall k, k <> ASubtotal -> k <> ATotal -> k ∉ fields ->
                            present values k <> true).
    { intros k _ _ Hk Hp. apply Hk, Hin, Hp. }
    simpl. rewrite Hidv.
    split; [destruct (bool_decide _); reflexivity|].
    repeat split.
    + case_bool_decide as Hk; [exact F2|].
      apply Hnp in Hk; [|discriminate..]. simpl in Hk. rewrite bool_decide_eq_true in Hk.
      destruct (p_invoiceNumber values); [exfalso; eauto|reflexivity].
    + case_bool_decide as Hk; [exact F3|].
      apply Hnp in Hk; [|discriminate..]. simpl in Hk. rewrite bool_decide_eq_true in Hk.
      destruct (p_invoiceDate values); [exfalso; eauto|reflexivity].
    + case_bool_decide as Hk; [exact F4|].
      apply Hnp in Hk; [|discriminate..]. simpl in Hk. rewrite bool_decide_eq_true in Hk.
      destruct (p_dueDate values); [exfalso; eauto|reflexivity].
    + case_bool_decide as Hk; [exact F5|].
      apply Hnp in Hk; [|discriminate..]. simpl in Hk. rewrite bool_decide_eq_true in Hk.
      destruct (p_logoUrl values); [exfalso; eauto|reflexivity].
    + case_bool_decide as Hk; [exact F6|].
      apply Hnp in Hk; [|discriminate..]. simpl in Hk. rewrite bool_decide_eq_true in Hk.
      destruct (p_sender values); [exfalso; eauto|reflexivity].
    + case_bool_decide as Hk; [exact F7|].
      apply Hnp in Hk; [|discriminate..]. simpl in Hk. rewrite bool_decide_eq_true in Hk.
      destruct (p_recipient values); [exfalso; eauto|reflexivity].
    + case_bool_decide as Hk; [exact F9|].
      apply Hnp in Hk; [|discriminate..]. simpl in Hk. rewrite bool_decide_eq_true in Hk.
      destruct (p_currency values); [exfalso; eauto|reflexivity].
    + case_bool_decide as Hk; [exact F11|].
      apply Hnp in Hk; [|discriminate..]. simpl in Hk. rewrite bool_decide_eq_true in Hk.
      destruct (p_UserId values); [exfalso; eauto|reflexivity].
    + case_bool_decide as Hk; [rewrite F8; apply isEqual_items_refl|].
      apply Hnp in Hk; [|discriminate..]. simpl in Hk. rewrite bool_decide_eq_true in Hk.
      destruct (p_items values); [exfalso; eauto|apply isEqual_items_refl].
    + case_bool_decide as Hk; [rewrite F10; apply sameValueZero_refl|].
      apply Hnp in Hk; [|discriminate..]. simpl in Hk. rewrite bool_decide_eq_true in Hk.
      destruct (p_taxRate values); [exfalso; eauto|apply sameValueZero_refl].
Qed.

(** ** The Express controllers *)

(** X15.  A request an Express controller answers with [success: false]
    (404, 500) changes nothing. *)
Theorem X15_express_failed_request_changes_nothing (env : Env) (req : Express.Request)
    (st st' : Store) (resp : Response) :
  Express.getInvoice req st = (resp, st')
  \/ Express.createInvoice env req st = (resp, st')
  \/ Express.updateInvoice req st = (resp, st')
  \/ Express.deleteInvoice req st = (resp, st') ->
  success resp = false ->
  st' = st.
Proof.
  unfold Express.getInvoice, Express.createInvoice, Express.updateInvoice,
    Express.deleteInvoice.
  intros [H|[H|[H|H]]]; revert H.
  - destruct (findOne _ _ _); intros [= _ <-]; reflexivity.
  - unfold create. cbn [p_UserId Express.withUserId].
    destruct (_ !! _); [intros [= _ <-]; reflexivity|].
    intros [= <- _] Hs. discriminate Hs.
  - destruct (findOne _ _ _); [|intros [= _ <-]; reflexivity].
    destruct (update _ _ _) as [i' s']. intros [= <- _] Hs. discriminate Hs.
  - destruct (findOne _ _ _); [|intros [= _ <-]; reflexivity].
    intros [= <- _] Hs. discriminate Hs.
Qed.

Lemma X15_express_failed_request_changes_nothing_witness :
  (Express.deleteInvoice express_other_user store_1).2 = store_1.
Proof.
  apply (X15_express_failed_request_changes_nothing env_1 express_other_user store_1 _
           (Express.deleteInvoice express_other_user store_1).1).
  - right; right; right. apply surjective_pairing.
  - reflexivity.
Defined.



(** The Express [updateInvoice] of the owner, in the model: the answer
    carries the row as it is stored under the id afterwards. *)
Lemma express_update_of_owner (req : Express.Request) (st : Store)
    (r : InvoiceAttributes) :
  st !! Express.params_id req = Some r ->
  id r = Express.params_id req ->
  UserId r = Express.user_id req ->
  Express.params_id req <> EmptyString ->
  exists r',
    (Express.updateInvoice req st).2 !! Express.params_id req = Some r'
    /\ id r' = Express.params_id req
    /\ (Express.updateInvoice req st).1
       = {| status := 200; success := true; message := None; data := InvoiceData r' |}
    /\ forall k, k <> Express.params_id req ->
         (Express.updateInvoice req st).2 !! k = st !! k.
Proof.
  intros Hr Hi Hu Hne.
  unfold Express.updateInvoice.
  rewrite (findOne_found _ _ _ r Hr Hi Hu).
  destruct (update (Express.body req) (loaded r) st) as [invoice' st'] eqn:Eu.
  cbn [fst snd].
  assert (Est : st' = (update (Express.body req) (loaded r) st).2) by (rewrite Eu; reflexivity).
  assert (Htruthy : JS.truthyString (id r) = true).
  { unfold JS.truthyString. rewrite Hi. apply negb_true_iff, String.eqb_neq, Hne. }
  assert (Hfind : forall r', st' !! Express.params_id req = Some r' ->
                             id r' = Express.params_id req ->
                             Express.dataOf (findByPk (Express.params_id req) st') = InvoiceData r').
  { intros r' Hl Hid'. unfold findByPk. rewrite Hl.
    apply String.eqb_eq in Hid'. rewrite Hid'. reflexivity. }
  destruct (update_store_shape (Express.body req) r st) as [[E _]|(fields & E & _ & _)];
    rewrite E in Est; clear E Eu.
  - subst st'. exists r. split; [exact Hr|]. split; [exact Hi|].
    split; [rewrite (Hfind r Hr Hi); reflexivity|]. reflexivity.
  - destruct (beforeUpdate_frame (set (Express.body req) (loaded r)))
      as (F1 & _).
    set (dv := dataValues (beforeUpdate (set (Express.body req) (loaded r)))) in *.
    assert (Hidv : id dv = Express.params_id req).
    { rewrite F1, <- Hi. apply id_assignValues, Htruthy. }
    rewrite Hidv in Est.
    assert (Hl : st' !! Express.params_id req = Some (writeFields fields dv r)).
    { subst st'. rewrite lookup_alter_eq, Hr. reflexivity. }
    assert (Hidw : id (writeFields fields dv r) = Express.params_id req).
    { simpl. destruct (bool_decide _); congruence. }
    exists (writeFields fields dv r).
    split; [exact Hl|]. split; [exact Hidw|].
    split; [rewrite (Hfind _ Hl Hidw); reflexivity|].
    intros k Hk. subst st'. apply lookup_alter_ne. congruence.
Qed.

(** X14.  What an Express update stores.  When [updateInvoice], for an
    id in the canonical form of a UUID, is answered with success, the row under the id keeps
    its id and has, for [invoiceNumber], [logoUrl], [sender], [recipient]
    and [currency], the value of the body, or the old value when the body
    has none; its tax rate is, as a number, the one of the body,
    or the old one; and no other row has changed. *)
Theorem X14_express_update_stores_the_values_of_the_body (req : Express.Request)
    (st st' : Store) (resp : Response) :
  Express.updateInvoice req st = (resp, st') ->
  success resp = true ->
  canonicalUUID (Express.params_id req) = true ->
  (exists r r',
     st !! Express.params_id req = Some r
     /\ st' !! Express.params_id req = Some r'
     /\ id r' = id r
     /\ invoiceNumber r' = default (invoiceNumber r) (p_invoiceNumber (Express.body req))
     /\ logoUrl r' = default (logoUrl r) (p_logoUrl (Express.body req))
     /\ sender r' = default (sender r) (p_sender (Express.body req))
     /\ recipient r' = default (recipient r) (p_recipient (Express.body req))
     /\ currency r' = default (currency r) (p_currency (Express.body req))
     /\ JS.sameValueZero (default (taxRate r) (p_taxRate (Express.body req))) (taxRate r')
        = true)
  /\ forall k, k <> Express.params_id req -> st' !! k = st !! k.
Proof.
  unfold Express.updateInvoice.
  destruct (findOne (Express.params_id req) (Express.user_id req) st) as [invoice|] eqn:Ef;
    [|intros [= <- _] Hs; discriminate Hs].
  apply findOne_Some in Ef as (r & -> & Hr & Hi & Hu).
  destruct (update (Express.body req) (loaded r) st) as [invoice' st1] eqn:Eu.
  intros [= _ <-] _ Hc.
  assert (Hne : Express.params_id req <> EmptyString).
  { intros E. rewrite E in Hc. discriminate Hc. }
  assert (Est : st1 = (update (Express.body req) (loaded r) st).2) by (rewrite Eu; reflexivity).
  assert (Htruthy : JS.truthyString (id r) = true).
  { unfold JS.truthyString. rewrite Hi. apply negb_true_iff, String.eqb_neq, Hne. }
  rewrite <- Hi in Hr.
  destruct (update_stores_given_values (Express.body req) r st Hr Htruthy)
    as [(r' & Hr' & H1 & H2 & _ & _ & H5 & H6 & H7 & H8 & _ & _ & H11) Hframe].
  rewrite <- Est, Hi in Hr'. rewrite <- Est, Hi in Hframe. rewrite Hi in Hr.
  split; [|exact Hframe].
  exists r, r'. repeat split; assumption.
Qed.

Lemma X14_express_update_stores_the_values_of_the_body_witness :
  (exists r r',
     store_a !! id_invoice_a = Some r
     /\ (Express.updateInvoice express_put_owner_a store_a).2 !! id_invoice_a = Some r'
     /\ id r' = id r
     /\ invoiceNumber r'
        = default (invoiceNumber r) (p_invoiceNumber (Express.body express_put_owner_a))
     /\ logoUrl r' = default (logoUrl r) (p_logoUrl (Express.body express_put_owner_a))
     /\ sender r' = default (sender r) (p_sender (Express.body express_put_owner_a))
     /\ recipient r' = default (recipient r) (p_recipient (Express.body express_put_owner_a))
     /\ currency r' = default (currency r) (p_currency (Express.body express_put_owner_a))
     /\ JS.sameValueZero
          (default (taxRate r) (p_taxRate (Express.body express_put_owner_a))) (taxRate r')
        = true)
  /\ forall k, k <> id_invoice_a ->
       (Express.updateInvoice express_put_owner_a store_a).2 !! k = store_a !! k.
Proof.
  apply (X14_express_update_stores_the_values_of_the_body express_put_owner_a store_a _
           (Express.updateInvoice express_put_owner_a store_a).1).
  - apply surjective_pairing.
  - reflexivity.
  - reflexivity.
Defined.

(** X17.  When the Express [updateInvoice], for an id in the canonical
    form of a UUID, is answered with success, the answer is 200 and carries the row as it is
    stored under the id after the update; that row has the requested id,
    and no other row has changed. *)
Theorem X17_express_update_returns_the_stored_row (req : Express.Request)
    (st st' : Store) (resp : Response) :
  Express.updateInvoice req st = (resp, st') ->
  success resp = true ->
  canonicalUUID (Express.params_id req) = true ->
  exists r',
    st' !! Express.params_id req = Some r'
    /\ id r' = Express.params_id req
    /\ resp = {| status := 200; success := true; message := None; data := InvoiceData r' |}
    /\ forall k, k <> Express.params_id req -> st' !! k = st !! k.
Proof.
  intros Hu Hs Hc.
  assert (Hne : Express.params_id req <> EmptyString).
  { intros E. rewrite E in Hc. discriminate Hc. }
  destruct (findOne (Express.params_id req) (Express.user_id req) st) as [invoice|] eqn:Ef.
  2:{ unfold Express.updateInvoice in Hu. rewrite Ef in Hu.
      injection Hu as <- _. discriminate Hs. }
  apply findOne_Some in Ef as (r & _ & Hr & Hi & Ho).
  destruct (express_update_of_owner req st r Hr Hi Ho Hne) as (r' & H1 & H2 & H3 & H4).
  rewrite Hu in H1, H3, H4. cbn [fst snd] in H1, H3, H4.
  exists r'. auto.
Qed.

Lemma X17_express_update_returns_the_stored_row_witness :
  exists r',
    (Express.updateInvoice express_put_items_a store_a).2 !! id_invoice_a = Some r'
    /\ id r' = id_invoice_a
    /\ (Express.updateInvoice express_put_items_a store_a).1
       = {| status := 200; success := true; message := None; data := InvoiceData r' |}
    /\ forall k, k <> id_invoice_a ->
         (Express.updateInvoice express_put_items_a store_a).2 !! k = store_a !! k.
Proof.
  apply (X17_express_update_returns_the_stored_row express_put_items_a store_a _
           (Express.updateInvoice express_put_items_a store_a).1).
  - apply surjective_pairing.
  - reflexivity.
  - reflexivity.
Defined.

(** The Express [updateInvoice] with the [UserId] of another user in
    the body, in the model. *)
Lemma express_update_owner_of_body (req : Express.Request) (st : Store)
    (r : InvoiceAttributes) (other : string) :
  st !! Express.params_id req = Some r ->
  id r = Express.params_id req ->
  UserId r = Express.user_id req ->
  Express.params_id req <> EmptyString ->
  p_UserId (Express.body req) = Some other ->
  other <> Express.user_id req ->
  exists r',
    (Express.updateInvoice req st).2 !! Express.params_id req = Some r'
    /\ UserId r' = other
    /\ (Express.updateInvoice req st).1
       = {| status := 200; success := true; message := None; data := InvoiceData r' |}
    /\ Express.getInvoice req (Express.updateInvoice req st).2
       = (Express.notFound, (Express.updateInvoice req st).2).
Proof.
  intros Hr Hi Hu Hne Hb Ho.
  unfold Express.updateInvoice.
  rewrite (findOne_found _ _ _ r Hr Hi Hu).
  destruct (update (Express.body req) (loaded r) st) as [invoice' st'] eqn:Eu.
  cbn [fst snd].
  assert (Est : st' = (update (Express.body req) (loaded r) st).2) by (rewrite Eu; reflexivity).
  assert (Htruthy : JS.truthyString (id r) = true).
  { unfold JS.truthyString. rewrite Hi. apply negb_true_iff, String.eqb_neq, Hne. }
  destruct (update_store_shape (Express.body req) r st) as [[_ Hd]|(fields & E & Hin & _)].
  { specialize (Hd AUserId). simpl in Hd. rewrite Hb in Hd.
    apply negb_false_iff, String.eqb_eq in Hd. congruence. }
  rewrite E in Est. clear E Eu.
  destruct (beforeUpdate_frame (set (Express.body req) (loaded r)))
    as (F1 & _ & _ & _ & _ & _ & _ & _ & _ & _ & F11).
  set (dv := dataValues (beforeUpdate (set (Express.body req) (loaded r)))) in *.
  assert (Hidv : id dv = Express.params_id req).
  { rewrite F1, <- Hi. apply id_assignValues, Htruthy. }
  simpl in F11. rewrite Hb in F11. simpl in F11.
  rewrite Hidv in Est.
  assert (Hl : st' !! Express.params_id req = Some (writeFields fields dv r)).
  { subst st'. rewrite lookup_alter_eq, Hr. reflexivity. }
  assert (Hown : UserId (writeFields fields dv r) = other).
  { simpl. rewrite bool_decide_eq_true_2; [exact F11|].
    apply Hin. simpl. rewrite Hb. apply bool_decide_eq_true. eauto. }
  assert (Hidw : id (writeFields fields dv r) = Express.params_id req).
  { simpl. destruct (bool_decide _); congruence. }
  exists (writeFields fields dv r).
  split; [exact Hl|]. split; [exact Hown|]. split.
  - unfold findByPk. rewrite Hl.
    apply String.eqb_eq in Hidw. rewrite Hidw. reflexivity.
  - unfold Express.getInvoice. rewrite findOne_None; [reflexivity|].
    intros r1 Hr1 _. rewrite Hl in Hr1. injection Hr1 as <-. rewrite Hown. exact Ho.
Qed.

(** X18.  The Express [updateInvoice] hands the body to the model as it
    is: when the owner's body carries the [UserId] of another user, both
    ids in the canonical form of a UUID, and the request is answered with
    success, the invoice has been given to that
    user.  The row stored afterwards has that [UserId], and the former
    owner's next [getInvoice] for the id is answered 404. *)
Theorem X18_express_update_writes_body_owner (req : Express.Request) (st st' : Store)
    (resp : Response) (other : string) :
  Express.updateInvoice req st = (resp, st') ->
  success resp = true ->
  canonicalUUID (Express.params_id req) = true ->
  p_UserId (Express.body req) = Some other ->
  canonicalUUID other = true ->
  other <> Express.user_id req ->
  exists r',
    st' !! Express.params_id req = Some r'
    /\ UserId r' = other
    /\ resp = {| status := 200; success := true; message := None; data := InvoiceData r' |}
    /\ Express.getInvoice req st' = (Express.notFound, st').
Proof.
  intros Hu Hs Hc Hb _ Ho.
  assert (Hne : Express.params_id req <> EmptyString).
  { intros E. rewrite E in Hc. discriminate Hc. }
  destruct (findOne (Express.params_id req) (Express.user_id req) st) as [invoice|] eqn:Ef.
  2:{ unfold Express.updateInvoice in Hu. rewrite Ef in Hu.
      injection Hu as <- _. discriminate Hs. }
  apply findOne_Some in Ef as (r & _ & Hr & Hi & Hown).
  destruct (express_update_owner_of_body req st r other Hr Hi Hown Hne Hb Ho)
    as (r' & H1 & H2 & H3 & H4).
  rewrite Hu in H1, H3, H4. cbn [fst snd] in H1, H3, H4.
  exists r'. auto.
Qed.

Lemma X18_express_update_writes_body_owner_witness :
  exists r',
    (Express.updateInvoice express_put_owner_a store_a).2 !! id_invoice_a = Some r'
    /\ UserId r' = id_user_b
    /\ (Express.updateInvoice express_put_owner_a store_a).1
       = {| status := 200; success := true; message := None; data := InvoiceData r' |}
    /\ Express.getInvoice express_put_owner_a
         (Express.updateInvoice express_put_owner_a store_a).2
       = (Express.notFound, (Express.updateInvoice express_put_owner_a store_a).2).
Proof.
  apply (X18_express_update_writes_body_owner express_put_owner_a store_a _
           (Express.updateInvoice express_put_owner_a store_a).1 id_user_b).
  - apply surjective_pairing.
  - reflexivity.
  - reflexivity.
  - reflexivity.
  - reflexivity.
  - discriminate.
Defined.

(** X19.  The Express [deleteInvoice] of the owner removes the row stored
    under the id and nothing else; afterwards [getInvoice],
    [updateInvoice] and [deleteInvoice] for that id answer 404, whoever
    asks. *)
Theorem X19_express_deleted_invoice_is_gone (req : Express.Request) (st : Store)
    (r : InvoiceAttributes) :
  st !! Express.params_id req = Some r ->
  id r = Express.params_id req ->
  UserId r = Express.user_id req ->
  (Express.deleteInvoice req st).2 = delete (Express.params_id req) st
  /\ success (Express.deleteInvoice req st).1 = true
  /\ forall req' : Express.Request,
       Express.params_id req' = Express.params_id req ->
       Express.getInvoice req' (delete (Express.params_id req) st)
         = (Express.notFound, delete (Express.params_id req) st)
       /\ Express.updateInvoice req' (delete (Express.params_id req) st)
         = (Express.notFound, delete (Express.params_id req) st)
       /\ Express.deleteInvoice req' (delete (Express.params_id req) st)
         = (Express.notFound, delete (Express.params_id req) st).
Proof.
  intros Hr Hi Hu. unfold Express.deleteInvoice at 1 2.
  rewrite (findOne_found _ _ _ r Hr Hi Hu). unfold destroy. simpl. rewrite Hi.
  split; [reflexivity|]. split; [reflexivity|].
  intros req' Hp.
  unfold Express.getInvoice, Express.updateInvoice, Express.deleteInvoice.
  rewrite Hp, findOne_delete. auto.
Qed.

Lemma X19_express_deleted_invoice_is_gone_witness :
  (Express.deleteInvoice express_put_subtotal store_1).2 = delete "inv-1" store_1
  /\ success (Express.deleteInvoice express_put_subtotal store_1).1 = true
  /\ forall req' : Express.Request,
       Express.params_id req' = "inv-1" ->
       Express.getInvoice req' (delete "inv-1" store_1)
         = (Express.notFound, delete "inv-1" store_1)
       /\ Express.updateInvoice req' (delete "inv-1" store_1)
         = (Express.notFound, delete "inv-1" store_1)
       /\ Express.deleteInvoice req' (delete "inv-1" store_1)
         = (Express.notFound, delete "inv-1" store_1).
Proof.
  apply (X19_express_deleted_invoice_is_gone express_put_subtotal store_1 invoice_1);
    reflexivity.
Defined.

(** X20.  The Express [getInvoices] lists the stored rows whose [UserId]
    is the requesting user's, all of them and no other row; [count] is
    their number, and the table is as before. *)
Theorem X20_express_listing_is_the_users_invoices (req : Express.Request) (st : Store) :
  (Listing.getInvoices req st).2 = st
  /\ Listing.count (Listing.getInvoices req st).1
     = length (Listing.data (Listing.getInvoices req st).1)
  /\ forall r, r ∈ Listing.data (Listing.getInvoices req st).1 <->
               UserId r = Express.user_id req /\ exists k, st !! k = Some r.
Proof.
  split; [reflexivity|]. split; [reflexivity|].
  intros r. unfold Listing.getInvoices, findAll. cbn [fst Listing.data].
  rewrite list_elem_of_filter, list_elem_of_fmap. split.
  - intros [Hu ([k r'] & -> & Hin)]. split; [exact Hu|].
    exists k. apply elem_of_map_to_list in Hin. exact Hin.
  - intros [Hu (k & Hk)]. split; [exact Hu|].
    exists (k, r). split; [reflexivity|]. apply elem_of_map_to_list. exact Hk.
Qed.

(** X30.  A successful Express [createInvoice] stores the sum of the
    products, whatever totals the body carries.  When the request is
    answered with success and the items of the body are finite numbers,
    the row stored under the new id has, as numbers, the subtotal
    [sum of quantity * unitPrice], the terms added in the order of the
    items, and the total [subtotal + subtotal * (taxRate / 100)] for the
    tax rate of the body, or 0 when the body has none. *)
Theorem X30_express_create_stores_the_sum_of_the_products (env : Env)
    (req : Express.Request) (st st' : Store) (resp : Response) (l : list InvoiceItem) :
  Express.createInvoice env req st = (resp, st') ->
  success resp = true ->
  p_items (Express.body req) = Some l ->
  finiteItems l = true ->
  exists r,
    data resp = InvoiceData r
    /\ st' !! id r = Some r
    /\ JS.sameValueZero (subtotal r) (sumOfProducts l) = true
    /\ JS.sameValueZero (total r)
         (sumOfProducts l
          + sumOfProducts l * (default 0 (p_taxRate (Express.body req)) / 100))%float = true.
Proof.
  unfold Express.createInvoice, create. cbn [p_UserId Express.withUserId].
  match goal with |- context [beforeCreate (build env ?v)] => set (values := v) end.
  set (r := dataValues (beforeCreate (build env values))).
  destruct (st !! id r) eqn:E; [intros [= <- _] Hs; discriminate Hs|].
  intros [= <- <-] _ Hl _. exists r.
  split; [reflexivity|]. split; [apply lookup_insert_eq|].
  change (subtotal r) with (reduceItems (default [] (p_items (Express.body req)))).
  change (total r)
    with (reduceItems (default [] (p_items (Express.body req)))
          + reduceItems (default [] (p_items (Express.body req)))
            * (default 0 (p_taxRate (Express.body req)) / 100))%float.
  rewrite Hl. simpl default. rewrite reduceItems_sumOfProducts.
  split; apply sameValueZero_refl.
Qed.

Lemma X30_express_create_stores_the_sum_of_the_products_witness :
  exists r,
    data (Express.createInvoice env_a express_post_a store_a).1 = InvoiceData r
    /\ (Express.createInvoice env_a express_post_a store_a).2 !! id r = Some r
    /\ JS.sameValueZero (subtotal r) (sumOfProducts [lineItem "A" 3%float 20%float]) = true
    /\ JS.sameValueZero (total r)
         (sumOfProducts [lineItem "A" 3%float 20%float]
          + sumOfProducts [lineItem "A" 3%float 20%float]
            * (default 0 (p_taxRate (Express.body express_post_a)) / 100))%float = true.
Proof.
  apply (X30_express_create_stores_the_sum_of_the_products env_a express_post_a store_a _
           (Express.createInvoice env_a express_post_a store_a).1
           [lineItem "A" 3%float 20%float]).
  - apply surjective_pairing.
  - reflexivity.
  - reflexivity.
  - reflexivity.
Defined.

(** ** The invoice forms *)

(** X21.  On the invoice page, adding a line ([addItem]: quantity 1,
    unit price 0) changes neither the subtotal, nor the tax, nor the
    total the page shows, as numbers, whatever the lines and the tax rate
    (NaN and the infinities included). *)
Theorem X21_blank_line_keeps_totals (now : string) (invoice : Page.Invoice) :
  JS.sameValueZero (Page.calculateSubtotal (Page.addItem now invoice))
                   (Page.calculateSubtotal invoice) = true
  /\ JS.sameValueZero (Page.calculateTax (Page.addItem now invoice))
                      (Page.calculateTax invoice) = true
  /\ JS.sameValueZero (Page.calculateTotal (Page.addItem now invoice))
                      (Page.calculateTotal invoice) = true.
Proof.
  assert (Hs : JS.sameValueZero (Page.calculateSubtotal (Page.addItem now invoice))
                                (Page.calculateSubtotal invoice) = true).
  { unfold Page.calculateSubtotal, Page.addItem. cbn [Page.f_items Page.with_items].
    rewrite fold_left_app. cbn [fold_left quantity unitPrice].
    apply add_zero_sameValueZero. }
  assert (Ht : JS.sameValueZero (Page.calculateTax (Page.addItem now invoice))
                                (Page.calculateTax invoice) = true).
  { unfold Page.calculateTax. apply mul_sameValueZero; [exact Hs|].
    apply sameValueZero_refl. }
  split; [exact Hs|]. split; [exact Ht|].
  unfold Page.calculateTotal. apply add_sameValueZero; assumption.
Qed.

(** X22.  In the React client, [handleAddItem] (a line of quantity 1 and
    unit price 0) changes neither the subtotal nor the total the effect
    recomputes, as numbers. *)
Theorem X22_client_blank_line_keeps_totals (items : list InvoiceItem) (taxRate : JS.number) :
  JS.sameValueZero (t_subtotal (Client.recalculate (Client.handleAddItem items) taxRate))
                   (t_subtotal (Client.recalculate items taxRate)) = true
  /\ JS.sameValueZero (t_total (Client.recalculate (Client.handleAddItem items) taxRate))
                      (t_total (Client.recalculate items taxRate)) = true.
Proof.
  unfold Client.recalculate, Client.handleAddItem. cbn [t_subtotal t_total].
  rewrite fold_left_app. cbn [fold_left quantity unitPrice lineItem].
  match goal with |- context [(?s + 1 * 0)%float] => 
    pose proof (add_zero_sameValueZero s) as Hs end.
  split; [exact Hs|].
  apply add_sameValueZero; [exact Hs|].
  apply mul_sameValueZero; [exact Hs|apply sameValueZero_refl].
Qed.

(** X23.  On the invoice page, removing the line just added gives back
    the invoice as it was, provided no line already has the id the new
    line got from the clock. *)
Theorem X23_removeItem_after_addItem (now : string) (invoice : Page.Invoice) :
  (forall item, item ∈ Page.f_items invoice -> item_id item <> now) ->
  Page.removeItem now (Page.addItem now invoice) = invoice.
Proof.
  intros H. unfold Page.removeItem, Page.addItem. cbn [Page.f_items Page.with_items].
  rewrite filter_app, filter_cons_False, filter_nil, app_nil_r by (simpl; tauto).
  rewrite filter_id_all by exact H.
  destruct invoice; reflexivity.
Qed.

Lemma X23_removeItem_after_addItem_witness :
  Page.removeItem "1700000000001" (Page.addItem "1700000000001" form_1) = form_1.
Proof.
  apply (X23_removeItem_after_addItem "1700000000001" form_1).
  intros item Hin. apply list_elem_of_singleton in Hin. subst item. discriminate.
Defined.

(** X24.  Lines added within the same millisecond get the same id and are
    not told apart: [removeItem] with that id removes both, together with
    any older line of that id, and [updateItem] with that id changes both
    in the same way. *)
Theorem X24_lines_added_in_the_same_millisecond (now : string) (c : Page.Change)
    (invoice : Page.Invoice) :
  Page.removeItem now (Page.addItem now (Page.addItem now invoice))
    = Page.removeItem now invoice
  /\ exists changed,
       Page.f_items (Page.updateItem now c (Page.addItem now (Page.addItem now invoice)))
         = Page.f_items (Page.updateItem now c invoice) ++ [changed; changed].
Proof.
  split.
  - unfold Page.removeItem, Page.addItem. cbn [Page.f_items Page.with_items].
    rewrite !filter_app, !filter_cons_False, filter_nil, !app_nil_r by (simpl; tauto).
    reflexivity.
  - unfold Page.updateItem, Page.addItem. cbn [Page.f_items Page.with_items].
    rewrite !map_app. simpl. rewrite String.eqb_refl, <- app_assoc. simpl. eauto.
Qed.

(** X25.  [updateItem] with an id no line has changes nothing. *)
Theorem X25_updateItem_unknown_id (i : string) (c : Page.Change) (invoice : Page.Invoice) :
  (forall item, item ∈ Page.f_items invoice -> item_id item <> i) ->
  Page.updateItem i c invoice = invoice.
Proof.
  intros H. unfold Page.updateItem.
  assert (E : map (fun item => if String.eqb (item_id item) i then Page.assign c item else item)
                  (Page.f_items invoice) = Page.f_items invoice).
  { induction (Page.f_items invoice) as [|a l IH]; [reflexivity|].
    simpl. rewrite (proj2 (String.eqb_neq _ _)) by (apply H; left).
    f_equal. apply IH. intros x Hx. apply H. right. exact Hx. }
  rewrite E. destruct invoice; reflexivity.
Qed.

Lemma X25_updateItem_unknown_id_witness :
  Page.updateItem "1700000000001" (Page.SetQuantity 5%float) form_1 = form_1.
Proof.
  apply (X25_updateItem_unknown_id "1700000000001" (Page.SetQuantity 5%float) form_1).
  intros item Hin. apply list_elem_of_singleton in Hin. subst item. discriminate.
Defined.

(** X26.  In the React client, [handleRemoveItem index] removes the line
    at that position and keeps the others in order; an index past the
    end removes nothing; and removing the line [handleAddItem] appended
    gives back the lines as they were. *)
Theorem X26_handleRemoveItem_by_index (index n : nat) (items : list InvoiceItem) :
  Client.handleRemoveItem index items = take index items ++ drop (S index) items
  /\ Client.handleRemoveItem (length items + n) items = items
  /\ Client.handleRemoveItem (length items) (Client.handleAddItem items) = items.
Proof.
  assert (H : forall i l, Client.handleRemoveItem i l = take i l ++ drop (S i) l).
  { intros i l. unfold Client.handleRemoveItem. rewrite filterIndex_remove by lia.
    rewrite Nat.sub_0_r. reflexivity. }
  split; [apply H|]. split.
  - rewrite H, take_ge, drop_ge, app_nil_r by lia. reflexivity.
  - rewrite H. unfold Client.handleAddItem.
    rewrite take_app_length, drop_ge, app_nil_r; [reflexivity|].
    rewrite length_app. simpl. lia.
Qed.

(** X27.  The check of the page is at least as strict as the check of the
    routes: when [handleSubmit] does not stop the form, a body that
    carries the form's invoice date, sender, recipient and items passes
    the required-field test of [POST /api/invoices] and
    [PUT /api/invoices/:id]. *)
Theorem X27_complete_form_passes_the_route_check (invoice : Page.Invoice) (b : Next.Body) :
  Page.incomplete invoice = false ->
  Next.b_invoiceDate b = Some (Page.f_invoiceDate invoice) ->
  Next.b_sender b = Some (Page.f_sender invoice) ->
  Next.b_recipient b = Some (Page.f_recipient invoice) ->
  Next.b_items b = Next.ItemsArray (Page.f_items invoice) ->
  Next.missingRequired b = false.
Proof.
  intros H Hd Hs Hr Hi. unfold Page.incomplete in H.
  rewrite !orb_false_iff, !negb_false_iff in H. destruct H as [[[H1 _] _] H4].
  unfold Next.missingRequired. rewrite Hd, Hs, Hr, Hi, H1, H4. reflexivity.
Qed.

Lemma X27_complete_form_passes_the_route_check_witness :
  Next.missingRequired body_of_form_1 = false.
Proof.
  apply (X27_complete_form_passes_the_route_check form_1 body_of_form_1); reflexivity.
Defined.

(** ** The connection test *)

(** X28.  [testConnection] returns, for every number of tries and every
    behaviour of the database.  It returns [true] exactly when one of the
    first [retries] calls of [sequelize.authenticate()] resolves; it stops
    at the first call that resolves, makes at most [retries] calls, all
    of them when it returns [false], and waits once between two calls:
    never after the last one. *)
Theorem X28_testConnection_tries_until_connected (authenticate : nat -> bool) (retries : nat) :
  exists ok s,
    Db.testConnection authenticate retries = Some (ok, s)
    /\ (ok = true <-> exists k, k < retries /\ authenticate k = true)
    /\ Db.calls s <= retries
    /\ Db.waits s = Nat.pred (Db.calls s)
    /\ (forall j, j < Nat.pred (Db.calls s) -> authenticate j = false)
    /\ (ok = false -> Db.calls s = retries).
Proof.
  unfold Db.testConnection. destruct retries as [|m].
  - simpl. eexists _, _. split; [reflexivity|]. simpl.
    repeat split; try lia; try discriminate.
    intros (k & Hk & _). lia.
  - destruct (testConnectionLoop_spec authenticate (S m) m 1 0
                {| Db.calls := 0; Db.waits := 0 |})
      as (ok & s' & E & Hle & Hw & Hfail & Hok & Hno); try reflexivity; try lia.
    replace (S (S m)) with (S m + 1) by lia. rewrite E.
    exists ok, s'. split; [reflexivity|].
    assert (Hp : Nat.pred (Db.calls s') = Db.waits s') by lia.
    rewrite Hp. repeat split; try assumption; try lia.
    + intros ->. exists (Db.waits s'). split; [lia|exact Hok].
    + intros (k & Hk & Hak). destruct ok; [reflexivity|].
      specialize (Hno eq_refl).
      destruct (decide (k < Db.waits s')) as [Hlt|Hge].
      * rewrite Hfail in Hak by exact Hlt. discriminate Hak.
      * assert (k = Db.waits s') by lia. subst k. congruence.
Qed.

(** X29.  [initDb] returns, after at most 5 calls of
    [sequelize.authenticate()] and 4 delays.  It calls [sequelize.sync]
    exactly when one of these calls resolves, and returns [true] exactly
    when, in addition, [sync] resolves. *)
Theorem X29_initDb_syncs_only_when_connected (authenticate : nat -> bool) (sync : bool) :
  exists result s synced,
    Db.initDb authenticate sync = Some (result, s, synced)
    /\ (synced = true <-> exists k, k < 5 /\ authenticate k = true)
    /\ result = synced && sync
    /\ Db.calls s <= 5 /\ Db.waits s <= 4.
Proof.
  destruct (testConnectionLoop_spec authenticate 5 4 1 0
              {| Db.calls := 0; Db.waits := 0 |})
    as (ok & s & E & Hle & Hw & Hfail & Hok & Hno); try reflexivity; try lia.
  unfold Db.initDb, Db.testConnection.
  change (S 5) with (5 + 1). rewrite E.
  destruct ok; simpl.
  - exists sync, s, true. repeat split; try lia.
    intros _. exists (Db.waits s). split; [lia|exact Hok].
  - exists false, s, false. repeat split; try lia; try discriminate.
    intros (k & Hk & Hak). specialize (Hno eq_refl).
    destruct (decide (k < Db.waits s)) as [Hlt|Hge].
    + rewrite Hfail in Hak by exact Hlt. discriminate Hak.
    + assert (k = Db.waits s) by lia. subst k. congruence.
Qed.
